(** * Thyrotoxic Periodic Paralysis monitoring scripts: a shallow embedding

    This development embeds the data-processing core of the repository
    ([scripts/analyze_data.py] and [scripts/tpp_utils.py]) and states the
    properties of its specification against that embedding.

    Conventions of the embedding:
    - a Python/NumPy [float] is idealised as a real number or [NaN]
      (rounding is not modelled); integers are [Z] or [nat];
    - a pandas [DataFrame] is an ordered list of named, typed columns;
      in-place mutation of the caller's frame is made explicit by returning
      the final frame next to the result;
    - a Python exception is a value of [exn], returned through [result];
    - library calls (pandas, NumPy, SciPy) are given the behaviour their
      documentation states for the arguments the scripts pass; where the
      libraries leave a choice open or their answer depends on their
      internals (the order of rows with equal sort keys, what is made of a
      column that is not numeric), the answer is a parameter of the
      embedding, gathered in the class [Library]. *)

From Stdlib Require Import Reals Lra Lia ZArith List String Ascii Bool.
From Stdlib Require Import Permutation Sorted.
From Stdlib Require Import DecimalString DecimalZ DecimalPos.
From stdpp Require Import gmap strings pretty sorting.
Import ListNotations.

Local Open Scope string_scope.
Local Open Scope list_scope.

(** ** Floating-point values *)

Inductive float : Type :=
| Fin (x : R)
| NaN.

Definition Rltb (x y : R) : bool := if Rlt_dec x y then true else false.
Definition Reqb (x y : R) : bool := if Req_dec_T x y then true else false.

Definition is_nan (a : float) : bool :=
  match a with NaN => true | Fin _ => false end.

(** [a > b]; every comparison with [NaN] is false. *)
Definition fgt (a b : float) : bool :=
  match a, b with
  | Fin x, Fin y => Rltb y x
  | _, _ => false
  end.

Definition flt (a b : float) : bool := fgt b a.

Definition fabs (a : float) : float :=
  match a with Fin x => Fin (Rabs x) | NaN => NaN end.

Definition fsub (a b : float) : float :=
  match a, b with
  | Fin x, Fin y => Fin (x - y)
  | _, _ => NaN
  end.

(** The observations of a numeric column: its values that are not [NaN]
    (pandas reductions skip missing values). *)
Fixpoint finite_values (l : list float) : list R :=
  match l with
  | [] => []
  | Fin x :: t => x :: finite_values t
  | NaN :: t => finite_values t
  end.

(** ** Python exceptions *)

Inductive exn : Type :=
| KeyError (k : string)
| ZeroDivisionError
| TypeError
| AttributeError
| ValueError
| DataError
| OverflowError.

Inductive result (A : Type) : Type :=
| Ok (a : A)
| Raise (e : exn).

Arguments Ok {A} a.
Arguments Raise {A} e.

Definition is_ok {A} (r : result A) : bool :=
  match r with Ok _ => true | Raise _ => false end.

(** ** Sorting

    One stable insertion sort serves every ordering the scripts ask of
    pandas; [lt y x] says that [y] must come strictly before [x], and
    elements that are not ordered by [lt] keep their input order. *)

Fixpoint insert_stable {A} (lt : A -> A -> bool) (x : A) (l : list A) : list A :=
  match l with
  | [] => [x]
  | y :: t => if lt y x then y :: insert_stable lt x t else x :: y :: t
  end.

Definition stable_sort {A} (lt : A -> A -> bool) (l : list A) : list A :=
  fold_right (insert_stable lt) [] l.

(** ** Descriptive statistics *)

Definition Rsum (l : list R) : R := fold_right Rplus 0%R l.

Definition Rmean (l : list R) : R := (Rsum l / INR (length l))%R.

(** Sum of squared deviations from the mean. *)
Definition sq_dev (l : list R) : R :=
  Rsum (map (fun x => ((x - Rmean l) * (x - Rmean l))%R) l).

(** Variance with [ddof] delta degrees of freedom: denominator [n - ddof]. *)
Definition variance (ddof : nat) (l : list R) : R :=
  (sq_dev l / INR (length l - ddof))%R.

(** [Series.mean()] *)
Definition series_mean (l : list float) : float :=
  match finite_values l with
  | [] => NaN
  | xs => Fin (Rmean xs)
  end.

(** [Series.std()], pandas default [ddof=1]: undefined below two
    observations. *)
Definition series_std (l : list float) : float :=
  let xs := finite_values l in
  if (length xs <=? 1)%nat then NaN else Fin (sqrt (variance 1 xs)).

Definition series_min (l : list float) : float :=
  match finite_values l with
  | [] => NaN
  | x :: xs => Fin (fold_left Rmin xs x)
  end.

Definition series_max (l : list float) : float :=
  match finite_values l with
  | [] => NaN
  | x :: xs => Fin (fold_left Rmax xs x)
  end.

(** [Series.quantile(k/4)] with linear interpolation between order
    statistics: position [(n-1)*k/4] in the sorted observations. *)
Definition quartile (k : nat) (l : list float) : float :=
  match stable_sort Rltb (finite_values l) with
  | [] => NaN
  | x :: xs =>
    let s := x :: xs in
    let pos := ((length s - 1) * k)%nat in
    let lo := nth (pos / 4) s x in
    let hi := nth (pos / 4 + 1) s lo in
    Fin (lo + INR (pos mod 4) / 4 * (hi - lo))%R
  end.

(** [Series.median()] *)
Definition series_median (l : list float) : float := quartile 2 l.

(** [scipy.stats.zscore(a)] with its defaults [ddof=0] and
    [nan_policy='propagate']: the deviation from the mean over the
    population standard deviation.  A [NaN] in the input makes the mean, and
    with it every score, [NaN]; a zero standard deviation makes every score
    the quotient 0/0.  The scores are the exact real quotients: the doubles
    SciPy computes can differ from them in the last places, so a score that
    is exactly 2 here (as that of 62 in the batch 60, 60, 60, 60, 62) can be
    a little above 2 there.  What is proved of the comparison with the
    threshold is proved of the exact scores. *)
Definition zscore (l : list float) : list float :=
  if existsb is_nan l then map (fun _ => NaN) l
  else
    let xs := finite_values l in
    let mn := Rmean xs in
    let sd := sqrt (variance 0 xs) in
    map (fun x => if Reqb sd 0 then NaN else Fin ((x - mn) / sd)%R) xs.

(** ** Data frames *)

Inductive column : Type :=
| NumCol (v : list float)    (* numeric dtype; NaN is the missing value *)
| ObjCol (v : list string)   (* object dtype holding text *)
| TimeCol (v : list Z).      (* datetime64, in seconds *)

Inductive cell : Type :=
| CNum (x : float)
| CStr (s : string)
| CTime (t : Z).

Definition column_cells (c : column) : list cell :=
  match c with
  | NumCol v => map CNum v
  | ObjCol v => map CStr v
  | TimeCol v => map CTime v
  end.

Definition column_length (c : column) : nat := length (column_cells c).

(** A frame: the length of its index and its columns in their order,
    keyed by name. *)
Record DataFrame : Type := {
  df_len : nat;                       (* [len(df)] *)
  df_cols : list (string * column)
}.

(** [df.columns] *)
Definition df_columns (df : DataFrame) : list string := map fst (df_cols df).

Fixpoint cols_get (name : string) (cs : list (string * column)) : option column :=
  match cs with
  | [] => None
  | (k, c) :: t => if String.eqb k name then Some c else cols_get name t
  end.

Fixpoint cols_set (name : string) (c : column) (cs : list (string * column))
  : list (string * column) :=
  match cs with
  | [] => [(name, c)]
  | (k, c0) :: t =>
    if String.eqb k name then (k, c) :: t else (k, c0) :: cols_set name c t
  end.

(** [df[name]]: [None] stands for the [KeyError]. *)
Definition df_get (name : string) (df : DataFrame) : option column :=
  cols_get name (df_cols df).

(** [df[name] = c]: an existing column is replaced in place, a new one is
    appended after the others; the index is kept. *)
Definition df_set (name : string) (c : column) (df : DataFrame) : DataFrame :=
  {| df_len := df_len df; df_cols := cols_set name c (df_cols df) |}.

(** [name in df.columns] *)
Definition df_has (name : string) (df : DataFrame) : bool :=
  match df_get name df with Some _ => true | None => false end.

(** Every column has as many cells as the index has entries. *)
Definition well_formed (df : DataFrame) : Prop :=
  Forall (fun kc => column_length (snd kc) = df_len df) (df_cols df).

(** ** The analysis report ([analyze_data.py]) *)

Record DateRange : Type := {
  dr_start : option Z;          (* [None] is NaT *)
  dr_end : option Z;
  duration_hours : float
}.

Record Summary : Type := {
  total_records : nat;
  columns : list string;
  date_range : option DateRange
}.

Record ColumnStats : Type := {
  st_mean : float;
  st_median : float;
  st_std : float;
  st_min : float;
  st_max : float;
  st_q25 : float;
  st_q75 : float
}.

(** One row of [anomalies[['timestamp', 'heartRate', 'hr_zscore']]]. *)
Record AnomalyRecord : Type := {
  a_timestamp : cell;
  a_heartRate : cell;
  a_hr_zscore : cell
}.

Record Anomalies : Type := {
  count : nat;
  percentage : R;
  threshold : R;
  records : list AnomalyRecord
}.

Record ActivityInfo : Type := {
  act_count : nat;
  act_percentage : R
}.

Record ActivityStats : Type := {
  mean_hr : float;
  std_hr : float;
  min_hr : float;
  max_hr : float
}.

(** The [results] dictionary.  Python dictionaries keep insertion order, so
    the keyed blocks are lists of pairs; the empty dictionary left in
    ['anomalies'] when there is no heart-rate column is [None], and so is
    the key ['activity_stats'] when it is not set. *)
Record Report : Type := {
  summary : Summary;
  statistics : list (string * ColumnStats);
  anomalies : option Anomalies;
  activity_breakdown : list (cell * ActivityInfo);
  activity_stats : option (list (cell * ActivityStats))
}.

Definition anomaly_threshold : R := 2%R.

(** ** The libraries

    The scripts hand three things to pandas, NumPy and SciPy that their
    documentation does not settle or that depend on the library at hand.
    They are parameters of the embedding; what is proved holds of every
    choice, and a property that needs more of a library says so in a
    hypothesis. *)
Class Library : Type := {
  (** The row order [sort_values] chooses for a key column: row numbers of
      the input in their new order.  The default routine (quicksort) is not
      stable: it may put rows with equal keys in any order. *)
  argsort : column -> list nat;
  (** The number a text becomes when a window operation coerces an object
      column to [float64], if it becomes one. *)
  float_of_text : string -> option float;
  (** The grouped aggregation [groupby('activity')['heartRate'].agg(...)],
      with the conversion of its entries by [float], for a heart-rate column
      that is not numeric; the first argument holds the group keys. *)
  groupby_other : list cell -> column -> result (list (cell * ActivityStats))
}.

Definition Zmin_list (x : Z) (l : list Z) : Z := fold_left Z.min l x.
Definition Zmax_list (x : Z) (l : list Z) : Z := fold_left Z.max l x.

(** The date range of the summary.  [min()] and [max()] of an empty
    datetime column are NaT and so is their difference, whose
    [total_seconds()] is NaN; on a column that was not converted to
    datetimes the difference is not a timedelta. *)
Definition date_range_block (df : DataFrame) : result (option DateRange) :=
  match df_get "timestamp" df with
  | None => Ok None
  | Some (TimeCol []) =>
    Ok (Some {| dr_start := None; dr_end := None; duration_hours := NaN |})
  | Some (TimeCol (t :: ts)) =>
    let lo := Zmin_list t ts in
    let hi := Zmax_list t ts in
    Ok (Some {| dr_start := Some lo; dr_end := Some hi;
                duration_hours := Fin (IZR (hi - lo) / 3600)%R |})
  | Some (NumCol _) => Raise AttributeError
  | Some (ObjCol []) => Raise AttributeError
  | Some (ObjCol (_ :: _)) => Raise TypeError
  end.

Definition describe (v : list float) : ColumnStats :=
  {| st_mean := series_mean v;
     st_median := series_median v;
     st_std := series_std v;
     st_min := series_min v;
     st_max := series_max v;
     st_q25 := quartile 1 v;
     st_q75 := quartile 3 v |}.

(** [df.select_dtypes(include=[np.number])] and the loop over it. *)
Fixpoint numeric_statistics (cs : list (string * column)) : list (string * ColumnStats) :=
  match cs with
  | [] => []
  | (k, NumCol v) :: t => (k, describe v) :: numeric_statistics t
  | _ :: t => numeric_statistics t
  end.

Definition statistics_block (df : DataFrame) : list (string * ColumnStats) :=
  numeric_statistics (df_cols df).

Section Analysis.

Context {L : Library}.

(** [stats.zscore(df['heartRate'])].  Datetimes are scored as the numbers
    that hold them (the scores do not depend on their unit); text has no
    mean: the sum of no text at all is not an array and has no [dtype],
    and a sum of texts is not divided. *)
Definition zscore_column (c : column) : result (list float) :=
  match c with
  | NumCol v => Ok (zscore v)
  | TimeCol v => Ok (zscore (map (fun t => Fin (IZR t)) v))
  | ObjCol [] => Raise AttributeError
  | ObjCol (_ :: _) => Raise TypeError
  end.

(** Boolean-mask row selection [s[mask]]. *)
Fixpoint mask_select {A} (mask : list bool) (l : list A) : list A :=
  match mask, l with
  | true :: m, x :: t => x :: mask_select m t
  | false :: m, _ :: t => mask_select m t
  | _, _ => []
  end.

Fixpoint zip3 (a b c : list cell) : list AnomalyRecord :=
  match a, b, c with
  | x :: a', y :: b', z :: c' =>
    {| a_timestamp := x; a_heartRate := y; a_hr_zscore := z |} :: zip3 a' b' c'
  | _, _, _ => []
  end.

(** [anomalies[['timestamp', 'heartRate', 'hr_zscore']].to_dict('records')] *)
Definition anomaly_records (df : DataFrame) (mask : list bool)
  : result (list AnomalyRecord) :=
  match df_get "timestamp" df, df_get "heartRate" df, df_get "hr_zscore" df with
  | None, _, _ => Raise (KeyError "timestamp")
  | _, None, _ => Raise (KeyError "heartRate")
  | _, _, None => Raise (KeyError "hr_zscore")
  | Some ts, Some hr, Some zs =>
    Ok (zip3 (mask_select mask (column_cells ts))
             (mask_select mask (column_cells hr))
             (mask_select mask (column_cells zs)))
  end.

(** The anomaly block.  It returns the frame as the block leaves it: the
    z-scores are stored in the caller's frame as column [hr_zscore]. *)
Definition anomaly_block (df : DataFrame) : DataFrame * result (option Anomalies) :=
  match df_get "heartRate" df with
  | None => (df, Ok None)
  | Some hr =>
    match zscore_column hr with
    | Raise e => (df, Raise e)
    | Ok z =>
      let hr_zscore := map fabs z in
      let df1 := df_set "hr_zscore" (NumCol hr_zscore) df in
      let mask := map (fun s => fgt s (Fin anomaly_threshold)) hr_zscore in
      let n_anom := length (List.filter (fun b : bool => b) mask) in
      if (df_len df1 =? 0)%nat then (df1, Raise ZeroDivisionError)
      else
        let pct := (INR n_anom / INR (df_len df1) * 100)%R in
        if (0 <? n_anom)%nat then
          match anomaly_records df1 mask with
          | Raise e => (df1, Raise e)
          | Ok recs =>
            (df1, Ok (Some {| count := n_anom; percentage := pct;
                              threshold := anomaly_threshold; records := recs |}))
          end
        else
          (df1, Ok (Some {| count := n_anom; percentage := pct;
                            threshold := anomaly_threshold; records := [] |}))
    end
  end.

(** Equality of cells as [value_counts] and [groupby] see it; a missing
    value equals nothing. *)
Definition cell_eqb (a b : cell) : bool :=
  match a, b with
  | CNum (Fin x), CNum (Fin y) => Reqb x y
  | CStr s, CStr t => String.eqb s t
  | CTime s, CTime t => Z.eqb s t
  | _, _ => false
  end.

Definition cell_ltb (a b : cell) : bool :=
  match a, b with
  | CNum (Fin x), CNum (Fin y) => Rltb x y
  | CStr s, CStr t => String.ltb s t
  | CTime s, CTime t => Z.ltb s t
  | _, _ => false
  end.

Definition is_missing (c : cell) : bool :=
  match c with CNum NaN => true | _ => false end.

(** [dropna] *)
Definition present_cells (l : list cell) : list cell :=
  List.filter (fun c => negb (is_missing c)) l.

(** The distinct values of a list, in order of first appearance. *)
Fixpoint distinct (l : list cell) : list cell :=
  match l with
  | [] => []
  | x :: t => x :: List.filter (fun y => negb (cell_eqb x y)) (distinct t)
  end.

Definition occurrences (x : cell) (l : list cell) : nat :=
  length (List.filter (cell_eqb x) l).

(** [Series.value_counts()]: the distinct values that are not missing, each
    with its number of occurrences, sorted by that number, largest first.
    Values with equal numbers are kept in order of first appearance here;
    pandas leaves their order to its sorting routine. *)
Definition value_counts (l : list cell) : list (cell * nat) :=
  let present := present_cells l in
  stable_sort (fun y x : cell * nat => (snd x <? snd y)%nat)
    (map (fun k => (k, occurrences k present)) (distinct present)).

(** The heart rates of the rows whose key is [k]. *)
Definition group_values (k : cell) (keys : list cell) (vals : list float) : list float :=
  map snd (List.filter (fun kv : cell * float => cell_eqb k (fst kv)) (combine keys vals)).

(** [df.groupby('activity')['heartRate'].agg(['mean', 'std', 'min', 'max'])]:
    one row per key, keys in ascending order. *)
Definition groupby_heart_rate (keys : list cell) (vals : list float)
  : list (cell * ActivityStats) :=
  map (fun k =>
         let g := group_values k keys vals in
         (k, {| mean_hr := series_mean g; std_hr := series_std g;
                min_hr := series_min g; max_hr := series_max g |}))
      (stable_sort cell_ltb (distinct (present_cells keys))).

Definition breakdown_of (n : nat) (counts : list (cell * nat)) : list (cell * ActivityInfo) :=
  map (fun kc : cell * nat =>
         (fst kc, {| act_count := snd kc;
                     act_percentage := (INR (snd kc) / INR n * 100)%R |}))
      counts.

(** The activity blocks.  The grouped aggregation of a heart-rate column
    that is not numeric is left to the library. *)
Definition activity_block (df : DataFrame)
  : result (list (cell * ActivityInfo) * option (list (cell * ActivityStats))) :=
  match df_get "activity" df with
  | None => Ok ([], None)
  | Some act =>
    let breakdown := breakdown_of (df_len df) (value_counts (column_cells act)) in
    match df_get "heartRate" df with
    | None => Ok (breakdown, None)
    | Some (NumCol hr) =>
      Ok (breakdown, Some (groupby_heart_rate (column_cells act) hr))
    | Some hr =>
      match groupby_other (column_cells act) hr with
      | Ok st => Ok (breakdown, Some st)
      | Raise e => Raise e
      end
    end
  end.

(** [analyze_data(df)]: the frame as the call leaves it, and the report or
    the exception raised. *)
Definition analyze_data (df : DataFrame) : DataFrame * result Report :=
  let total := df_len df in
  let cols := df_columns df in
  match date_range_block df with
  | Raise e => (df, Raise e)
  | Ok dr =>
    let stats := statistics_block df in
    match anomaly_block df with
    | (df1, Raise e) => (df1, Raise e)
    | (df1, Ok anom) =>
      match activity_block df1 with
      | Raise e => (df1, Raise e)
      | Ok (breakdown, act_stats) =>
        (df1, Ok {| summary := {| total_records := total; columns := cols;
                                  date_range := dr |};
                    statistics := stats;
                    anomalies := anom;
                    activity_breakdown := breakdown;
                    activity_stats := act_stats |})
      end
    end
  end.

End Analysis.

(** ** Data processing ([tpp_utils.py], class [DataProcessor]) *)

Definition bind {A B} (r : result A) (k : A -> result B) : result B :=
  match r with
  | Ok a => k a
  | Raise e => Raise e
  end.

Notation "'do' x <- e ; k" := (bind e (fun x => k))
  (at level 10, x name, e at level 100, k at level 200).

(** The order [sort_values] puts keys in: ascending, missing values last. *)
Definition sort_key_ltb (a b : cell) : bool :=
  match a, b with
  | CNum (Fin _), CNum NaN => true
  | _, _ => cell_ltb a b
  end.

(** One sorting routine: a stable insertion sort, which keeps rows with
    equal keys in their input order.  It is an instance of [argsort], used to
    run the passes on concrete frames; the routine pandas uses by default
    does not keep that order, so the properties of the code are stated for
    every [argsort]. *)
Definition stable_argsort (key : column) : list nat :=
  map snd
    (stable_sort (fun a b : cell * nat => sort_key_ltb (fst a) (fst b))
       (combine (column_cells key) (seq 0 (column_length key)))).

Definition take_rows {A} (d : A) (rows : list nat) (l : list A) : list A :=
  map (fun i => nth i l d) rows.

Definition column_take (rows : list nat) (c : column) : column :=
  match c with
  | NumCol v => NumCol (take_rows NaN rows v)
  | ObjCol v => ObjCol (take_rows "" rows v)
  | TimeCol v => TimeCol (take_rows 0%Z rows v)
  end.

Section Processing.

Context {L : Library}.

(** [if 'timestamp' in df.columns: df = df.sort_values('timestamp')]: the
    rows are taken in the order the sorting routine gives. *)
Definition sort_by_timestamp (df : DataFrame) : DataFrame :=
  match df_get "timestamp" df with
  | None => df
  | Some key =>
    let rows := argsort key in
    {| df_len := df_len df;
       df_cols := map (fun kc : string * column => (fst kc, column_take rows (snd kc)))
                      (df_cols df) |}
  end.

(** The last [w] elements of a list. *)
Definition lastn {A} (w : nat) (l : list A) : list A := skipn (length l - w) l.

(** The windows of [Series.rolling(window=w)], as a scan that carries the
    window: each value enters at the right and the oldest one leaves once
    the window is full. *)
Fixpoint rolling_windows_from (w : nat) (buf : list float) (l : list float)
  : list (list float) :=
  match l with
  | [] => []
  | x :: t =>
    let buf' := lastn w (buf ++ [x]) in
    buf' :: rolling_windows_from w buf' t
  end.

Definition rolling_windows (w : nat) (l : list float) : list (list float) :=
  rolling_windows_from w [] l.

(** The coercion of an object column to [float64]: every text must become
    a number. *)
Fixpoint floats_of_texts (l : list string) : option (list float) :=
  match l with
  | [] => Some []
  | s :: t =>
    match float_of_text s, floats_of_texts t with
    | Some x, Some xs => Some (x :: xs)
    | _, _ => None
    end
  end.

(** [s.rolling(window=window, min_periods=1).agg()]: the window must hold
    [min_periods]; the values are coerced to [float64], which datetimes
    refuse and an object column passes when each of its values converts (an
    empty one does); with one observation required a window without any
    gives [NaN], which is what [series_mean] and [series_std] give there. *)
Definition rolling_apply (agg : list float -> float) (window : Z) (c : column)
  : result column :=
  if (window <? 1)%Z then Raise ValueError
  else match c with
       | NumCol v => Ok (NumCol (map agg (rolling_windows (Z.to_nat window) v)))
       | ObjCol v =>
         match floats_of_texts v with
         | Some xs => Ok (NumCol (map agg (rolling_windows (Z.to_nat window) xs)))
         | None => Raise DataError
         end
       | TimeCol _ => Raise DataError
       end.

Definition get_column (name : string) (df : DataFrame) : result column :=
  match df_get name df with
  | Some c => Ok c
  | None => Raise (KeyError name)
  end.

(** [DataProcessor.calculate_rolling_stats(df, window)]; it works on a copy,
    so the caller's frame is not part of the result. *)
Definition calculate_rolling_stats (df : DataFrame) (window : Z) : result DataFrame :=
  let df := sort_by_timestamp df in
  do hr <- get_column "heartRate" df;
  do hr_mean <- rolling_apply series_mean window hr;
  let df := df_set "hr_rolling_mean" hr_mean df in
  do hrv <- get_column "hrv" df;
  do hrv_mean <- rolling_apply series_mean window hrv;
  let df := df_set "hrv_rolling_mean" hrv_mean df in
  do hr <- get_column "heartRate" df;
  do hr_std <- rolling_apply series_std window hr;
  let df := df_set "hr_rolling_std" hr_std df in
  do hrv <- get_column "hrv" df;
  do hrv_std <- rolling_apply series_std window hrv;
  Ok (df_set "hrv_rolling_std" hrv_std df).

Fixpoint diff_from (prev : float) (l : list float) : list float :=
  match l with
  | [] => []
  | x :: t => fsub x prev :: diff_from x t
  end.

(** [Series.diff()]: the first difference is undefined. *)
Definition series_diff (l : list float) : list float :=
  match l with
  | [] => []
  | x :: t => NaN :: diff_from x t
  end.

(** [bool.astype(int)] *)
Definition int_of_bool (b : bool) : float := if b then Fin 1%R else Fin 0%R.

(** [df['heartRate'].diff().abs()], as far as the comparison with the
    threshold.  Texts have no difference: from two rows on the subtraction
    raises; a text column of one row has nothing to subtract and gets the
    undefined first difference.  The difference of datetimes does not
    compare with a number. *)
Definition abs_diff_column (c : column) : result (list float) :=
  match c with
  | NumCol v => Ok (map fabs (series_diff v))
  | ObjCol [] => Ok []
  | ObjCol [_] => Ok [NaN]
  | ObjCol (_ :: _ :: _) => Raise TypeError
  | TimeCol _ => Raise TypeError
  end.

(** [DataProcessor.detect_rapid_changes(df, threshold)] *)
Definition detect_rapid_changes (df : DataFrame) (threshold : R) : result DataFrame :=
  let df := sort_by_timestamp df in
  do hr <- get_column "heartRate" df;
  do hr_change <- abs_diff_column hr;
  let df := df_set "hr_change" (NumCol hr_change) df in
  let rapid := map (fun c => int_of_bool (fgt c (Fin threshold))) hr_change in
  Ok (df_set "rapid_change" (NumCol rapid) df).

End Processing.

(** ** Record validation ([tpp_utils.py], class [DataValidator]) *)

(** Python values a record can hold; [POther] is any object that is neither
    a number nor text. *)
Inductive pyval : Type :=
| PNone
| PBool (b : bool)
| PInt (z : Z)
| PFloat (x : float)
| PStr (s : string)
| POther.

(** A record is a dictionary. *)
Abbreviation record := (gmap string pyval).

Definition REQUIRED_FIELDS : list string :=
  ["timestamp"; "heartRate"; "hrv"; "activity"].

Definition OPTIONAL_FIELDS : list string := ["device"; "temperature"].

Definition VALID_ACTIVITIES : list string :=
  ["resting"; "walking"; "exercise"; "sleeping"].

(** [isinstance(v, (int, float))] holds of integers, floats and booleans;
    the value such an object compares as. *)
Definition as_number (v : pyval) : option float :=
  match v with
  | PBool b => Some (Fin (if b then 1 else 0)%R)
  | PInt z => Some (Fin (IZR z))
  | PFloat x => Some x
  | _ => None
  end.

(** [not isinstance(v, (int, float)) or v < lo or v > hi] *)
Definition out_of_range (v : pyval) (lo : R) (hi : option R) : bool :=
  match as_number v with
  | None => true
  | Some x =>
    flt x (Fin lo) || match hi with Some h => fgt x (Fin h) | None => false end
  end.

(** [activity not in VALID_ACTIVITIES] *)
Definition not_valid_activity (v : pyval) : bool :=
  match v with
  | PStr s => negb (existsb (String.eqb s) VALID_ACTIVITIES)
  | _ => true
  end.

(** The loop over [REQUIRED_FIELDS]: the first field that is not a key. *)
Fixpoint first_missing (fields : list string) (r : record) : option string :=
  match fields with
  | [] => None
  | f :: t =>
    match r !! f with
    | None => Some f
    | Some _ => first_missing t r
    end
  end.

(** The two characters (four bytes of UTF-8) that the source file has
    before the letter C of its temperature message. *)
Definition degree_sign : string :=
  String "195" (String "130" (String "194" (String "176" EmptyString))).

Section Validator.

(** [pd.to_datetime(v)]: [None] when it returns, the message of the
    exception when it raises. *)
Variable to_datetime_error : pyval -> option string.

(** [str(v)], as an f-string renders a value. *)
Variable py_str : pyval -> string.

(** [DataValidator.validate_record(record)] *)
Definition validate_record (r : record) : bool * option string :=
  match first_missing REQUIRED_FIELDS r with
  | Some f => (false, Some ("Missing required field: " ++ f)%string)
  | None =>
    let item k := default PNone (r !! k) in
    match to_datetime_error (item "timestamp") with
    | Some e => (false, Some ("Invalid timestamp: " ++ e)%string)
    | None =>
      let hr := item "heartRate" in
      if out_of_range hr 30 (Some 220%R) then
        (false, Some ("Heart rate out of valid range (30-220): " ++ py_str hr)%string)
      else
        let hrv := item "hrv" in
        if out_of_range hrv 0 None then
          (false, Some ("Invalid HRV value: " ++ py_str hrv)%string)
        else
          let activity := item "activity" in
          if not_valid_activity activity then
            (false, Some ("Invalid activity: " ++ py_str activity
                          ++ ". Must be one of "
                          ++ "['resting', 'walking', 'exercise', 'sleeping']")%string)
          else
            match r !! "temperature" with
            | Some temp =>
              match temp with
              | PNone => (true, None)
              | _ =>
                if out_of_range temp 30 (Some 45%R) then
                  (false, Some ("Temperature out of valid range (30-45"
                                ++ degree_sign ++ "C): " ++ py_str temp)%string)
                else (true, None)
              end
            | None => (true, None)
            end
    end
  end.

End Validator.

(** ** Synthetic data ([tpp_utils.py], class [SyntheticDataGenerator]) *)

(** A naive [datetime], as whole seconds on its own calendar line, counted
    from 1970-01-01T00:00:00. *)
Abbreviation datetime := Z (only parsing).

(** The calendar of [datetime] runs from 0001-01-01T00:00:00 to the last
    second of the year 9999. *)
Definition DATETIME_MIN : Z := (-62135596800)%Z.
Definition DATETIME_MAX : Z := 253402300799%Z.

Definition in_calendar (t : Z) : bool :=
  ((DATETIME_MIN <=? t) && (t <=? DATETIME_MAX))%Z.

(** [dt.hour] *)
Definition hour_of (dt : datetime) : Z := ((dt / 3600) mod 24)%Z.

(** [dt + timedelta(minutes=m) * i]: a result outside the calendar raises
    [OverflowError]. *)
Definition plus_minutes (dt : datetime) (m : Z) (i : nat) : result datetime :=
  let t := (dt + 60 * m * Z.of_nat i)%Z in
  if in_calendar t then Ok t else Raise OverflowError.

(** [int(x)] of a float: truncation towards zero. *)
Definition py_int (x : R) : Z :=
  if Rle_dec 0 x then Int_part x else (- Int_part (- x))%Z.

(** The integers that convert to a float are those below
    [2^1024 - 2^970] in absolute value; from there on they round to a
    number no double holds. *)
Definition FLOAT_INT_LIMIT : Z := (2 ^ 1024 - 2 ^ 970)%Z.

(** The conversion of an [int] operand that meets a [float]: a value that
    does not fit raises [OverflowError]. *)
Definition float_of_int (z : Z) : result R :=
  if (Z.abs z <? FLOAT_INT_LIMIT)%Z then Ok (IZR z) else Raise OverflowError.

Definition make_record (timestamp : string) (hr hrv : Z) (activity device : string)
  : record :=
  list_to_map [("timestamp", PStr timestamp); ("heartRate", PInt hr);
               ("hrv", PInt hrv); ("activity", PStr activity);
               ("device", PStr device)].

Section Generator.

(** The state of NumPy's global generator and the draws the scripts
    make from it. *)
Variable rng : Type.
Variable seed : Z -> rng.                                   (* [np.random.seed] *)
Variable gauss : rng -> R * rng.                            (* a standard normal *)
Variable choice : list string -> list R -> rng -> string * rng.
Variable randint : Z -> Z -> rng -> Z * rng.

(** [int(date.timestamp())] of a naive datetime, which Python reads in
    the local zone and which raises where the platform has no such time,
    and [dt.isoformat()]. *)
Variable timestamp_of : datetime -> result Z.
Variable isoformat : datetime -> string.

(** Computations that draw from the generator and may raise. *)
Definition Rand (A : Type) : Type := rng -> result (A * rng).

Definition ret {A} (a : A) : Rand A := fun s => Ok (a, s).

Definition rbind {A B} (m : Rand A) (k : A -> Rand B) : Rand B :=
  fun s => match m s with
           | Ok (a, s') => k a s'
           | Raise e => Raise e
           end.

Notation "'draw' x <- e ; k" := (rbind e (fun x => k))
  (at level 10, x name, e at level 100, k at level 200).

(** A step that draws nothing. *)
Definition lift {A} (r : result A) : Rand A :=
  fun s => match r with
           | Ok a => Ok (a, s)
           | Raise e => Raise e
           end.

(** [np.random.normal(loc, scale)] *)
Definition normal (loc scale : R) : Rand R :=
  fun s => if Rltb scale 0 then Raise ValueError
           else let (g, s') := gauss s in Ok ((loc + scale * g)%R, s').

Definition choose (a : list string) (p : list R) : Rand string :=
  fun s => Ok (choice a p s).

Definition rand_int (lo hi : Z) : Rand Z :=
  fun s => Ok (randint lo hi s).

Fixpoint for_each {A} (f : nat -> Rand A) (l : list nat) : Rand (list A) :=
  match l with
  | [] => ret []
  | i :: t => draw x <- f i; draw xs <- for_each f t; ret (x :: xs)
  end.

(** [n + np.random.normal(0, scale)] for an integer [n]: the draw is made,
    then the integer is converted and added. *)
Definition int_plus_normal (n : Z) (scale : R) : Rand R :=
  draw a <- normal 0 scale;
  draw x <- lift (float_of_int n);
  ret (x + a)%R.

(** The regime of the hour: activity, heart rate and HRV before the
    global noise. *)
Definition daily_regime (base_hr : Z) (hour : Z) : Rand (string * R * R) :=
  if ((0 <=? hour) && (hour <? 6))%Z then
    draw hr <- int_plus_normal (base_hr - 20) 3; draw b <- normal 0 10;
    ret ("sleeping", hr, (70 + b)%R)
  else if ((6 <=? hour) && (hour <? 8))%Z then
    draw hr <- int_plus_normal (base_hr - 10) 5; draw b <- normal 0 8;
    ret ("resting", hr, (60 + b)%R)
  else if ((8 <=? hour) && (hour <? 12))%Z then
    draw activity <- choose ["walking"; "resting"; "exercise"] [0.5; 0.4; 0.1]%R;
    if String.eqb activity "exercise" then
      draw hr <- int_plus_normal (base_hr + 40) 10; draw b <- normal 0 5;
      ret (activity, hr, (30 + b)%R)
    else if String.eqb activity "walking" then
      draw hr <- int_plus_normal (base_hr + 15) 8; draw b <- normal 0 8;
      ret (activity, hr, (45 + b)%R)
    else
      draw hr <- int_plus_normal base_hr 5; draw b <- normal 0 8;
      ret (activity, hr, (55 + b)%R)
  else if ((12 <=? hour) && (hour <? 18))%Z then
    draw activity <- choose ["walking"; "resting"] [0.6; 0.4]%R;
    draw hr <- int_plus_normal
                 (base_hr + (if String.eqb activity "walking" then 10 else 0)) 8;
    draw b <- normal 0 10;
    ret (activity, hr, (50 + b)%R)
  else if ((18 <=? hour) && (hour <? 22))%Z then
    draw hr <- int_plus_normal (base_hr - 5) 5; draw b <- normal 0 8;
    ret ("resting", hr, (55 + b)%R)
  else
    draw hr <- int_plus_normal (base_hr - 15) 3; draw b <- normal 0 8;
    ret ("sleeping", hr, (65 + b)%R).

(** The body of the loop of [generate_daily_pattern]. *)
Definition daily_record (date : datetime) (base_hr : Z) (noise_level : R) (i : nat)
  : Rand record :=
  draw timestamp <- lift (plus_minutes date 30 i);
  draw reg <- daily_regime base_hr (hour_of timestamp);
  let '(activity, hr, hrv) := reg in
  draw noise <- normal 0 noise_level;
  let hr := Z.max 40 (Z.min 200 (py_int (hr + noise))) in
  let hrv := Z.max 10 (py_int hrv) in
  ret (make_record (isoformat timestamp) hr hrv activity "Synthetic Generator").

(** [SyntheticDataGenerator.generate_daily_pattern]: the generator is
    seeded first, so the state it is called in is not read. *)
Definition generate_daily_pattern (date : datetime) (num_records : Z) (base_hr : Z)
    (noise_level : R) : Rand (list record) :=
  fun _ =>
    match timestamp_of date with
    | Raise e => Raise e
    | Ok t =>
      for_each (daily_record date base_hr noise_level)
               (seq 0 (Z.to_nat num_records))
               (seed (t mod 1000)%Z)
    end.

(** The body of the loop of [generate_tpp_episode]: onset, peak and
    recovery by the progress [i / num_records]. *)
Definition episode_record (start_time : datetime) (num_records : Z) (i : nat)
  : Rand record :=
  draw timestamp <- lift (plus_minutes start_time 5 i);
  let progress := (INR i / IZR num_records)%R in
  draw v <-
    (if Rltb progress 0.3 then
       ret ((45 + py_int (15 * (1 - progress / 0.3)))%Z,
            (20 + py_int (10 * progress / 0.3))%Z)
     else if Rltb progress 0.7 then
       draw a <- rand_int (-5) 5; draw b <- rand_int (-3) 3;
       ret ((40 + a)%Z, (15 + b)%Z)
     else
       let recovery_progress := ((progress - 0.7) / 0.3)%R in
       ret ((45 + py_int (25 * recovery_progress))%Z,
            (20 + py_int (30 * recovery_progress))%Z));
  ret (make_record (isoformat timestamp) (fst v) (snd v) "resting"
                   "TPP Episode Simulator").

(** [SyntheticDataGenerator.generate_tpp_episode]: it draws from the
    generator in the state it is called in. *)
Definition generate_tpp_episode (start_time : datetime) (duration_minutes : Z)
  : Rand (list record) :=
  let num_records := (duration_minutes / 5)%Z in
  for_each (episode_record start_time num_records) (seq 0 (Z.to_nat num_records)).

End Generator.

Arguments ret {rng A} a.
Arguments rbind {rng A B} m k.
Arguments lift {rng A} r.
Arguments for_each {rng A} f l.

(** *** A concrete generator and concrete libraries

    A small congruential generator and plain renderings of time, to run the
    generators on concrete inputs. *)

Definition lcg_next (s : Z) : Z := ((1103515245 * s + 12345) mod 2147483648)%Z.

Definition lcg_seed (n : Z) : Z := n.

Definition lcg_gauss (s : Z) : R * Z := ((IZR (s mod 7 - 3) / 2)%R, lcg_next s).

Definition lcg_choice (a : list string) (p : list R) (s : Z) : string * Z :=
  (nth (Z.to_nat (s mod Z.of_nat (length a))) a "", lcg_next s).

Definition lcg_randint (lo hi : Z) (s : Z) : Z * Z :=
  ((lo + s mod (hi - lo))%Z, lcg_next s).

(** Naive datetimes read as UTC. *)
Definition utc_timestamp (dt : datetime) : result Z := Ok dt.

(** Seconds rendered as a signed decimal numeral, and read back. *)
Definition seconds_format (dt : datetime) : string :=
  NilZero.string_of_int (Z.to_int dt).

Definition parse_seconds (s : string) : option Z :=
  option_map Z.of_int (NilZero.int_of_string s).

(** A parser that accepts every text and nothing else. *)
Definition text_to_datetime_error (v : pyval) : option string :=
  match v with
  | PStr _ => None
  | _ => Some "not a datetime"
  end.

(** The instants pandas holds in nanoseconds: from 1677-09-21T00:12:44 to
    2262-04-11T23:47:16, in whole seconds. *)
Definition TIMESTAMP_MIN : Z := (-9223372036)%Z.
Definition TIMESTAMP_MAX : Z := 9223372036%Z.

Definition in_timestamp_range (t : Z) : bool :=
  ((TIMESTAMP_MIN <=? t) && (t <=? TIMESTAMP_MAX))%Z.

(** A parser of the texts [seconds_format] writes that holds instants in
    nanoseconds, as [pd.to_datetime] does: an instant out of its range is an
    error.  Only texts are given to it. *)
Definition ns_to_datetime_error (v : pyval) : option string :=
  match v with
  | PStr s =>
    match parse_seconds s with
    | Some t =>
      if in_timestamp_range t then None
      else Some ("Out of bounds nanosecond timestamp: " ++ s)%string
    | None => Some ("Unknown datetime string format, unable to parse: " ++ s)%string
    end
  | _ => Some "not a text"
  end.

Definition no_str (v : pyval) : string := "".

(** A library with the stable sorting routine, for which no text is a
    number and which refuses heart rates that are not numeric. *)
Definition stable_library : Library :=
  {| argsort := stable_argsort;
     float_of_text := fun _ => None;
     groupby_other := fun _ _ => Raise TypeError |}.

(** ** Notions of the specification

    Stated from the words of the specification, to compare the code with. *)

(** What a sorting routine owes on a column of datetimes: the rows it
    returns are the rows of the input, each once, and their timestamps do
    not decrease.  The order of rows with equal timestamps is its own. *)
Definition sorts_datetimes (L : Library) : Prop :=
  forall ts : list Z,
    Permutation (argsort (TimeCol ts)) (seq 0 (length ts))
    /\ Sorted Z.le (take_rows 0%Z (argsort (TimeCol ts)) ts).

(** [m] is the arithmetic mean of the values [xs]: their sum over their
    number. *)
Definition is_mean (xs : list R) (m : R) : Prop :=
  xs <> [] /\ (m * INR (length xs) = fold_right Rplus 0 xs)%R.

(** [s] is the sample standard deviation of the values [xs], with the
    [n - 1] estimator: it is not negative, and its square times [n - 1] is
    the sum of the squared distances to the mean. *)
Definition is_sample_std (xs : list R) (s : R) : Prop :=
  2 <= length xs /\ (0 <= s)%R
  /\ exists m, is_mean xs m
       /\ (s * s * INR (length xs - 1)
           = fold_right Rplus 0 (map (fun x => (x - m) * (x - m)) xs))%R.

(** The mean of a window as the specification has it: that of its
    observations, undefined when it has none. *)
Definition mean_of (win : list float) (a : float) : Prop :=
  match a with
  | Fin m => is_mean (finite_values win) m
  | NaN => finite_values win = []
  end.

(** Its standard deviation: undefined below two observations. *)
Definition sample_std_of (win : list float) (a : float) : Prop :=
  match a with
  | Fin s => is_sample_std (finite_values win) s
  | NaN => length (finite_values win) <= 1
  end.


(** The trailing window of the specification at position [i]: the
    [min(w, i+1)] values that end at [i]. *)
Definition trailing_window (w : nat) (l : list float) (i : nat) : list float :=
  let size := Nat.min w (S i) in
  firstn size (skipn (S i - size) l).

(** What the specification asks of the rolling columns of one series:
    at every position the mean and the standard deviation of the trailing
    window, whose size is [min(w, i+1)]; at position 0 the value itself and
    no deviation; from position [w-1] on a window of exactly [w] values. *)
Definition rolling_spec (w : nat) (values means stds : list float) : Prop :=
  length means = length values
  /\ length stds = length values
  /\ (forall i, i < length values ->
        exists a b,
          nth_error means i = Some a /\ nth_error stds i = Some b
          /\ mean_of (trailing_window w values i) a
          /\ sample_std_of (trailing_window w values i) b
          /\ length (trailing_window w values i) = Nat.min w (S i))
  /\ nth_error means 0 = nth_error values 0
  /\ (values <> [] -> nth_error stds 0 = Some NaN)
  /\ (forall i, w - 1 <= i < length values ->
        length (trailing_window w values i) = w).

(** The z-score of [x] in the batch [xs], the standard deviation taken with
    denominator [n - ddof]; the quotient by a zero deviation is NaN. *)
Definition zscore_with (ddof : nat) (xs : list R) (x : R) : float :=
  let sd := sqrt (variance ddof xs) in
  if Reqb sd 0 then NaN else Fin ((x - Rmean xs) / sd)%R.

(** With the population standard deviation (denominator [n]). *)
Definition population_zscore : list R -> R -> float := zscore_with 0.

(** With the sample standard deviation (denominator [n - 1]), as the
    specification words it. *)
Definition sample_zscore : list R -> R -> float := zscore_with 1.

(** [|z| > 2.0] *)
Definition exceeds_threshold (z : float) : bool :=
  fgt (fabs z) (Fin anomaly_threshold).

(** The rows of a batch whose score exceeds the threshold, in batch order,
    each as timestamp, heart rate and absolute score. *)
Definition anomalous_rows (score : R -> float) (ts : list Z) (xs : list R)
  : list AnomalyRecord :=
  map (fun tx : Z * R =>
         {| a_timestamp := CTime (fst tx);
            a_heartRate := CNum (Fin (snd tx));
            a_hr_zscore := CNum (fabs (score (snd tx))) |})
      (List.filter (fun tx : Z * R => exceeds_threshold (score (snd tx)))
                   (combine ts xs)).

(** The report of a batch without anomalies. *)
Definition no_anomalies : Anomalies :=
  {| count := 0; percentage := 0; threshold := anomaly_threshold; records := [] |}.

(** [a] has at least the count of [b]. *)
Definition count_ge (a b : cell * nat) : Prop := snd b <= snd a.

(** Two runs of a generator agree but for the timestamps of their records:
    both return, in the same state and with records that are equal once
    the timestamp is removed, or both raise the same exception. *)
Definition agree_but_timestamps {S : Type}
    (a b : result (list record * S)) : Prop :=
  match a, b with
  | Ok (r1, s1), Ok (r2, s2) =>
    map (delete "timestamp") r1 = map (delete "timestamp") r2 /\ s1 = s2
  | Raise e1, Raise e2 => e1 = e2
  | _, _ => False
  end.

(** ** Concrete inputs *)

(** A record without [hrv], whose timestamp does not parse and whose heart
    rate is out of range: the missing field is what is reported. *)
Definition record_without_hrv : record :=
  list_to_map [("timestamp", PInt 0); ("heartRate", PInt 999);
               ("activity", PStr "flying")].

(** Three records half an hour apart with heart rates 70, 95 and 96. *)
Definition three_beats : DataFrame :=
  {| df_len := 3;
     df_cols := [("timestamp", TimeCol [0; 1800; 3600]%Z);
                 ("heartRate", NumCol [Fin 70; Fin 95; Fin 96]%R)] |}.

(** Two records with heart rates 60 and 80. *)
Definition two_beats : DataFrame :=
  {| df_len := 2;
     df_cols := [("timestamp", TimeCol [0; 1800]%Z);
                 ("heartRate", NumCol [Fin 60; Fin 80]%R)] |}.

(** The batch without records that has the four required columns, as
    numeric, text and datetime columns. *)
Definition empty_batch : DataFrame :=
  {| df_len := 0;
     df_cols := [("timestamp", TimeCol []); ("heartRate", NumCol []);
                 ("hrv", NumCol []); ("activity", ObjCol [])] |}.

(** The heart rates of [six_beats]. *)
Definition six_rates : list R := [60; 60; 60; 60; 62; 70]%R.

(** Six records: four at 60 bpm, one at 62 and one at 70. *)
Definition six_beats : DataFrame :=
  {| df_len := 6;
     df_cols := [("timestamp", TimeCol [0; 300; 600; 900; 1200; 1500]%Z);
                 ("heartRate",
                  NumCol [Fin 60; Fin 60; Fin 60; Fin 60; Fin 62; Fin 70]%R)] |}.

(** Twenty records of 70 bpm. *)
Definition twenty_at_70 : DataFrame :=
  {| df_len := 20;
     df_cols := [("heartRate", NumCol (repeat (Fin 70%R) 20))] |}.

(** Three records: one walking, then two resting. *)
Definition walk_rest_rest : DataFrame :=
  {| df_len := 3;
     df_cols := [("activity", ObjCol ["walking"; "resting"; "resting"])] |}.

(** ** Tactics *)


(** ** Batch validation ([tpp_utils.py], [DataValidator.validate_dataframe]) *)

(** The Python object a cell becomes in [row.to_dict()]: a number, a text,
    or a pandas Timestamp, which is neither.  Numeric cells are given as
    floats; validation compares integers and floats alike. *)
Definition cell_value (c : cell) : pyval :=
  match c with
  | CNum x => PFloat x
  | CStr s => PStr s
  | CTime _ => POther
  end.

(** [row.to_dict()] for the row at position [i]: one key per column. *)
Definition row_dict (df : DataFrame) (i : nat) : record :=
  list_to_map
    (map (fun kc : string * column =>
            (fst kc, cell_value (nth i (column_cells (snd kc)) (CNum NaN))))
         (df_cols df)).

(** The first loop of [validate_dataframe]: the required fields that are
    not columns, in the order of [REQUIRED_FIELDS]. *)
Definition missing_columns (df : DataFrame) : list string :=
  List.filter (fun f => negb (df_has f df)) REQUIRED_FIELDS.

Section BatchValidator.

Variable to_datetime_error : pyval -> option string.
Variable py_str : pyval -> string.

(** What the second loop appends for the row at position [i]; [idx] is the
    label of the default index, the position. *)
Definition row_errors (df : DataFrame) (i : nat) : list string :=
  match validate_record to_datetime_error py_str (row_dict df i) with
  | (true, _) => []
  | (false, error) =>
    [("Row " ++ pretty i ++ ": "
      ++ match error with Some m => m | None => "None" end)%string]
  end.

(** [DataValidator.validate_dataframe(df)] *)
Definition validate_dataframe (df : DataFrame) : bool * list string :=
  match map (fun f => ("Missing required column: " ++ f)%string) (missing_columns df) with
  | e :: errors => (false, e :: errors)
  | [] =>
    let errors := flat_map (row_errors df) (seq 0 (df_len df)) in
    ((length errors =? 0)%nat, errors)
  end.

End BatchValidator.

(** A value that passes a range check of [validate_record]: a number
    (integer, float or boolean) that is neither below [lo] nor above [hi].
    A NaN is neither. *)
Definition number_within (lo : R) (hi : option R) (v : pyval) : Prop :=
  exists x, as_number v = Some x
    /\ match x with
       | NaN => True
       | Fin y => (lo <= y)%R /\ match hi with Some h => (y <= h)%R | None => True end
       end.

(** The keys [validate_record] reads. *)
Definition VALIDATED_KEYS : list string :=
  ["timestamp"; "heartRate"; "hrv"; "activity"; "temperature"].

(** The temperature a record states: a null one states none. *)
Definition stated_temperature (r : record) : option pyval :=
  match r !! "temperature" with
  | Some PNone => None
  | t => t
  end.

(** ** Time features ([tpp_utils.py], [DataProcessor.add_time_features]) *)

(** [ts.dt.dayofweek] of an instant in seconds since 1970-01-01, which was
    a Thursday; Monday is 0. *)
Definition day_of_week (t : Z) : Z := ((t / 86400 + 3) mod 7)%Z.

Definition int_column (l : list Z) : column := NumCol (map (fun z => Fin (IZR z)) l).

Section TimeFeatures.

(** [pd.to_datetime(series)]: the instants of the column, or the exception
    of a value that does not convert. *)
Variable to_datetime_column : column -> result (list Z).

(** [DataProcessor.add_time_features(df)]; it works on a copy.  The flags
    are computed from the hours and days just stored. *)
Definition add_time_features (df : DataFrame) : result DataFrame :=
  do raw <- get_column "timestamp" df;
  do ts <- to_datetime_column raw;
  let df := df_set "timestamp" (TimeCol ts) df in
  let hour := map hour_of ts in
  let df := df_set "hour" (int_column hour) df in
  let day := map day_of_week ts in
  let df := df_set "day_of_week" (int_column day) df in
  let is_night := map (fun h => int_of_bool ((22 <=? h) || (h <=? 6))%Z) hour in
  let df := df_set "is_night" (NumCol is_night) df in
  let is_weekend := map (fun d => int_of_bool (5 <=? d)%Z) day in
  Ok (df_set "is_weekend" (NumCol is_weekend) df).

End TimeFeatures.

(** A datetime column converts to itself. *)
Definition datetime_column_only (c : column) : result (list Z) :=
  match c with
  | TimeCol v => Ok v
  | _ => Raise TypeError
  end.

(** The five columns [add_time_features] writes. *)
Definition TIME_FEATURE_COLUMNS : list string :=
  ["timestamp"; "hour"; "day_of_week"; "is_night"; "is_weekend"].

(** The four columns [calculate_rolling_stats] writes. *)
Definition ROLLING_COLUMNS : list string :=
  ["hr_rolling_mean"; "hrv_rolling_mean"; "hr_rolling_std"; "hrv_rolling_std"].

Definition is_numeric (c : column) : bool :=
  match c with NumCol _ => true | _ => false end.

(** * Properties *)

(** ** Record validation *)

Lemma first_missing_found (before after : list string) (f : string) (r : record) :
  Forall (fun g => is_Some (r !! g)) before ->
  r !! f = None ->
  first_missing (before ++ f :: after) r = Some f.
Proof.
  intros Hbefore Hf.
  induction Hbefore as [|g before [v Hg] _ IH]; simpl.
  - now rewrite Hf.
  - now rewrite Hg.
Qed.

(** Which required field is reported depends on the keys alone. *)
Lemma first_missing_keys (fields : list string) (r r' : record) :
  (forall g, In g fields -> is_Some (r' !! g) <-> is_Some (r !! g)) ->
  first_missing fields r' = first_missing fields r.
Proof.
  induction fields as [|g fields IH]; intros Hkeys; simpl; [reflexivity|].
  assert (Hg := Hkeys g (or_introl eq_refl)).
  rewrite IH by (intros h Hh; apply Hkeys; now right).
  destruct (r !! g) as [v|] eqn:E, (r' !! g) as [v'|] eqn:E'; try reflexivity.
  - destruct (proj2 Hg) as [w Hw]; [now exists v | discriminate].
  - destruct (proj1 Hg) as [w Hw]; [now exists v' | discriminate].
Qed.

(** C7.  A record that lacks a required field is rejected with the message
    that names the first such field, in the order timestamp, heartRate, hrv,
    activity.  No value of the record is looked at: any record with the same
    required keys present gets the same answer, whatever its values and
    whatever the timestamp parser and the value formatter do. *)
Theorem validate_record_missing_field
    (to_datetime_error : pyval -> option string) (py_str : pyval -> string)
    (r : record) (before after : list string) (f : string) :
  REQUIRED_FIELDS = before ++ f :: after ->
  Forall (fun g => is_Some (r !! g)) before ->
  r !! f = None ->
  validate_record to_datetime_error py_str r
    = (false, Some ("Missing required field: " ++ f)%string)
  /\ forall (r' : record) (to_datetime_error' : pyval -> option string)
            (py_str' : pyval -> string),
       (forall g, In g REQUIRED_FIELDS -> is_Some (r' !! g) <-> is_Some (r !! g)) ->
       validate_record to_datetime_error' py_str' r'
         = validate_record to_datetime_error py_str r.
Proof.
  intros Hfields Hbefore Hf.
  assert (Hfirst : first_missing REQUIRED_FIELDS r = Some f).
  { rewrite Hfields. now apply first_missing_found. }
  split.
  - unfold validate_record. now rewrite Hfirst.
  - intros r' tde' ps' Hkeys. unfold validate_record.
    rewrite (first_missing_keys REQUIRED_FIELDS r r' Hkeys).
    now rewrite Hfirst.
Qed.

(** The record without [hrv]: the message names hrv, although the
    timestamp, the heart rate and the activity of the record are wrong too. *)
Lemma validate_record_missing_field_witness :
  validate_record text_to_datetime_error no_str record_without_hrv
    = (false, Some "Missing required field: hrv").
Proof.
  apply (proj1 (validate_record_missing_field text_to_datetime_error no_str
                  record_without_hrv ["timestamp"; "heartRate"] ["activity"] "hrv"
                  eq_refl
                  ltac:(repeat constructor; eexists; vm_compute; reflexivity)
                  ltac:(vm_compute; reflexivity))).
Defined.

(** ** Frames *)

Lemma cols_get_set_same (k : string) (c : column) (cs : list (string * column)) :
  cols_get k (cols_set k c cs) = Some c.
Proof.
  induction cs as [|[k0 c0] cs IH]; simpl.
  - now rewrite String.eqb_refl.
  - destruct (String.eqb k0 k) eqn:E; simpl; now rewrite E.
Qed.

Lemma cols_get_set_other (k k' : string) (c : column) (cs : list (string * column)) :
  String.eqb k k' = false ->
  cols_get k' (cols_set k c cs) = cols_get k' cs.
Proof.
  intros Hne. induction cs as [|[k0 c0] cs IH]; simpl.
  - rewrite String.eqb_sym in Hne. rewrite String.eqb_sym. now rewrite Hne.
  - destruct (String.eqb k0 k) eqn:E; simpl.
    + apply String.eqb_eq in E. subst k0. now rewrite Hne.
    + now rewrite IH.
Qed.

Lemma df_get_set_same (k : string) (c : column) (df : DataFrame) :
  df_get k (df_set k c df) = Some c.
Proof. apply cols_get_set_same. Qed.

Lemma df_get_set_other (k k' : string) (c : column) (df : DataFrame) :
  String.eqb k k' = false ->
  df_get k' (df_set k c df) = df_get k' df.
Proof. apply cols_get_set_other. Qed.

(** ** Sorting *)

Lemma map_snd_combine {A B} (l : list A) (m : list B) :
  length l = length m -> map snd (combine l m) = m.
Proof.
  revert m. induction l as [|x t IH]; intros [|u m] Hlen; try discriminate.
  - reflexivity.
  - simpl. f_equal. apply IH. now injection Hlen.
Qed.

Lemma take_rows_seq {A} (d : A) (l : list A) : take_rows d (seq 0 (length l)) l = l.
Proof.
  unfold take_rows. apply (nth_ext _ _ d d).
  - now rewrite length_map, length_seq.
  - intros i Hi. rewrite length_map, length_seq in Hi.
    rewrite (nth_indep _ d (nth 0 l d)) by now rewrite length_map, length_seq.
    rewrite (map_nth (fun i => nth i l d)), seq_nth by exact Hi.
    reflexivity.
Qed.

Lemma column_take_seq (c : column) : column_take (seq 0 (column_length c)) c = c.
Proof.
  destruct c as [v|v|v]; unfold column_length; simpl;
    rewrite length_map; now rewrite take_rows_seq.
Qed.

Lemma cols_get_length (k : string) (c : column) (df : DataFrame) :
  well_formed df -> df_get k df = Some c -> column_length c = df_len df.
Proof.
  unfold well_formed, df_get. intros Hwf.
  induction Hwf as [|[k0 c0] cs Hc _ IH]; simpl; [discriminate|].
  destruct (String.eqb k0 k); [|exact IH].
  intros [= <-]. exact Hc.
Qed.

Lemma numeric_column_length (v : list float) : column_length (NumCol v) = length v.
Proof. unfold column_length. simpl. apply length_map. Qed.

Lemma datetime_column_length (v : list Z) : column_length (TimeCol v) = length v.
Proof. unfold column_length. simpl. apply length_map. Qed.

Lemma column_length_take (rows : list nat) (c : column) :
  column_length (column_take rows c) = length rows.
Proof.
  destruct c; unfold column_length, column_take, take_rows; simpl;
    now rewrite !length_map.
Qed.

Lemma cols_get_map (f : column -> column) (k : string) (cs : list (string * column)) :
  cols_get k (map (fun kc : string * column => (fst kc, f (snd kc))) cs)
  = option_map f (cols_get k cs).
Proof.
  induction cs as [|[k0 c0] cs IH]; simpl; [reflexivity|].
  now destruct (String.eqb k0 k).
Qed.

Lemma combine_take_rows {A B} (a : A) (b : B) (rows : list nat) (l : list A) (m : list B) :
  combine (take_rows a rows l) (take_rows b rows m)
  = map (fun i => (nth i l a, nth i m b)) rows.
Proof. unfold take_rows. induction rows as [|i rows IH]; simpl; [|rewrite IH]; reflexivity. Qed.

Lemma take_rows_In {A} (d : A) (rows : list nat) (l : list A) (y : A) :
  In y (take_rows d rows l) -> In y l \/ y = d.
Proof.
  unfold take_rows. intros H. apply in_map_iff in H. destruct H as (i & <- & _).
  destruct (nth_in_or_default i l d); auto.
Qed.

(** Rows taken in an order that lists every row once are the rows of the
    input. *)
Lemma take_rows_perm {A} (d : A) (rows : list nat) (l : list A) :
  Permutation rows (seq 0 (length l)) -> Permutation (take_rows d rows l) l.
Proof.
  intros Hperm. unfold take_rows. rewrite (Permutation_map _ Hperm).
  fold (take_rows d (seq 0 (length l)) l). now rewrite take_rows_seq.
Qed.

Lemma map_inj_in {A B} (f : A -> B) (l m : list A) :
  (forall x y, In x l -> In y m -> f x = f y -> x = y) ->
  map f l = map f m -> l = m.
Proof.
  revert m. induction l as [|x l IH]; intros [|y m] Hinj Heq; try discriminate.
  - reflexivity.
  - injection Heq as Hxy Hrest. f_equal.
    + apply Hinj; [now left|now left|exact Hxy].
    + apply IH; [|exact Hrest]. intros a b Ha Hb. apply Hinj; now right.
Qed.

Lemma strictly_sorted_facts (ts : list Z) :
  Sorted Z.lt ts -> Sorted Z.le ts /\ List.NoDup ts.
Proof.
  intros Hs. apply Sorted_StronglySorted in Hs; [|intros a b c; lia].
  induction Hs as [|t l Hl [IH1 IH2] Hall].
  - split; constructor.
  - rewrite List.Forall_forall in Hall. split.
    + constructor; [exact IH1|]. destruct l as [|u l']; constructor.
      specialize (Hall u (or_introl eq_refl)). lia.
    + constructor; [|exact IH2]. intros Hin. specialize (Hall t Hin). lia.
Qed.

(** Timestamps that increase strictly leave a sorting routine no choice. *)
Lemma sorted_rows_unique (rows : list nat) (ts : list Z) :
  Permutation rows (seq 0 (length ts)) ->
  Sorted Z.le (take_rows 0%Z rows ts) ->
  Sorted Z.lt ts ->
  rows = seq 0 (length ts).
Proof.
  intros Hperm Hsorted Hstrict.
  destruct (strictly_sorted_facts ts Hstrict) as [Hle Hnodup].
  assert (Heq : take_rows 0%Z rows ts = take_rows 0%Z (seq 0 (length ts)) ts).
  { rewrite take_rows_seq.
    apply (Sorted_unique Z.le); [exact Hsorted|exact Hle|].
    now apply take_rows_perm. }
  unfold take_rows in Heq. apply (map_inj_in _ _ _) in Heq; [exact Heq|].
  intros i j Hi Hj Hij.
  apply (Permutation_in _ Hperm) in Hi. apply in_seq in Hi. apply in_seq in Hj.
  apply (proj1 (List.NoDup_nth ts 0%Z) Hnodup); [lia|lia|exact Hij].
Qed.

(** The stable sort returns a permutation, in order. *)

Lemma insert_stable_perm {A} (lt : A -> A -> bool) (x : A) (l : list A) :
  Permutation (insert_stable lt x l) (x :: l).
Proof.
  induction l as [|y t IH]; simpl; [reflexivity|].
  destruct (lt y x); [|reflexivity].
  rewrite IH. apply perm_swap.
Qed.

Lemma stable_sort_perm {A} (lt : A -> A -> bool) (l : list A) :
  Permutation (stable_sort lt l) l.
Proof.
  induction l as [|x t IH]; simpl; [reflexivity|].
  unfold stable_sort in *. simpl. rewrite insert_stable_perm. now rewrite IH.
Qed.

Section SortedOutput.

Context {A : Type} (lt : A -> A -> bool) (le : A -> A -> Prop).
Hypothesis lt_le : forall y x, lt y x = true -> le y x.
Hypothesis not_lt_le : forall y x, lt y x = false -> le x y.

Lemma insert_stable_sorted (x : A) (l : list A) :
  Sorted le l -> Sorted le (insert_stable lt x l).
Proof.
  induction 1 as [|y t Ht IH Hhd]; simpl; [repeat constructor|].
  destruct (lt y x) eqn:E.
  - constructor; [exact IH|].
    destruct t as [|z t']; simpl.
    + constructor. now apply lt_le.
    + destruct (lt z x); constructor; [now inversion Hhd | now apply lt_le].
  - constructor; [now constructor|]. constructor. now apply not_lt_le.
Qed.

Lemma stable_sort_sorted (l : list A) : Sorted le (stable_sort lt l).
Proof.
  induction l as [|x t IH]; [constructor|].
  unfold stable_sort in *. simpl. now apply insert_stable_sorted.
Qed.

End SortedOutput.

Lemma stable_argsort_perm (key : column) :
  Permutation (stable_argsort key) (seq 0 (column_length key)).
Proof.
  unfold stable_argsort.
  rewrite (Permutation_map snd (stable_sort_perm _ _)).
  rewrite map_snd_combine; [reflexivity|].
  unfold column_length. now rewrite length_seq.
Qed.

(** The keys of the sorted pairs, for a datetime column, are in order. *)
Lemma sorted_pairs_keys (ts : list Z) (l : list (cell * nat)) :
  Sorted (fun a b : cell * nat =>
            match fst a, fst b with
            | CTime u, CTime v => (u <= v)%Z
            | _, _ => True
            end) l ->
  List.Forall (fun p : cell * nat => fst p = CTime (nth (snd p) ts 0%Z)) l ->
  Sorted Z.le (take_rows 0%Z (map snd l) ts).
Proof.
  intros Hsorted Hkeys. unfold take_rows. rewrite map_map.
  induction Hsorted as [|p l Hl IH Hhd]; simpl; constructor.
  - apply IH. now inversion Hkeys.
  - inversion Hkeys as [|? ? Hp Hrest]; subst.
    destruct Hhd as [|q l' Hpq]; simpl; constructor.
    inversion Hrest as [|? ? Hq _]; subst.
    rewrite Hp, Hq in Hpq. exact Hpq.
Qed.

Lemma combine_keys (ts : list Z) :
  List.Forall (fun p : cell * nat => fst p = CTime (nth (snd p) ts 0%Z))
    (combine (map CTime ts) (seq 0 (length ts))).
Proof.
  apply List.Forall_forall. intros [c i] Hin. simpl.
  apply (In_nth _ _ (CTime 0, 0)) in Hin. destruct Hin as (j & Hj & Hnth).
  rewrite length_combine, length_map, length_seq, Nat.min_id in Hj.
  rewrite combine_nth in Hnth by now rewrite length_map, length_seq.
  injection Hnth as <- <-. rewrite seq_nth by exact Hj. simpl.
  now rewrite (map_nth CTime).
Qed.

Lemma sorted_timestamps (ts : list Z) :
  Sorted Z.le (take_rows 0%Z (stable_argsort (TimeCol ts)) ts).
Proof.
  unfold stable_argsort. apply sorted_pairs_keys.
  - apply stable_sort_sorted.
    + intros y x H. destruct (fst y) as [[a|]|s|a], (fst x) as [[b|]|s'|b];
        try exact I. simpl in H. apply Z.ltb_lt in H. lia.
    + intros y x H. destruct (fst y) as [[a|]|s|a], (fst x) as [[b|]|s'|b];
        try exact I. simpl in H. apply Z.ltb_ge in H. exact H.
  - eapply Permutation_Forall; [apply Permutation_sym, stable_sort_perm|].
    unfold column_length. simpl. rewrite length_map. apply combine_keys.
Qed.

(** The stable routine is a sorting routine. *)
Lemma stable_library_sorts : sorts_datetimes stable_library.
Proof.
  intros ts. split.
  - simpl. rewrite <- (datetime_column_length ts). apply stable_argsort_perm.
  - apply sorted_timestamps.
Qed.

(** Sorted values that are distinct increase strictly. *)
Lemma sorted_distinct_strict (l : list Z) :
  Sorted Z.le l -> List.NoDup l -> Sorted Z.lt l.
Proof.
  intros Hs Hn. apply StronglySorted_Sorted.
  apply Sorted_StronglySorted in Hs; [|intros a b c; lia].
  induction Hs as [|a l Hl IH Hall]; constructor.
  - apply IH. now inversion Hn.
  - inversion Hn as [|? ? Hnotin _]; subst.
    rewrite List.Forall_forall in *. intros x Hx.
    specialize (Hall x Hx). assert (a <> x) by (intros ->; contradiction). lia.
Qed.

Section SortedFrames.

Context {L : Library}.

Lemma df_len_sort (df : DataFrame) : df_len (sort_by_timestamp df) = df_len df.
Proof. unfold sort_by_timestamp. now destruct (df_get "timestamp" df). Qed.

(** Each column of the sorted frame is the column of the input with its
    rows taken in the order the sorting routine gives. *)
Lemma df_get_sorted (df : DataFrame) (key : column) (k : string) :
  df_get "timestamp" df = Some key ->
  df_get k (sort_by_timestamp df)
  = option_map (column_take (argsort key)) (df_get k df).
Proof.
  intros Hkey. unfold sort_by_timestamp. rewrite Hkey.
  unfold df_get. simpl. apply cols_get_map.
Qed.

Lemma df_get_sort_none (df : DataFrame) (k : string) :
  df_get k (sort_by_timestamp df) = None <-> df_get k df = None.
Proof.
  unfold sort_by_timestamp.
  destruct (df_get "timestamp" df) as [key|] eqn:Hkey; [|reflexivity].
  unfold df_get. simpl. rewrite cols_get_map. fold (df_get k df).
  now destruct (df_get k df).
Qed.

Lemma df_get_sort_numeric (df : DataFrame) (k : string) :
  (exists v, df_get k (sort_by_timestamp df) = Some (NumCol v))
  <-> (exists v, df_get k df = Some (NumCol v)).
Proof.
  unfold sort_by_timestamp.
  destruct (df_get "timestamp" df) as [key|] eqn:Hkey; [|reflexivity].
  unfold df_get. simpl. rewrite cols_get_map. fold (df_get k df).
  destruct (df_get k df) as [[v|v|v]|]; simpl; split; intros [w H];
    try discriminate; eauto.
Qed.

Lemma df_get_sort_text (df : DataFrame) (k : string) :
  (exists v, df_get k (sort_by_timestamp df) = Some (ObjCol v))
  <-> (exists v, df_get k df = Some (ObjCol v)).
Proof.
  unfold sort_by_timestamp.
  destruct (df_get "timestamp" df) as [key|] eqn:Hkey; [|reflexivity].
  unfold df_get. simpl. rewrite cols_get_map. fold (df_get k df).
  destruct (df_get k df) as [[v|v|v]|]; simpl; split; intros [w H];
    try discriminate; eauto.
Qed.

Lemma df_get_sort_datetime (df : DataFrame) (k : string) :
  (exists v, df_get k (sort_by_timestamp df) = Some (TimeCol v))
  <-> (exists v, df_get k df = Some (TimeCol v)).
Proof.
  unfold sort_by_timestamp.
  destruct (df_get "timestamp" df) as [key|] eqn:Hkey; [|reflexivity].
  unfold df_get. simpl. rewrite cols_get_map. fold (df_get k df).
  destruct (df_get k df) as [[v|v|v]|]; simpl; split; intros [w H];
    try discriminate; eauto.
Qed.

(** The values of a numeric column of the sorted frame are values of the
    input. *)
Lemma df_get_sort_values (df : DataFrame) (k : string) (v : list float) :
  df_get k df = Some (NumCol v) ->
  exists v', df_get k (sort_by_timestamp df) = Some (NumCol v')
             /\ forall x, In (Fin x) v' -> In (Fin x) v.
Proof.
  intros Hv. destruct (df_get "timestamp" df) as [key|] eqn:Hkey.
  - exists (take_rows NaN (argsort key) v). split.
    + rewrite (df_get_sorted df key _ Hkey), Hv. reflexivity.
    + intros x Hx. apply take_rows_In in Hx.
      destruct Hx as [Hx|Hx]; [exact Hx|discriminate].
  - exists v. split; [|auto]. unfold sort_by_timestamp. now rewrite Hkey.
Qed.

Lemma argsort_length (ts : list Z) :
  sorts_datetimes L -> length (argsort (TimeCol ts)) = length ts.
Proof.
  intros Hsort. destruct (Hsort ts) as [Hperm _].
  rewrite (Permutation_length Hperm). apply length_seq.
Qed.

Lemma sort_by_timestamp_well_formed (df : DataFrame) (ts : list Z) :
  sorts_datetimes L ->
  well_formed df ->
  df_get "timestamp" df = Some (TimeCol ts) ->
  well_formed (sort_by_timestamp df).
Proof.
  intros Hsort Hwf Hkey. unfold sort_by_timestamp. rewrite Hkey.
  unfold well_formed. simpl. apply List.Forall_map, List.Forall_forall.
  intros kc _. simpl.
  rewrite column_length_take, (argsort_length ts Hsort).
  rewrite <- (cols_get_length _ _ _ Hwf Hkey). symmetry. apply datetime_column_length.
Qed.

(** Rows taken in their own order are the frame. *)
Lemma take_all_rows (df : DataFrame) :
  well_formed df ->
  {| df_len := df_len df;
     df_cols := map (fun kc : string * column =>
                       (fst kc, column_take (seq 0 (df_len df)) (snd kc)))
                    (df_cols df) |} = df.
Proof.
  intros Hwf. destruct df as [n cs]. simpl in *. f_equal.
  unfold well_formed in Hwf. simpl in Hwf.
  induction Hwf as [|[k0 c0] cs Hc _ IH]; simpl; [reflexivity|].
  rewrite IH. simpl in Hc. rewrite <- Hc at 1. now rewrite column_take_seq.
Qed.

(** A well-formed frame whose timestamps increase strictly is left as it is
    by every sorting routine; so is a frame without timestamps. *)
Lemma sort_by_timestamp_strict (df : DataFrame) (ts : list Z) :
  sorts_datetimes L ->
  well_formed df ->
  df_get "timestamp" df = Some (TimeCol ts) ->
  Sorted Z.lt ts ->
  sort_by_timestamp df = df.
Proof.
  intros Hsort Hwf Hkey Hstrict.
  destruct (Hsort ts) as [Hperm Hsorted].
  pose proof (sorted_rows_unique _ ts Hperm Hsorted Hstrict) as Hrows.
  unfold sort_by_timestamp. rewrite Hkey. cbv zeta. rewrite Hrows.
  replace (length ts) with (df_len df).
  - now apply take_all_rows.
  - rewrite <- (cols_get_length _ _ _ Hwf Hkey). apply datetime_column_length.
Qed.

(** Sorting moves whole rows and puts the timestamps in order. *)
Lemma sort_by_timestamp_rows (df : DataFrame) (ts : list Z) :
  sorts_datetimes L ->
  well_formed df ->
  df_get "timestamp" df = Some (TimeCol ts) ->
  exists ts' : list Z,
    df_get "timestamp" (sort_by_timestamp df) = Some (TimeCol ts')
    /\ Sorted Z.le ts'
    /\ Permutation ts' ts
    /\ forall k v, df_get k df = Some (NumCol v) ->
         exists v', df_get k (sort_by_timestamp df) = Some (NumCol v')
                    /\ Permutation (combine ts' v') (combine ts v).
Proof.
  intros Hsort Hwf Hts. destruct (Hsort ts) as [Hperm Hsorted].
  set (rows := argsort (TimeCol ts)) in *.
  exists (take_rows 0%Z rows ts).
  split; [rewrite (df_get_sorted df (TimeCol ts) _ Hts), Hts; reflexivity|].
  split; [exact Hsorted|]. split; [now apply take_rows_perm|].
  intros k v Hv. exists (take_rows NaN rows v). split.
  - rewrite (df_get_sorted df (TimeCol ts) _ Hts), Hv. reflexivity.
  - assert (Hlen : length v = length ts).
    { pose proof (cols_get_length _ _ _ Hwf Hv) as H1.
      pose proof (cols_get_length _ _ _ Hwf Hts) as H2.
      rewrite numeric_column_length in H1. rewrite datetime_column_length in H2. lia. }
    rewrite combine_take_rows, (Permutation_map _ Hperm).
    rewrite <- combine_take_rows. rewrite take_rows_seq.
    rewrite <- Hlen. now rewrite take_rows_seq.
Qed.

Lemma sort_by_timestamp_absent (df : DataFrame) :
  df_get "timestamp" df = None -> sort_by_timestamp df = df.
Proof. intros H. unfold sort_by_timestamp. now rewrite H. Qed.

End SortedFrames.

(** ** Rapid changes *)

Lemma length_diff_from (prev : float) (l : list float) :
  length (diff_from prev l) = length l.
Proof. revert prev. induction l as [|x t IH]; intros prev; simpl; [|rewrite IH]; reflexivity. Qed.

Lemma length_series_diff (l : list float) : length (series_diff l) = length l.
Proof. destruct l as [|x t]; simpl; [|rewrite length_diff_from]; reflexivity. Qed.




Section RapidChanges.

Context {L : Library}.

Lemma detect_rapid_changes_run (df : DataFrame) (threshold : R) (hr : list float) :
  df_get "heartRate" (sort_by_timestamp df) = Some (NumCol hr) ->
  detect_rapid_changes df threshold
  = Ok (df_set "rapid_change"
          (NumCol (map (fun c => int_of_bool (fgt c (Fin threshold)))
                       (map fabs (series_diff hr))))
          (df_set "hr_change" (NumCol (map fabs (series_diff hr)))
                  (sort_by_timestamp df))).
Proof. intros H. unfold detect_rapid_changes, get_column. now rewrite H. Qed.


End RapidChanges.


(** ** Rolling statistics *)

Lemma lastn_lastn_app {A} (w : nat) (a b : list A) :
  lastn w (lastn w a ++ b) = lastn w (a ++ b).
Proof.
  unfold lastn. rewrite !skipn_app, !length_app, !length_skipn, skipn_skipn.
  destruct (Nat.le_gt_cases w (length a)) as [Hle|Hgt].
  - f_equal; f_equal; lia.
  - replace (length a - w) with 0 by lia. rewrite Nat.sub_0_r, Nat.add_0_r.
    reflexivity.
Qed.

Lemma rolling_windows_from_nth (w : nat) (l pre : list float) (i : nat) :
  i < length l ->
  nth_error (rolling_windows_from w (lastn w pre) l) i
    = Some (lastn w (pre ++ firstn (S i) l)).
Proof.
  revert pre i. induction l as [|x t IH]; intros pre i Hi; [simpl in Hi; lia|].
  simpl rolling_windows_from. rewrite lastn_lastn_app.
  destruct i as [|j].
  - reflexivity.
  - simpl nth_error. rewrite IH by (simpl in Hi; lia).
    rewrite <- app_assoc. reflexivity.
Qed.

Lemma lastn_firstn_trailing (w : nat) (l : list float) (i : nat) :
  i < length l ->
  lastn w (firstn (S i) l) = trailing_window w l i.
Proof.
  intros Hi. unfold lastn, trailing_window.
  rewrite length_firstn, skipn_firstn_comm.
  replace (Nat.min (S i) (length l)) with (S i) by lia.
  f_equal; [lia|f_equal; lia].
Qed.

(** The scan of the code produces the windows of the specification. *)
Lemma rolling_windows_nth (w : nat) (l : list float) (i : nat) :
  i < length l ->
  nth_error (rolling_windows w l) i = Some (trailing_window w l i).
Proof.
  intros Hi. unfold rolling_windows.
  change (@nil float) with (lastn w (@nil float)) at 1.
  rewrite rolling_windows_from_nth by exact Hi.
  simpl. f_equal. now apply lastn_firstn_trailing.
Qed.

Lemma length_rolling_windows_from (w : nat) (buf l : list float) :
  length (rolling_windows_from w buf l) = length l.
Proof.
  revert buf. induction l as [|x t IH]; intros buf; simpl; [|rewrite IH]; reflexivity.
Qed.

Lemma length_trailing_window (w : nat) (l : list float) (i : nat) :
  i < length l -> length (trailing_window w l i) = Nat.min w (S i).
Proof.
  intros Hi. unfold trailing_window. rewrite length_firstn, length_skipn. lia.
Qed.

Lemma series_mean_single (x : float) : series_mean [x] = x.
Proof.
  destruct x as [r|]; [|reflexivity].
  unfold series_mean, Rmean. simpl. f_equal. field.
Qed.

Lemma series_std_single (x : float) : series_std [x] = NaN.
Proof. destruct x; reflexivity. Qed.

Lemma Rsum_nonneg (l : list R) : Forall (fun y => 0 <= y)%R l -> (0 <= Rsum l)%R.
Proof. induction 1; simpl; lra. Qed.

Lemma squares_nonneg (m : R) (xs : list R) :
  Forall (fun y => 0 <= y)%R (map (fun x => ((x - m) * (x - m))%R) xs).
Proof. apply List.Forall_map, List.Forall_forall. intros x _. apply (Rle_0_sqr (x - m)). Qed.

Lemma sq_dev_nonneg (xs : list R) : (0 <= sq_dev xs)%R.
Proof. apply Rsum_nonneg, squares_nonneg. Qed.

Lemma Rmean_is_mean (xs : list R) : xs <> [] -> is_mean xs (Rmean xs).
Proof.
  intros Hne. split; [exact Hne|].
  unfold Rmean, Rsum. field.
  destruct xs as [|x t]; [contradiction|].
  apply not_0_INR. discriminate.
Qed.

(** What [Series.mean] computes is the arithmetic mean of the observations
    of the window. *)
Lemma series_mean_is_mean (win : list float) : mean_of win (series_mean win).
Proof.
  unfold series_mean. destruct (finite_values win) as [|x t] eqn:E; simpl.
  - exact E.
  - rewrite E. now apply Rmean_is_mean.
Qed.

(** What [Series.std] computes is their sample standard deviation, with
    denominator [n - 1]. *)
Lemma series_std_is_sample_std (win : list float) :
  sample_std_of win (series_std win).
Proof.
  unfold series_std. cbv zeta.
  destruct (Nat.leb_spec (length (finite_values win)) 1) as [Hle|Hgt]; simpl.
  - exact Hle.
  - set (xs := finite_values win) in *.
    assert (Hpos : (0 < INR (length xs - 1))%R) by (apply lt_0_INR; lia).
    split; [lia|]. split; [apply sqrt_pos|].
    exists (Rmean xs). split.
    + apply Rmean_is_mean. intros ->. simpl in Hgt. lia.
    + rewrite sqrt_sqrt.
      * unfold variance, sq_dev, Rsum. field. lra.
      * unfold variance. apply Rmult_le_pos; [apply sq_dev_nonneg|].
        left. now apply Rinv_0_lt_compat.
Qed.

Lemma rolling_columns_spec (w : nat) (values : list float) :
  1 <= w ->
  rolling_spec w values (map series_mean (rolling_windows w values))
                        (map series_std (rolling_windows w values)).
Proof.
  intros Hw. unfold rolling_spec.
  assert (Hlen : length (rolling_windows w values) = length values)
    by apply length_rolling_windows_from.
  assert (Hfirst : forall x t, trailing_window w (x :: t) 0 = [x]).
  { intros x t. unfold trailing_window.
    replace (Nat.min w 1) with 1 by lia. reflexivity. }
  split; [now rewrite length_map|].
  split; [now rewrite length_map|].
  split.
  { intros i Hi.
    exists (series_mean (trailing_window w values i)),
           (series_std (trailing_window w values i)).
    split; [rewrite nth_error_map, rolling_windows_nth by assumption; reflexivity|].
    split; [rewrite nth_error_map, rolling_windows_nth by assumption; reflexivity|].
    split; [apply series_mean_is_mean|].
    split; [apply series_std_is_sample_std|].
    now apply length_trailing_window. }
  split.
  { destruct values as [|x t]; [reflexivity|].
    rewrite nth_error_map, rolling_windows_nth by (simpl; lia).
    simpl. now rewrite Hfirst, series_mean_single. }
  split.
  - intros Hne. destruct values as [|x t]; [contradiction|].
    rewrite nth_error_map, rolling_windows_nth by (simpl; lia).
    simpl. now rewrite Hfirst, series_std_single.
  - intros i Hi. rewrite length_trailing_window by lia. lia.
Qed.

(** The standard deviation of a window is the one with denominator
    [n - 1], over its [n] observations. *)
Lemma series_std_sample (l : list float) :
  series_std l
  = let xs := finite_values l in
    if (length xs <? 2)%nat then NaN
    else Fin (sqrt (sq_dev xs / (INR (length xs) - 1)))%R.
Proof.
  unfold series_std, variance. simpl.
  destruct (Nat.leb_spec (length (finite_values l)) 1) as [Hle|Hgt].
  - destruct (Nat.ltb_spec (length (finite_values l)) 2); [reflexivity|lia].
  - destruct (Nat.ltb_spec (length (finite_values l)) 2); [lia|].
    rewrite minus_INR by lia. reflexivity.
Qed.

Section RollingStatistics.

Context {L : Library}.

Lemma rolling_apply_numeric (agg : list float -> float) (window : Z) (v : list float) :
  (1 <= window)%Z ->
  rolling_apply agg window (NumCol v)
  = Ok (NumCol (map agg (rolling_windows (Z.to_nat window) v))).
Proof.
  intros Hw. unfold rolling_apply.
  destruct (Z.ltb_spec window 1); [lia|reflexivity].
Qed.

(** C8.  For a window [w >= 1] and a batch with numeric heartRate and hrv
    columns, [calculate_rolling_stats] returns the sorted frame with four
    more columns.  At each position [i] of that frame the rolling mean of
    heartRate (and of hrv) is the sum of the observations of the trailing
    window of size [min(w, i+1)] over their number, and the rolling standard
    deviation is their sample standard deviation, with the [n - 1]
    estimator: not negative, its square times [n - 1] the sum of the squared
    distances to the mean, and undefined (NaN) below two observations; at
    position 0 the rolling mean is the record's own value and the rolling
    standard deviation is NaN; from position [w - 1] on the window has
    exactly [w] values.  Positions are those of the frame returned, whose
    timestamps are in non-decreasing order as the sorting routine leaves
    them, and which is the batch itself when its timestamps increase
    strictly or it has none. *)
Theorem calculate_rolling_stats_windows
    (df : DataFrame) (window : Z) (hr hrv : list float) :
  (1 <= window)%Z ->
  df_get "heartRate" df = Some (NumCol hr) ->
  df_get "hrv" df = Some (NumCol hrv) ->
  exists (df' : DataFrame) (hr' hrv' hr_mean hr_std hrv_mean hrv_std : list float),
    calculate_rolling_stats df window = Ok df'
    /\ df_get "heartRate" (sort_by_timestamp df) = Some (NumCol hr')
    /\ df_get "hrv" (sort_by_timestamp df) = Some (NumCol hrv')
    /\ df_get "heartRate" df' = Some (NumCol hr')
    /\ df_get "hrv" df' = Some (NumCol hrv')
    /\ df_get "hr_rolling_mean" df' = Some (NumCol hr_mean)
    /\ df_get "hr_rolling_std" df' = Some (NumCol hr_std)
    /\ df_get "hrv_rolling_mean" df' = Some (NumCol hrv_mean)
    /\ df_get "hrv_rolling_std" df' = Some (NumCol hrv_std)
    /\ rolling_spec (Z.to_nat window) hr' hr_mean hr_std
    /\ rolling_spec (Z.to_nat window) hrv' hrv_mean hrv_std
    /\ (forall ts, sorts_datetimes L -> well_formed df ->
          df_get "timestamp" df = Some (TimeCol ts) ->
          exists ts', df_get "timestamp" df' = Some (TimeCol ts')
                      /\ Sorted Z.le ts'
                      /\ Permutation (combine ts' hr') (combine ts hr)
                      /\ Permutation (combine ts' hrv') (combine ts hrv))
    /\ (forall ts, sorts_datetimes L -> well_formed df ->
          df_get "timestamp" df = Some (TimeCol ts) ->
          Sorted Z.lt ts -> hr' = hr /\ hrv' = hrv)
    /\ (df_get "timestamp" df = None -> hr' = hr /\ hrv' = hrv).
Proof.
  intros Hw Hhr0 Hhrv0.
  destruct (df_get_sort_values df "heartRate" hr Hhr0) as (hr' & Hhr & _).
  destruct (df_get_sort_values df "hrv" hrv Hhrv0) as (hrv' & Hhrv & _).
  set (w := Z.to_nat window).
  eexists _, hr', hrv',
             (map series_mean (rolling_windows w hr')),
             (map series_std (rolling_windows w hr')),
             (map series_mean (rolling_windows w hrv')),
             (map series_std (rolling_windows w hrv')).
  split.
  { unfold calculate_rolling_stats, get_column.
    rewrite Hhr. simpl bind. rewrite rolling_apply_numeric by exact Hw. simpl bind.
    rewrite df_get_set_other, Hhrv by reflexivity. simpl bind.
    rewrite rolling_apply_numeric by exact Hw. simpl bind.
    rewrite !df_get_set_other, Hhr by reflexivity. simpl bind.
    rewrite rolling_apply_numeric by exact Hw. simpl bind.
    rewrite !df_get_set_other, Hhrv by reflexivity. simpl bind.
    rewrite rolling_apply_numeric by exact Hw. simpl bind. reflexivity. }
  assert (Hw1 : 1 <= w) by (unfold w; lia).
  split; [exact Hhr|]. split; [exact Hhrv|].
  split; [rewrite !df_get_set_other by reflexivity; exact Hhr|].
  split; [rewrite !df_get_set_other by reflexivity; exact Hhrv|].
  split; [rewrite !df_get_set_other by reflexivity; apply df_get_set_same|].
  split; [rewrite !df_get_set_other by reflexivity; apply df_get_set_same|].
  split; [rewrite !df_get_set_other by reflexivity; apply df_get_set_same|].
  split; [apply df_get_set_same|].
  split; [now apply rolling_columns_spec|].
  split; [now apply rolling_columns_spec|].
  split.
  { intros ts Hsort Hwf Hts.
    destruct (sort_by_timestamp_rows df ts Hsort Hwf Hts) as (ts' & Hts' & Hsorted & _ & Hrows).
    destruct (Hrows "heartRate" hr Hhr0) as (v1 & Hv1 & Hp1).
    destruct (Hrows "hrv" hrv Hhrv0) as (v2 & Hv2 & Hp2).
    rewrite Hhr in Hv1. injection Hv1 as <-.
    rewrite Hhrv in Hv2. injection Hv2 as <-.
    exists ts'. split; [|split; [|split]]; try assumption.
    rewrite !df_get_set_other by reflexivity. exact Hts'. }
  split.
  - intros ts Hsort Hwf Hts Hstrict.
    rewrite (sort_by_timestamp_strict df ts Hsort Hwf Hts Hstrict) in Hhr, Hhrv.
    rewrite Hhr0 in Hhr. rewrite Hhrv0 in Hhrv.
    injection Hhr as <-. injection Hhrv as <-. now split.
  - intros Hnone. rewrite (sort_by_timestamp_absent df Hnone) in Hhr, Hhrv.
    rewrite Hhr0 in Hhr. rewrite Hhrv0 in Hhrv.
    injection Hhr as <-. injection Hhrv as <-. now split.
Qed.

End RollingStatistics.

(** A window of two over three records listed out of order: the frame is
    sorted first, the first rolling mean is the heart rate of the earliest
    record, and the second is the mean of the two earliest, 75. *)
Lemma calculate_rolling_stats_windows_witness :
  exists (df' : DataFrame) (hr_mean : list float),
    calculate_rolling_stats (L := stable_library)
      {| df_len := 3;
         df_cols := [("timestamp", TimeCol [1800; 0; 3600]%Z);
                     ("heartRate", NumCol [Fin 70; Fin 80; Fin 90]%R);
                     ("hrv", NumCol [Fin 50; NaN; Fin 40]%R)] |} 2 = Ok df'
    /\ df_get "hr_rolling_mean" df' = Some (NumCol hr_mean)
    /\ nth_error hr_mean 0 = Some (Fin 80)
    /\ nth_error hr_mean 1 = Some (Fin 75).
Proof.
  destruct (calculate_rolling_stats_windows (L := stable_library)
              {| df_len := 3;
                 df_cols := [("timestamp", TimeCol [1800; 0; 3600]%Z);
                             ("heartRate", NumCol [Fin 70; Fin 80; Fin 90]%R);
                             ("hrv", NumCol [Fin 50; NaN; Fin 40]%R)] |} 2
              [Fin 70; Fin 80; Fin 90]%R [Fin 50; NaN; Fin 40]%R
              ltac:(lia) eq_refl eq_refl)
    as (df' & hr' & hrv' & hr_mean & hr_std & hrv_mean & hrv_std & Hrun & Hsorted & _
        & _ & _ & Hmean & _ & _ & _ & Hspec & _).
  assert (Hhr' : hr' = [Fin 80; Fin 70; Fin 90]%R).
  { change (Some (NumCol [Fin 80; Fin 70; Fin 90]%R) = Some (NumCol hr')) in Hsorted.
    now injection Hsorted. }
  subst hr'.
  exists df', hr_mean. split; [exact Hrun|]. split; [exact Hmean|].
  destruct Hspec as (_ & _ & Hat & H0 & _). split; [exact H0|].
  destruct (Hat 1%nat ltac:(simpl; lia)) as (a & b & Ha & _ & Hmean_of & _).
  rewrite Ha. f_equal.
  destruct a as [m|]; simpl in Hmean_of.
  - destruct Hmean_of as [_ Hm]. simpl in Hm. f_equal. lra.
  - discriminate Hmean_of.
Defined.

(** ** The frame that [analyze_data] leaves *)

Section FrameAfterAnalysis.

Context {L : Library}.

Lemma anomaly_block_frame (df : DataFrame) :
  fst (anomaly_block df)
  = match df_get "heartRate" df with
    | None => df
    | Some hr =>
      match zscore_column hr with
      | Raise _ => df
      | Ok z => df_set "hr_zscore" (NumCol (map fabs z)) df
      end
    end.
Proof.
  unfold anomaly_block.
  destruct (df_get "heartRate" df) as [hr|]; [|reflexivity].
  destruct (zscore_column hr) as [z|e]; [|reflexivity].
  destruct (df_len _ =? 0)%nat; [reflexivity|].
  destruct (0 <? _)%nat; [|reflexivity].
  now destruct (anomaly_records _ _).
Qed.

Lemma analyze_data_frame (df : DataFrame) :
  fst (analyze_data df)
  = match date_range_block df with
    | Raise _ => df
    | Ok _ => fst (anomaly_block df)
    end.
Proof.
  unfold analyze_data.
  destruct (date_range_block df); [|reflexivity].
  destruct (anomaly_block df) as [df1 [anom|e]]; [|reflexivity].
  now destruct (activity_block df1) as [[bd st]|e].
Qed.

(** What [analyze_data] does to the caller's frame: the index and every
    column other than [hr_zscore] are as they were; when the analysis
    reaches the anomaly block of a frame with a heart-rate column, the
    column [hr_zscore] holds the absolute z-scores; a frame without a
    heart-rate column is left as it was. *)
Lemma analyze_data_touches_hr_zscore_only (df : DataFrame) :
  df_len (fst (analyze_data df)) = df_len df
  /\ (forall k, String.eqb "hr_zscore" k = false ->
        df_get k (fst (analyze_data df)) = df_get k df)
  /\ (df_get "heartRate" df = None -> fst (analyze_data df) = df)
  /\ (forall hr z dr,
        df_get "heartRate" df = Some hr ->
        zscore_column hr = Ok z ->
        date_range_block df = Ok dr ->
        df_get "hr_zscore" (fst (analyze_data df)) = Some (NumCol (map fabs z))).
Proof.
  rewrite analyze_data_frame, anomaly_block_frame.
  repeat match goal with |- _ /\ _ => split end.
  - destruct (date_range_block df); [|reflexivity].
    destruct (df_get "heartRate" df) as [hr|]; [|reflexivity].
    now destruct (zscore_column hr).
  - intros k Hk. destruct (date_range_block df); [|reflexivity].
    destruct (df_get "heartRate" df) as [hr|]; [|reflexivity].
    destruct (zscore_column hr); [|reflexivity].
    now apply df_get_set_other.
  - intros ->. now destruct (date_range_block df).
  - intros hr z dr -> -> ->. apply df_get_set_same.
Qed.

(** C3, at a batch of two records: after [analyze_data] the caller's frame
    has a third column, [hr_zscore], so it is not the frame that was passed
    in. *)
Theorem analyze_data_adds_hr_zscore :
  df_columns two_beats = ["timestamp"; "heartRate"]
  /\ df_columns (fst (analyze_data two_beats)) = ["timestamp"; "heartRate"; "hr_zscore"]
  /\ fst (analyze_data two_beats) <> two_beats.
Proof.
  assert (Hcols : df_columns (fst (analyze_data two_beats))
                  = ["timestamp"; "heartRate"; "hr_zscore"]).
  { rewrite analyze_data_frame, anomaly_block_frame. reflexivity. }
  repeat split; [exact Hcols|].
  intros Heq. rewrite Heq in Hcols. discriminate.
Qed.

End FrameAfterAnalysis.

(** ** The empty batch *)

Section EmptyBatch.

Context {L : Library}.

(** Whatever its columns hold, a batch without records that has a
    heart-rate column makes [analyze_data] raise. *)
Lemma analyze_data_empty_raises (df : DataFrame) :
  df_len df = 0 ->
  df_has "heartRate" df = true ->
  exists e, snd (analyze_data df) = Raise e.
Proof.
  intros Hlen Hhas. unfold df_has in Hhas. unfold analyze_data.
  destruct (date_range_block df) as [dr|e]; [|now exists e].
  unfold anomaly_block.
  destruct (df_get "heartRate" df) as [hr|]; [|discriminate].
  destruct (zscore_column hr) as [z|e]; [|now exists e].
  simpl df_len. rewrite Hlen. simpl. now exists ZeroDivisionError.
Qed.

(** C4, at the batch without records: the date range and the statistics
    are computed, then the percentage of anomalies divides zero by zero and
    [analyze_data] raises [ZeroDivisionError]; no report is returned. *)
Theorem analyze_data_empty_batch_raises :
  df_has "heartRate" empty_batch = true
  /\ date_range_block empty_batch
     = Ok (Some {| dr_start := None; dr_end := None; duration_hours := NaN |})
  /\ snd (analyze_data empty_batch) = Raise ZeroDivisionError.
Proof. repeat split. Qed.

End EmptyBatch.

(** ** Z-scores *)

Lemma Rsum_repeat (x : R) (n : nat) : Rsum (repeat x n) = (INR n * x)%R.
Proof.
  induction n as [|n IH]; [simpl; lra|].
  simpl repeat. unfold Rsum in *. simpl fold_right. rewrite IH, S_INR. lra.
Qed.

Lemma sq_dev_repeat (x : R) (n : nat) : sq_dev (repeat x n) = 0%R.
Proof.
  unfold sq_dev. rewrite map_repeat, Rsum_repeat.
  destruct n as [|n]; [simpl; lra|].
  unfold Rmean. rewrite Rsum_repeat, repeat_length.
  assert (INR (S n) <> 0%R) by (apply not_0_INR; lia).
  field. assumption.
Qed.

Lemma finite_values_repeat (x : R) (n : nat) :
  finite_values (repeat (Fin x) n) = repeat x n.
Proof. induction n as [|n IH]; simpl; [|rewrite IH]; reflexivity. Qed.

Lemma finite_values_map_Fin (xs : list R) : finite_values (map Fin xs) = xs.
Proof. induction xs as [|x xs IH]; simpl; [|rewrite IH]; reflexivity. Qed.

Lemma existsb_is_nan_map_Fin (xs : list R) : existsb is_nan (map Fin xs) = false.
Proof. induction xs as [|x xs IH]; simpl; [|rewrite IH]; reflexivity. Qed.

Lemma Reqb_refl (x : R) : Reqb x x = true.
Proof. unfold Reqb. now destruct (Req_dec_T x x). Qed.

(** The z-scores of a constant series are all undefined. *)
Lemma zscore_constant (v : float) (n : nat) :
  zscore (repeat v n) = repeat NaN n.
Proof.
  unfold zscore. destruct v as [x|].
  - replace (existsb is_nan (repeat (Fin x) n)) with false
      by (induction n; simpl; auto).
    rewrite finite_values_repeat. unfold variance.
    rewrite sq_dev_repeat. unfold Rdiv at 1. rewrite Rmult_0_l, sqrt_0, Reqb_refl.
    now rewrite map_repeat.
  - destruct n as [|n]; [reflexivity|]. simpl existsb.
    now rewrite map_repeat.
Qed.

(** On a numeric series without missing values, [zscore] is the population
    z-score of each value. *)
Lemma zscore_population (xs : list R) :
  zscore (map Fin xs) = map (population_zscore xs) xs.
Proof.
  unfold zscore. now rewrite existsb_is_nan_map_Fin, finite_values_map_Fin.
Qed.

Lemma Rsum_zero_terms (l : list R) :
  Forall (fun y => 0 <= y)%R l -> Rsum l = 0%R -> Forall (fun y => y = 0%R) l.
Proof.
  induction 1 as [|y l Hy Hl IH]; intros Hsum; constructor;
    pose proof (Rsum_nonneg l Hl); simpl in Hsum.
  - lra.
  - apply IH. lra.
Qed.

Lemma sq_dev_zero (xs : list R) (x : R) :
  sq_dev xs = 0%R -> In x xs -> ((x - Rmean xs) * (x - Rmean xs) = 0)%R.
Proof.
  intros Hzero Hin.
  pose proof (Rsum_zero_terms _ (squares_nonneg (Rmean xs) xs) Hzero) as Hall.
  rewrite List.Forall_map, List.Forall_forall in Hall. now apply Hall.
Qed.

Lemma abs_ratio_gt_2 (d s : R) :
  (0 < s)%R -> (2 < Rabs (d / s) <-> 4 * (s * s) < d * d)%R.
Proof.
  intros Hs.
  assert (Habs : Rabs d = (Rabs (d / s) * s)%R).
  { unfold Rdiv. rewrite Rabs_mult. rewrite (Rabs_right (/ s)).
    - field. lra.
    - apply Rle_ge, Rlt_le, Rinv_0_lt_compat, Hs. }
  assert (Hd : (d * d = Rabs d * Rabs d)%R).
  { rewrite <- Rabs_mult. symmetry. apply Rabs_right. nra. }
  pose proof (Rabs_pos (d / s)) as Hpos.
  rewrite Hd, Habs. set (q := Rabs (d / s)) in *.
  assert (Hss : (0 < s * s)%R) by nra.
  replace (q * s * (q * s))%R with ((q * q) * (s * s))%R by ring.
  split; intros H.
  - assert (4 < q * q)%R by nra. nra.
  - assert (4 < q * q)%R by nra. nra.
Qed.

(** A record's score exceeds the threshold exactly when four times the sum
    of squared deviations is below [n - ddof] times its own squared
    deviation: the comparison without the square root. *)
Lemma zscore_with_exceeds (ddof : nat) (xs : list R) (x : R) :
  ddof < length xs ->
  In x xs ->
  exceeds_threshold (zscore_with ddof xs x) = true
  <-> (4 * sq_dev xs < INR (length xs - ddof) * ((x - Rmean xs) * (x - Rmean xs)))%R.
Proof.
  intros Hlen Hin. unfold exceeds_threshold, zscore_with, variance, anomaly_threshold.
  assert (Hn : (0 < INR (length xs - ddof))%R) by (apply lt_0_INR; lia).
  set (n := INR (length xs - ddof)) in *. set (d := (x - Rmean xs)%R).
  destruct (Rle_lt_or_eq_dec _ _ (sq_dev_nonneg xs)) as [Hpos|Hzero].
  - assert (Hv : (0 < sq_dev xs / n)%R) by now apply Rdiv_lt_0_compat.
    pose proof (sqrt_lt_R0 _ Hv) as Hsd.
    pose proof (sqrt_sqrt _ (Rlt_le _ _ Hv)) as Hsq.
    unfold Reqb. destruct (Req_dec_T (sqrt (sq_dev xs / n)) 0) as [E|_]; [lra|].
    simpl. unfold Rltb.
    destruct (Rlt_dec 2 (Rabs (d / sqrt (sq_dev xs / n)))) as [Hgt|Hngt].
    + split; [intros _|reflexivity].
      apply abs_ratio_gt_2 in Hgt; [|exact Hsd]. rewrite Hsq in Hgt.
      apply (Rmult_lt_compat_r n) in Hgt; [|exact Hn].
      replace (4 * (sq_dev xs / n) * n)%R with (4 * sq_dev xs)%R in Hgt by (field; lra).
      lra.
    + split; [discriminate|]. intros H. exfalso. apply Hngt.
      apply abs_ratio_gt_2; [exact Hsd|]. rewrite Hsq.
      apply (Rmult_lt_reg_r n); [exact Hn|].
      replace (4 * (sq_dev xs / n) * n)%R with (4 * sq_dev xs)%R by (field; lra).
      lra.
  - rewrite <- Hzero. unfold Rdiv at 1. rewrite Rmult_0_l, sqrt_0, Reqb_refl. simpl.
    pose proof (sq_dev_zero xs x (eq_sym Hzero) Hin) as Hd. fold d in Hd.
    rewrite Hd. split; [discriminate|lra].
Qed.

(** ** Anomaly detection *)

Section AnomalyDetection.

Context {L : Library}.

Lemma filter_true_map {A} (p : A -> bool) (l : list A) :
  length (List.filter (fun b : bool => b) (map p l)) = length (List.filter p l).
Proof.
  induction l as [|x l IH]; [reflexivity|].
  simpl. destruct (p x); simpl; now rewrite IH.
Qed.

Lemma filter_repeat_false (n : nat) :
  List.filter (fun b : bool => b) (repeat false n) = [].
Proof. induction n as [|n IH]; [reflexivity|exact IH]. Qed.

Lemma zip3_mask_select (p : R -> bool) (h : R -> float) (ts : list Z) (xs : list R) :
  length ts = length xs ->
  zip3 (mask_select (map p xs) (map CTime ts))
       (mask_select (map p xs) (map CNum (map Fin xs)))
       (mask_select (map p xs) (map CNum (map h xs)))
  = map (fun tx : Z * R =>
           {| a_timestamp := CTime (fst tx);
              a_heartRate := CNum (Fin (snd tx));
              a_hr_zscore := CNum (h (snd tx)) |})
        (List.filter (fun tx : Z * R => p (snd tx)) (combine ts xs)).
Proof.
  revert ts. induction xs as [|x xs IH]; intros [|t ts] Hlen; try discriminate.
  - reflexivity.
  - simpl. destruct (p x); simpl; rewrite IH by (simpl in Hlen; lia); reflexivity.
Qed.

Lemma filter_combine_nil {A B} (p : B -> bool) (ts : list A) (xs : list B) :
  List.filter p xs = [] ->
  List.filter (fun tx : A * B => p (snd tx)) (combine ts xs) = [].
Proof.
  revert ts. induction xs as [|x xs IH]; intros [|t ts]; try reflexivity.
  simpl. destruct (p x); [discriminate|]. apply IH.
Qed.

Lemma anomaly_block_constant (df : DataFrame) (hr : list float) (v : float) :
  df_len df <> 0 ->
  df_get "heartRate" df = Some (NumCol hr) ->
  (forall x, In x hr -> x = v) ->
  anomaly_block df
  = (df_set "hr_zscore" (NumCol (repeat NaN (length hr))) df, Ok (Some no_anomalies)).
Proof.
  intros Hlen Hhr Hall.
  assert (E : hr = repeat v (length hr)).
  { apply Forall_eq_repeat, List.Forall_forall. intros x Hx. symmetry. now apply Hall. }
  rewrite E in Hhr. unfold anomaly_block. rewrite Hhr. cbv zeta. simpl zscore_column.
  rewrite zscore_constant, !map_repeat. simpl fabs. simpl fgt.
  rewrite filter_repeat_false. simpl df_len.
  destruct (Nat.eqb_spec (df_len df) 0) as [H0|_]; [contradiction|].
  simpl. unfold no_anomalies. do 3 f_equal.
  unfold Rdiv. now rewrite !Rmult_0_l.
Qed.

(** A numeric heart-rate column never stops the activity blocks. *)
Lemma activity_block_numeric (df : DataFrame) (hr : list float) :
  df_get "heartRate" df = Some (NumCol hr) ->
  exists bd st, activity_block df = Ok (bd, st).
Proof.
  intros Hhr. unfold activity_block. rewrite Hhr.
  destruct (df_get "activity" df); eauto.
Qed.

(** The date range raises nothing but [AttributeError] and [TypeError]. *)
Lemma date_range_block_raises (df : DataFrame) (e : exn) :
  date_range_block df = Raise e -> e = AttributeError \/ e = TypeError.
Proof.
  unfold date_range_block.
  destruct (df_get "timestamp" df) as [[v|[|s v]|[|t v]]|]; intros [= <-]; auto.
Qed.

(** C6.  On a non-empty batch whose heart rates are all equal, the anomaly
    block reports no anomaly: count 0, percentage 0, no record.  The whole
    analysis does not raise a division error, and whenever the date range
    of the batch can be computed it returns a report with this block. *)
Theorem constant_heart_rate_no_anomalies
    (df : DataFrame) (hr : list float) (v : float) :
  df_len df <> 0 ->
  df_get "heartRate" df = Some (NumCol hr) ->
  (forall x, In x hr -> x = v) ->
  snd (anomaly_block df) = Ok (Some no_anomalies)
  /\ snd (analyze_data df) <> Raise ZeroDivisionError
  /\ (forall dr, date_range_block df = Ok dr ->
        exists r, snd (analyze_data df) = Ok r /\ anomalies r = Some no_anomalies).
Proof.
  intros Hlen Hhr Hall.
  pose proof (anomaly_block_constant df hr v Hlen Hhr Hall) as Hblock.
  assert (Hrun : forall dr, date_range_block df = Ok dr ->
             exists r, snd (analyze_data df) = Ok r /\ anomalies r = Some no_anomalies).
  { intros dr Hdr. unfold analyze_data. rewrite Hdr, Hblock.
    destruct (activity_block_numeric
                (df_set "hr_zscore" (NumCol (repeat NaN (length hr))) df) hr)
      as (bd & st & Hact).
    { rewrite df_get_set_other by reflexivity. exact Hhr. }
    rewrite Hact. eexists. split; reflexivity. }
  repeat match goal with |- _ /\ _ => split end.
  - now rewrite Hblock.
  - destruct (date_range_block df) as [dr|e] eqn:Hdr.
    + destruct (Hrun dr eq_refl) as (r & Hr & _). rewrite Hr. discriminate.
    + unfold analyze_data. rewrite Hdr. simpl.
      destruct (date_range_block_raises df e Hdr) as [-> | ->]; discriminate.
  - exact Hrun.
Qed.

Lemma anomaly_block_numeric (df : DataFrame) (ts : list Z) (xs : list R) :
  well_formed df ->
  df_get "timestamp" df = Some (TimeCol ts) ->
  df_get "heartRate" df = Some (NumCol (map Fin xs)) ->
  df_len df <> 0 ->
  let flagged := fun x => exceeds_threshold (population_zscore xs x) in
  anomaly_block df
  = (df_set "hr_zscore" (NumCol (map (fun x => fabs (population_zscore xs x)) xs)) df,
     Ok (Some {| count := length (List.filter flagged xs);
                 percentage := (INR (length (List.filter flagged xs))
                                / INR (df_len df) * 100)%R;
                 threshold := 2;
                 records := anomalous_rows (population_zscore xs) ts xs |})).
Proof.
  intros Hwf Hts Hhr Hlen flagged.
  assert (Hlens : length ts = length xs).
  { pose proof (cols_get_length _ _ _ Hwf Hts) as H1.
    pose proof (cols_get_length _ _ _ Hwf Hhr) as H2.
    unfold column_length in H1, H2. simpl in H1, H2.
    rewrite !length_map in *. lia. }
  unfold anomaly_block. rewrite Hhr. cbv zeta. simpl zscore_column.
  rewrite zscore_population, !map_map.
  change (fun x : R => fgt (fabs (population_zscore xs x)) (Fin anomaly_threshold))
    with flagged.
  rewrite filter_true_map. simpl df_len.
  destruct (Nat.eqb_spec (df_len df) 0) as [H0|_]; [contradiction|].
  set (df1 := df_set "hr_zscore" _ df).
  destruct (Nat.ltb_spec 0 (length (List.filter flagged xs))) as [Hpos|Hnone].
  - unfold anomaly_records.
    replace (df_get "timestamp" df1) with (Some (TimeCol ts))
      by (unfold df1; now rewrite df_get_set_other by reflexivity).
    replace (df_get "heartRate" df1) with (Some (NumCol (map Fin xs)))
      by (unfold df1; now rewrite df_get_set_other by reflexivity).
    unfold df1 at 1. rewrite df_get_set_same. simpl column_cells.
    rewrite (zip3_mask_select flagged (fun x => fabs (population_zscore xs x)) ts xs Hlens).
    reflexivity.
  - assert (Hnil : List.filter flagged xs = [])
      by (destruct (List.filter flagged xs); [reflexivity|simpl in Hnone; lia]).
    unfold anomalous_rows.
    rewrite (filter_combine_nil (fun x => exceeds_threshold (population_zscore xs x))
               ts xs Hnil), Hnil.
    reflexivity.
Qed.

(** The run of [analyze_data] on a batch with timestamps and heart rates
    without missing values. *)
Lemma analyze_data_numeric (df : DataFrame) (ts : list Z) (xs : list R) :
  well_formed df ->
  df_get "timestamp" df = Some (TimeCol ts) ->
  df_get "heartRate" df = Some (NumCol (map Fin xs)) ->
  1 <= length xs ->
  let z := population_zscore xs in
  exists dr bd st,
    analyze_data df
    = (df_set "hr_zscore" (NumCol (map (fun x => fabs (z x)) xs)) df,
       Ok {| summary := {| total_records := df_len df;
                           columns := df_columns df;
                           date_range := dr |};
             statistics := statistics_block df;
             anomalies := Some
               {| count := length (List.filter (fun x => exceeds_threshold (z x)) xs);
                  percentage :=
                    (INR (length (List.filter (fun x => exceeds_threshold (z x)) xs))
                     / INR (length xs) * 100)%R;
                  threshold := 2;
                  records := anomalous_rows z ts xs |};
             activity_breakdown := bd;
             activity_stats := st |}).
Proof.
  intros Hwf Hts Hhr Hn z.
  assert (Hrows : df_len df = length xs).
  { pose proof (cols_get_length _ _ _ Hwf Hhr) as H.
    unfold column_length in H. simpl in H. now rewrite !length_map in H. }
  assert (Hlen : df_len df <> 0) by lia.
  pose proof (anomaly_block_numeric df ts xs Hwf Hts Hhr Hlen) as Hblock.
  cbv zeta in Hblock.
  assert (Hdr : exists dr, date_range_block df = Ok dr).
  { unfold date_range_block. rewrite Hts. destruct ts; eauto. }
  destruct Hdr as [dr Hdr].
  destruct (activity_block_numeric
              (df_set "hr_zscore" (NumCol (map (fun x => fabs (z x)) xs)) df) (map Fin xs))
    as (bd & st & Hact).
  { rewrite df_get_set_other by reflexivity. exact Hhr. }
  exists dr, bd, st.
  unfold analyze_data. rewrite Hdr, Hblock. fold z. rewrite Hact, Hrows. reflexivity.
Qed.

(** C5, as the code has it.  On a batch of at least two records whose
    timestamp column holds datetimes and whose heart rates are numbers, none
    of them missing, [analyze_data] returns a report and stores in column
    [hr_zscore] the absolute z-score of each heart rate,
    [(hr_i - mean) / std] over the whole batch with the population standard
    deviation (denominator [n]).  The anomalies are exactly the records
    with [|z_i| > 2], in batch order; a record is one of them exactly when
    four times the sum of squared deviations is below [n] times its own
    squared deviation.  The scores are real numbers here: the comparison
    with 2 is the exact one, and a score that is exactly 2 (the record at 62
    among 60, 60, 60, 60, 62) is not an anomaly, where the rounding of
    doubles may put it on either side. *)
Theorem anomalies_by_population_zscore (df : DataFrame) (ts : list Z) (xs : list R) :
  well_formed df ->
  df_get "timestamp" df = Some (TimeCol ts) ->
  df_get "heartRate" df = Some (NumCol (map Fin xs)) ->
  2 <= length xs ->
  let z := population_zscore xs in
  exists (r : Report) (a : Anomalies),
    snd (analyze_data df) = Ok r
    /\ anomalies r = Some a
    /\ df_get "hr_zscore" (fst (analyze_data df)) = Some (NumCol (map (fun x => fabs (z x)) xs))
    /\ (forall x, z x = let sd := sqrt (sq_dev xs / INR (length xs)) in
                        if Reqb sd 0 then NaN else Fin ((x - Rmean xs) / sd)%R)
    /\ count a = length (List.filter (fun x => exceeds_threshold (z x)) xs)
    /\ percentage a = (INR (count a) / INR (length xs) * 100)%R
    /\ threshold a = 2%R
    /\ records a = anomalous_rows z ts xs
    /\ (forall x, In x xs ->
          exceeds_threshold (z x) = true
          <-> (4 * sq_dev xs < INR (length xs) * ((x - Rmean xs) * (x - Rmean xs)))%R).
Proof.
  intros Hwf Hts Hhr Hn z.
  destruct (analyze_data_numeric df ts xs Hwf Hts Hhr ltac:(lia)) as (dr & bd & st & Hrun).
  fold z in Hrun. rewrite Hrun. eexists _, _.
  split; [reflexivity|]. split; [reflexivity|]. simpl.
  repeat match goal with |- _ /\ _ => split end; try reflexivity.
  - apply df_get_set_same.
  - intros x. unfold z, population_zscore, zscore_with, variance.
    now rewrite Nat.sub_0_r.
  - intros x Hx. unfold z, population_zscore.
    rewrite (zscore_with_exceeds 0 xs x) by (assumption || lia).
    now rewrite Nat.sub_0_r.
Qed.

End AnomalyDetection.

(** Twenty records of 70 bpm: no anomaly, and a report is returned. *)
Lemma constant_heart_rate_no_anomalies_witness :
  snd (anomaly_block twenty_at_70) = Ok (Some no_anomalies)
  /\ exists r, snd (analyze_data (L := stable_library) twenty_at_70) = Ok r
               /\ anomalies r = Some no_anomalies.
Proof.
  destruct (constant_heart_rate_no_anomalies (L := stable_library) twenty_at_70 (repeat (Fin 70%R) 20)
              (Fin 70%R) ltac:(discriminate) eq_refl
              ltac:(intros x Hx; exact (repeat_spec _ _ _ Hx)))
    as (Hblock & _ & Hrun).
  split; [exact Hblock|]. exact (Hrun None eq_refl).
Defined.

Lemma six_rates_mean : Rmean six_rates = 62%R.
Proof. unfold Rmean, six_rates, Rsum. simpl. lra. Qed.

Lemma six_rates_sq_dev : sq_dev six_rates = 80%R.
Proof. unfold sq_dev. rewrite six_rates_mean. unfold six_rates, Rsum. simpl. lra. Qed.

(** Whether a heart rate of [six_rates] is an anomaly, by the comparison
    without the square root. *)
Lemma six_rates_exceeds (ddof : nat) (x : R) :
  ddof < 6 ->
  In x six_rates ->
  exceeds_threshold (zscore_with ddof six_rates x) = true
  <-> (320 < INR (6 - ddof) * ((x - 62) * (x - 62)))%R.
Proof.
  intros Hd Hx. rewrite (zscore_with_exceeds ddof six_rates x Hd Hx).
  rewrite six_rates_mean, six_rates_sq_dev.
  change (length six_rates) with 6. lra.
Qed.

Lemma six_rates_population_flags :
  List.filter (fun x => exceeds_threshold (population_zscore six_rates x)) six_rates
  = [70%R].
Proof.
  assert (H60 : exceeds_threshold (population_zscore six_rates 60) = false).
  { apply not_true_is_false. intros H.
    apply (six_rates_exceeds 0 60) in H; [simpl in H; lra|lia|simpl; auto]. }
  assert (H62 : exceeds_threshold (population_zscore six_rates 62) = false).
  { apply not_true_is_false. intros H.
    apply (six_rates_exceeds 0 62) in H; [simpl in H; lra|lia|simpl; auto 10]. }
  assert (H70 : exceeds_threshold (population_zscore six_rates 70) = true).
  { apply (six_rates_exceeds 0 70); [lia|simpl; auto 10|simpl; lra]. }
  unfold six_rates at 2. simpl List.filter. now rewrite H60, H62, H70.
Qed.

Lemma six_rates_sample_flags :
  List.filter (fun x => exceeds_threshold (sample_zscore six_rates x)) six_rates = [].
Proof.
  assert (H60 : exceeds_threshold (sample_zscore six_rates 60) = false).
  { apply not_true_is_false. intros H.
    apply (six_rates_exceeds 1 60) in H; [simpl in H; lra|lia|simpl; auto]. }
  assert (H62 : exceeds_threshold (sample_zscore six_rates 62) = false).
  { apply not_true_is_false. intros H.
    apply (six_rates_exceeds 1 62) in H; [simpl in H; lra|lia|simpl; auto 10]. }
  assert (H70 : exceeds_threshold (sample_zscore six_rates 70) = false).
  { apply not_true_is_false. intros H.
    apply (six_rates_exceeds 1 70) in H; [simpl in H; lra|lia|simpl; auto 10]. }
  unfold six_rates at 2. simpl List.filter. now rewrite H60, H62, H70.
Qed.

Lemma six_beats_well_formed : well_formed six_beats.
Proof. repeat constructor. Qed.

(** C5 fails as stated.  On the batch with heart rates 60, 60, 60, 60, 62
    and 70 the mean is 62 and the squared deviations sum to 80.  With the
    sample standard deviation (4) the z-score of the record at 70 bpm is
    exactly 2, so no record has [|z| > 2]; with the population standard
    deviation its z-score is 2.19, away from the threshold, and
    [analyze_data] reports that record as an anomaly. *)
Lemma sample_std_zscore_counterexample :
  List.filter (fun x => exceeds_threshold (sample_zscore six_rates x)) six_rates = []
  /\ exists (r : Report) (a : Anomalies),
       snd (analyze_data (L := stable_library) six_beats) = Ok r
       /\ anomalies r = Some a
       /\ count a = 1
       /\ map a_heartRate (records a) = [CNum (Fin 70)].
Proof.
  split; [exact six_rates_sample_flags|].
  destruct (analyze_data_numeric (L := stable_library) six_beats [0; 300; 600; 900; 1200; 1500]%Z six_rates
              six_beats_well_formed eq_refl eq_refl ltac:(simpl; lia))
    as (dr & bd & st & Hrun).
  rewrite Hrun. eexists _, _.
  split; [reflexivity|]. split; [reflexivity|]. cbn [count records].
  rewrite six_rates_population_flags. split; [reflexivity|].
  unfold anomalous_rows.
  assert (Hrows : List.filter
                    (fun tx : Z * R => exceeds_threshold (population_zscore six_rates (snd tx)))
                    (combine [0; 300; 600; 900; 1200; 1500]%Z six_rates)
                  = [(1500%Z, 70%R)]).
  { assert (H60 : exceeds_threshold (population_zscore six_rates 60) = false).
    { apply not_true_is_false. intros H.
      apply (six_rates_exceeds 0 60) in H; [simpl in H; lra|lia|simpl; auto]. }
    assert (H62 : exceeds_threshold (population_zscore six_rates 62) = false).
    { apply not_true_is_false. intros H.
      apply (six_rates_exceeds 0 62) in H; [simpl in H; lra|lia|simpl; auto 10]. }
    assert (H70 : exceeds_threshold (population_zscore six_rates 70) = true).
    { apply (six_rates_exceeds 0 70); [lia|simpl; auto 10|simpl; lra]. }
    unfold six_rates at 2. simpl. now rewrite H60, H62, H70. }
  rewrite Hrows. reflexivity.
Qed.

(** The batch of six: a report is returned, with one anomaly. *)
Lemma anomalies_by_population_zscore_witness :
  exists (r : Report) (a : Anomalies),
    snd (analyze_data (L := stable_library) six_beats) = Ok r /\ anomalies r = Some a /\ count a = 1.
Proof.
  destruct (anomalies_by_population_zscore (L := stable_library) six_beats [0; 300; 600; 900; 1200; 1500]%Z
              six_rates six_beats_well_formed eq_refl eq_refl ltac:(simpl; lia))
    as (r & a & Hrun & Ha & _ & _ & Hcount & _).
  exists r, a. repeat split; try assumption.
  rewrite Hcount. now rewrite six_rates_population_flags.
Defined.

(** ** Activity breakdown *)

Section ActivityBreakdown.

Context {L : Library}.

Lemma cell_eqb_eq (a b : cell) : cell_eqb a b = true -> a = b.
Proof.
  destruct a as [[x|]|s|t], b as [[y|]|s'|t']; simpl; try discriminate.
  - unfold Reqb. destruct (Req_dec_T x y); [now intros _; subst|discriminate].
  - intros H. apply String.eqb_eq in H. now subst.
  - intros H. apply Z.eqb_eq in H. now subst.
Qed.

Lemma cell_eqb_refl (a : cell) : is_missing a = false -> cell_eqb a a = true.
Proof.
  destruct a as [[x|]|s|t]; simpl; try discriminate; intros _.
  - apply Reqb_refl.
  - apply String.eqb_refl.
  - apply Z.eqb_refl.
Qed.

Lemma present_cells_not_missing (l : list cell) (x : cell) :
  In x (present_cells l) -> is_missing x = false.
Proof.
  unfold present_cells. rewrite filter_In. intros [_ H].
  now destruct (is_missing x).
Qed.

(** [distinct] lists the values of a list. *)
Lemma distinct_In (l : list cell) (y : cell) : In y (distinct l) <-> In y l.
Proof.
  induction l as [|x t IH]; simpl; [reflexivity|].
  rewrite filter_In, IH. split.
  - intros [H|[H _]]; auto.
  - intros [H|H]; [now left|].
    destruct (cell_eqb x y) eqn:E; [left; now apply cell_eqb_eq|right; auto].
Qed.

(** It lists each value once. *)
Lemma distinct_NoDup (l : list cell) :
  (forall x, In x l -> is_missing x = false) -> List.NoDup (distinct l).
Proof.
  induction l as [|x t IH]; intros Hpresent; simpl; constructor.
  - rewrite filter_In. intros [_ H].
    rewrite cell_eqb_refl in H by (apply Hpresent; now left). discriminate.
  - apply List.NoDup_filter, IH. intros y Hy. apply Hpresent. now right.
Qed.

Lemma value_counts_sorted (l : list cell) : Sorted count_ge (value_counts l).
Proof.
  unfold value_counts. apply stable_sort_sorted; unfold count_ge.
  - intros y x H. apply Nat.ltb_lt in H. lia.
  - intros y x H. apply Nat.ltb_ge in H. lia.
Qed.

Lemma value_counts_perm (l : list cell) :
  Permutation (value_counts l)
    (map (fun k => (k, occurrences k (present_cells l))) (distinct (present_cells l))).
Proof. apply stable_sort_perm. Qed.

Lemma map_fst_counts (f : cell -> nat) (l : list cell) :
  map fst (map (fun k => (k, f k)) l) = l.
Proof. rewrite map_map. simpl. apply map_id. Qed.

(** What [value_counts] returns: every value that occurs, once, with the
    number of its occurrences, in order of non-increasing count. *)
Lemma value_counts_spec (l : list cell) :
  let values := present_cells l in
  let counts := value_counts l in
  List.NoDup (map fst counts)
  /\ (forall k, In k (map fst counts) <-> In k values)
  /\ (forall k c, In (k, c) counts -> c = occurrences k values)
  /\ StronglySorted count_ge counts.
Proof.
  intros values counts.
  pose proof (value_counts_perm l) as Hperm. fold values counts in Hperm.
  assert (Hkeys : Permutation (map fst counts) (distinct values)).
  { rewrite (Permutation_map fst Hperm). now rewrite map_fst_counts. }
  repeat match goal with |- _ /\ _ => split end.
  - apply (Permutation_NoDup (Permutation_sym Hkeys)).
    apply distinct_NoDup. intros x Hx. now apply (present_cells_not_missing l).
  - intros k. split; intros H.
    + apply distinct_In. now apply (Permutation_in _ Hkeys).
    + apply (Permutation_in _ (Permutation_sym Hkeys)). now apply distinct_In.
  - intros k c Hin. apply (Permutation_in _ Hperm) in Hin.
    apply in_map_iff in Hin. destruct Hin as (k' & [= <- <-] & _). reflexivity.
  - apply Sorted_StronglySorted; [|apply value_counts_sorted].
    intros a b c. unfold count_ge. lia.
Qed.

Lemma anomaly_block_touches (df : DataFrame) :
  df_len (fst (anomaly_block df)) = df_len df
  /\ forall k, String.eqb "hr_zscore" k = false ->
       df_get k (fst (anomaly_block df)) = df_get k df.
Proof.
  rewrite anomaly_block_frame.
  destruct (df_get "heartRate" df) as [hr|]; [|now split].
  destruct (zscore_column hr); [|now split].
  split; [reflexivity|]. intros k Hk. now apply df_get_set_other.
Qed.

(** The breakdown of a report is built from the value counts of the
    activity column and the length of the batch. *)
Lemma analyze_data_breakdown (df : DataFrame) (act : column) (r : Report) :
  df_get "activity" df = Some act ->
  snd (analyze_data df) = Ok r ->
  activity_breakdown r = breakdown_of (df_len df) (value_counts (column_cells act)).
Proof.
  intros Hact. unfold analyze_data.
  destruct (date_range_block df) as [dr|e]; [|discriminate].
  destruct (anomaly_block_touches df) as [Hlen Hget].
  destruct (anomaly_block df) as [df1 [anom|e]]; [|discriminate].
  simpl in Hlen, Hget. unfold activity_block.
  rewrite (Hget "activity" eq_refl), Hact, Hlen.
  destruct (df_get "heartRate" df1) as [[hr|s|t]|]; simpl;
    try destruct (groupby_other _ _); try discriminate; now intros [= <-].
Qed.

Lemma strongly_sorted_map {A B} (f : A -> B) (R : A -> A -> Prop) (S : B -> B -> Prop)
    (l : list A) :
  (forall a b, R a b -> S (f a) (f b)) ->
  StronglySorted R l -> StronglySorted S (map f l).
Proof.
  intros Hf. induction 1 as [|a l Hl IH Hall]; simpl; constructor; [exact IH|].
  apply List.Forall_map. revert Hall. apply List.Forall_impl. intros b. apply Hf.
Qed.

(** C1, as the code has it.  For a non-empty batch with an activity column,
    the activity breakdown of the report lists every activity value of the
    batch exactly once, each with the number of records that have it and
    that number as a percentage of the record count; the values are in order
    of non-increasing count (most frequent first). *)
Theorem activity_breakdown_most_frequent_first
    (df : DataFrame) (act : column) (r : Report) :
  df_len df <> 0 ->
  df_get "activity" df = Some act ->
  snd (analyze_data df) = Ok r ->
  let values := present_cells (column_cells act) in
  let breakdown := activity_breakdown r in
  List.NoDup (map fst breakdown)
  /\ (forall k, In k (map fst breakdown) <-> In k values)
  /\ (forall k info, In (k, info) breakdown ->
        act_count info = occurrences k values
        /\ act_percentage info = (INR (act_count info) / INR (df_len df) * 100)%R)
  /\ StronglySorted
       (fun a b : cell * ActivityInfo => act_count (snd b) <= act_count (snd a))
       breakdown.
Proof.
  intros _ Hact Hrun values breakdown.
  assert (Hbd : breakdown = breakdown_of (df_len df) (value_counts (column_cells act)))
    by now apply analyze_data_breakdown.
  destruct (value_counts_spec (column_cells act)) as (Hnodup & Hkeys & Hcount & Hsorted).
  assert (Hfst : map fst breakdown = map fst (value_counts (column_cells act))).
  { rewrite Hbd. unfold breakdown_of. now rewrite map_map. }
  repeat match goal with |- _ /\ _ => split end.
  - now rewrite Hfst.
  - intros k. rewrite Hfst. apply Hkeys.
  - intros k info H. rewrite Hbd in H. unfold breakdown_of in H.
    apply in_map_iff in H. destruct H as ([k' c] & [= <- <-] & Hin).
    split; [simpl; now apply Hcount | reflexivity].
  - rewrite Hbd. unfold breakdown_of.
    apply (strongly_sorted_map _ count_ge); [|exact Hsorted].
    intros a b Hab. exact Hab.
Qed.

End ActivityBreakdown.

(** C1 fails as stated.  In the batch walking, resting, resting the first
    value to appear is walking; the breakdown lists resting, which has two
    records, before it. *)
Lemma first_appearance_order_counterexample :
  df_get "activity" walk_rest_rest = Some (ObjCol ["walking"; "resting"; "resting"])
  /\ distinct (present_cells (column_cells (ObjCol ["walking"; "resting"; "resting"])))
     = [CStr "walking"; CStr "resting"]
  /\ exists r : Report,
       snd (analyze_data (L := stable_library) walk_rest_rest) = Ok r
       /\ map fst (activity_breakdown r) = [CStr "resting"; CStr "walking"]
       /\ map (fun e => act_count (snd e)) (activity_breakdown r) = [2; 1]
       /\ map fst (activity_breakdown r)
          <> distinct (present_cells (column_cells (ObjCol ["walking"; "resting"; "resting"]))).
Proof.
  split; [reflexivity|]. split; [reflexivity|].
  eexists. split; [reflexivity|]. split; [reflexivity|]. split; [reflexivity|].
  discriminate.
Qed.

(** The batch walking, resting, resting: the breakdown is in order of
    non-increasing count. *)
Lemma activity_breakdown_most_frequent_first_witness :
  exists r : Report,
    snd (analyze_data (L := stable_library) walk_rest_rest) = Ok r
    /\ StronglySorted
         (fun a b : cell * ActivityInfo => act_count (snd b) <= act_count (snd a))
         (activity_breakdown r).
Proof.
  eexists. split; [reflexivity|].
  apply (activity_breakdown_most_frequent_first (L := stable_library) walk_rest_rest
           (ObjCol ["walking"; "resting"; "resting"]) _
           ltac:(discriminate) eq_refl eq_refl).
Defined.

(** ** Synthetic data *)

Lemma make_record_lookup (timestamp : string) (hr hrv : Z) (activity device : string) :
  make_record timestamp hr hrv activity device !! "timestamp" = Some (PStr timestamp)
  /\ make_record timestamp hr hrv activity device !! "heartRate" = Some (PInt hr)
  /\ make_record timestamp hr hrv activity device !! "hrv" = Some (PInt hrv)
  /\ make_record timestamp hr hrv activity device !! "activity" = Some (PStr activity)
  /\ make_record timestamp hr hrv activity device !! "temperature" = None.
Proof. repeat split. Qed.

Lemma Rltb_false (x y : R) : (y <= x)%R -> Rltb x y = false.
Proof. intros H. unfold Rltb. destruct (Rlt_dec x y); [lra|reflexivity]. Qed.

Lemma Rltb_true (x y : R) : (x < y)%R -> Rltb x y = true.
Proof. intros H. unfold Rltb. destruct (Rlt_dec x y); [reflexivity|contradiction]. Qed.



Lemma plus_minutes_ok (dt m : Z) (i : nat) (t : Z) :
  plus_minutes dt m i = Ok t ->
  t = (dt + 60 * m * Z.of_nat i)%Z /\ in_calendar t = true.
Proof.
  unfold plus_minutes.
  destruct (in_calendar (dt + 60 * m * Z.of_nat i)) eqn:E; [|discriminate].
  intros [= <-]. now split.
Qed.

Lemma plus_minutes_in (dt m : Z) (i : nat) :
  in_calendar (dt + 60 * m * Z.of_nat i) = true ->
  plus_minutes dt m i = Ok (dt + 60 * m * Z.of_nat i)%Z.
Proof. intros H. unfold plus_minutes. now rewrite H. Qed.

Lemma plus_minutes_out (dt m : Z) (i : nat) :
  in_calendar (dt + 60 * m * Z.of_nat i) = false ->
  plus_minutes dt m i = Raise OverflowError.
Proof. intros H. unfold plus_minutes. now rewrite H. Qed.

Lemma in_calendar_iff (t : Z) :
  in_calendar t = true <-> (DATETIME_MIN <= t <= DATETIME_MAX)%Z.
Proof. unfold in_calendar. rewrite andb_true_iff, !Z.leb_le. tauto. Qed.

Lemma in_timestamp_range_iff (t : Z) :
  in_timestamp_range t = true <-> (TIMESTAMP_MIN <= t <= TIMESTAMP_MAX)%Z.
Proof. unfold in_timestamp_range. rewrite andb_true_iff, !Z.leb_le. tauto. Qed.

Lemma float_of_int_ok (n : Z) :
  (Z.abs n < FLOAT_INT_LIMIT)%Z -> float_of_int n = Ok (IZR n).
Proof.
  intros H. unfold float_of_int.
  destruct (Z.ltb_spec (Z.abs n) FLOAT_INT_LIMIT); [reflexivity|lia].
Qed.

Lemma float_of_int_overflow (n : Z) :
  (FLOAT_INT_LIMIT <= Z.abs n)%Z -> float_of_int n = Raise OverflowError.
Proof.
  intros H. unfold float_of_int.
  destruct (Z.ltb_spec (Z.abs n) FLOAT_INT_LIMIT); [lia|reflexivity].
Qed.

Lemma float_of_int_cases (n : Z) :
  float_of_int n = Ok (IZR n) \/ float_of_int n = Raise OverflowError.
Proof. unfold float_of_int. destruct (_ <? _)%Z; auto. Qed.

(** *** Loops *)

Lemma for_each_Forall {rng A : Type} (P : A -> Prop) (f : nat -> Rand rng A)
    (l : list nat) :
  (forall i s x s', f i s = Ok (x, s') -> P x) ->
  forall s xs s', for_each f l s = Ok (xs, s') -> List.Forall P xs.
Proof.
  intros Hf. induction l as [|i l IH]; intros s xs s'; simpl; unfold rbind, ret.
  - intros [= <- _]. constructor.
  - destruct (f i s) as [[x s1]|e] eqn:Hx; [|discriminate].
    destruct (for_each f l s1) as [[xs' s2]|e] eqn:Hxs; [|discriminate].
    intros [= <- _]. constructor; eauto.
Qed.

Lemma for_each_total {rng A : Type} (f : nat -> Rand rng A) (l : list nat) :
  (forall i s, In i l -> exists x s', f i s = Ok (x, s')) ->
  forall s, exists xs s', for_each f l s = Ok (xs, s') /\ length xs = length l.
Proof.
  induction l as [|i l IH]; intros Hf s; simpl; unfold rbind, ret.
  - now exists [], s.
  - destruct (Hf i s (or_introl eq_refl)) as (x & s1 & ->).
    destruct (IH (fun j s0 Hj => Hf j s0 (or_intror Hj)) s1) as (xs & s2 & -> & Hlen).
    exists (x :: xs), s2. split; [reflexivity|]. simpl. now rewrite Hlen.
Qed.

(** A loop whose turns either yield or raise [e], and one of whose turns
    raises [e] in every state, raises [e]. *)
Lemma for_each_raises {rng A : Type} (f : nat -> Rand rng A) (e : exn) (l : list nat) :
  (forall i s, In i l -> (exists x s', f i s = Ok (x, s')) \/ f i s = Raise e) ->
  (exists i, In i l /\ forall s, f i s = Raise e) ->
  forall s, for_each f l s = Raise e.
Proof.
  induction l as [|i l IH]; intros Hf (j & Hj & Hraise) s; [contradiction|].
  simpl. unfold rbind, ret.
  destruct (Hf i s (or_introl eq_refl)) as [(x & s1 & Hx)|Hx]; rewrite Hx; [|reflexivity].
  rewrite IH; [reflexivity| |].
  - intros k s0 Hk. apply Hf. now right.
  - destruct Hj as [<-|Hj]; [|now exists j].
    rewrite Hraise in Hx. discriminate.
Qed.

(** What a loop over the record numbers returns: one result for each
    number, each made by the body at that number in some state. *)
Lemma for_each_nth {rng A : Type} (f : nat -> Rand rng A) (l : list nat) :
  forall (s : rng) (xs : list A) (s' : rng),
    for_each f l s = Ok (xs, s') ->
    length xs = length l
    /\ forall i x, nth_error xs i = Some x ->
         exists j s0 s1, nth_error l i = Some j /\ f j s0 = Ok (x, s1).
Proof.
  induction l as [|j l IH]; intros s xs s'; simpl; unfold rbind, ret.
  - intros [= <- _]. split; [reflexivity|]. intros [|i] x; discriminate.
  - destruct (f j s) as [[x0 s1]|e] eqn:Hx; [|discriminate].
    destruct (for_each f l s1) as [[xs' s2]|e] eqn:Hxs; [|discriminate].
    intros [= <- _]. destruct (IH s1 xs' s2 Hxs) as [Hlen Hnth].
    split; [simpl; now rewrite Hlen|].
    intros [|i] x; simpl.
    + intros [= <-]. now exists j, s, s1.
    + apply Hnth.
Qed.

Lemma nth_error_seq_0 (n i j : nat) :
  nth_error (seq 0 n) i = Some j -> j = i /\ i < n.
Proof.
  intros H.
  assert (Hi : i < n).
  { assert (Hs : i < length (seq 0 n)) by (apply nth_error_Some; now rewrite H).
    now rewrite length_seq in Hs. }
  split; [|exact Hi].
  apply (nth_error_nth _ _ 0) in H. rewrite seq_nth in H by exact Hi. lia.
Qed.


(** The decimal text of a number of seconds reads back as that number. *)
Lemma parse_seconds_format (z : Z) : parse_seconds (seconds_format z) = Some z.
Proof.
  unfold parse_seconds, seconds_format. rewrite NilZero.isi.
  - simpl. f_equal. apply DecimalZ.of_to.
  - destruct z as [|p|p]; simpl; try discriminate.
    intros [= H]. now apply (DecimalPos.Unsigned.to_uint_nonnil p).
  - destruct z as [|p|p]; simpl; try discriminate.
    intros [= H]. now apply (DecimalPos.Unsigned.to_uint_nonnil p).
Qed.

(** The nanosecond parser accepts the text of an instant exactly when the
    instant is in its range. *)
Lemma ns_to_datetime_error_accepts (t : Z) :
  in_timestamp_range t = true ->
  ns_to_datetime_error (PStr (seconds_format t)) = None.
Proof. intros H. unfold ns_to_datetime_error. now rewrite parse_seconds_format, H. Qed.


Section GeneratorProperties.

Variable rng : Type.
Variable seed : Z -> rng.
Variable gauss : rng -> R * rng.
Variable choice : list string -> list R -> rng -> string * rng.
Variable timestamp_of : datetime -> result Z.
Variable isoformat : datetime -> string.

Lemma normal_ok (loc scale : R) (s : rng) :
  (0 <= scale)%R ->
  normal rng gauss loc scale s
  = Ok ((loc + scale * fst (gauss s))%R, snd (gauss s)).
Proof.
  intros Hs. unfold normal. rewrite Rltb_false by exact Hs.
  now destruct (gauss s).
Qed.

Lemma normal_negative (loc scale : R) (s : rng) :
  (scale < 0)%R -> normal rng gauss loc scale s = Raise ValueError.
Proof. intros Hs. unfold normal. now rewrite Rltb_true by exact Hs. Qed.

Lemma int_plus_normal_spec (n : Z) (scale : R) (s : rng) :
  (0 <= scale)%R ->
  int_plus_normal rng gauss n scale s
  = match float_of_int n with
    | Ok x => Ok ((x + (0 + scale * fst (gauss s)))%R, snd (gauss s))
    | Raise e => Raise e
    end.
Proof.
  intros Hs. unfold int_plus_normal, rbind, lift, ret.
  rewrite normal_ok by exact Hs. now destruct (float_of_int n).
Qed.

Ltac regime_cases hour :=
  unfold daily_regime, rbind, choose, ret;
  destruct ((0 <=? hour) && (hour <? 6))%Z eqn:E1;
    [|destruct ((6 <=? hour) && (hour <? 8))%Z eqn:E2;
      [|destruct ((8 <=? hour) && (hour <? 12))%Z eqn:E3;
        [|destruct ((12 <=? hour) && (hour <? 18))%Z eqn:E4;
          [|destruct ((18 <=? hour) && (hour <? 22))%Z eqn:E5]]]];
    rewrite ?andb_true_iff, ?andb_false_iff, ?Z.leb_le, ?Z.ltb_lt, ?Z.leb_gt, ?Z.ltb_ge in *.


(** The regime yields when the base heart rate, forty more or less,
    converts to a float. *)
Lemma daily_regime_returns (base_hr hour : Z) (s : rng) :
  (Z.abs base_hr + 40 < FLOAT_INT_LIMIT)%Z ->
  exists activity hr hrv s',
    daily_regime rng gauss choice base_hr hour s = Ok ((activity, hr, hrv), s').
Proof.
  intros Hfit. regime_cases hour.
  - rewrite int_plus_normal_spec, float_of_int_ok, normal_ok by (lra || lia). eauto.
  - rewrite int_plus_normal_spec, float_of_int_ok, normal_ok by (lra || lia). eauto.
  - destruct (choice _ _ s) as [a s1].
    destruct (String.eqb a "exercise"); [|destruct (String.eqb a "walking")];
      rewrite int_plus_normal_spec, float_of_int_ok, normal_ok by (lra || lia); eauto.
  - destruct (choice _ _ s) as [a s1].
    destruct (String.eqb a "walking");
      rewrite int_plus_normal_spec, float_of_int_ok, normal_ok by (lra || lia); eauto.
  - rewrite int_plus_normal_spec, float_of_int_ok, normal_ok by (lra || lia). eauto.
  - rewrite int_plus_normal_spec, float_of_int_ok, normal_ok by (lra || lia). eauto.
Qed.

(** It raises [OverflowError] when the base heart rate, less twenty, does
    not convert. *)
Lemma daily_regime_overflow (base_hr hour : Z) (s : rng) :
  (FLOAT_INT_LIMIT + 20 <= base_hr)%Z ->
  daily_regime rng gauss choice base_hr hour s = Raise OverflowError.
Proof.
  intros Hbig. regime_cases hour.
  - now rewrite int_plus_normal_spec, float_of_int_overflow by (lra || lia).
  - now rewrite int_plus_normal_spec, float_of_int_overflow by (lra || lia).
  - destruct (choice _ _ s) as [a s1].
    destruct (String.eqb a "exercise"); [|destruct (String.eqb a "walking")];
      now rewrite int_plus_normal_spec, float_of_int_overflow by (lra || lia).
  - destruct (choice _ _ s) as [a s1].
    destruct (String.eqb a "walking");
      now rewrite int_plus_normal_spec, float_of_int_overflow by (lra || lia).
  - now rewrite int_plus_normal_spec, float_of_int_overflow by (lra || lia).
  - now rewrite int_plus_normal_spec, float_of_int_overflow by (lra || lia).
Qed.



(** It raises [OverflowError] when its instant is beyond the calendar, or
    else when the base heart rate does not convert, and otherwise
    [ValueError] when the noise level is negative. *)
Lemma daily_record_raises (date : datetime) (base_hr : Z) (noise_level : R)
    (i : nat) (s : rng) :
  (in_calendar (date + 60 * 30 * Z.of_nat i) = false ->
   daily_record rng gauss choice isoformat date base_hr noise_level i s
   = Raise OverflowError)
  /\ (in_calendar (date + 60 * 30 * Z.of_nat i) = true ->
      (FLOAT_INT_LIMIT + 20 <= base_hr)%Z ->
      daily_record rng gauss choice isoformat date base_hr noise_level i s
      = Raise OverflowError)
  /\ (in_calendar (date + 60 * 30 * Z.of_nat i) = true ->
      (Z.abs base_hr + 40 < FLOAT_INT_LIMIT)%Z ->
      (noise_level < 0)%R ->
      daily_record rng gauss choice isoformat date base_hr noise_level i s
      = Raise ValueError).
Proof.
  unfold daily_record, rbind, ret, lift.
  split; [|split].
  - intros Hout. now rewrite (plus_minutes_out _ _ _ Hout).
  - intros Hcal Hbig. rewrite (plus_minutes_in _ _ _ Hcal).
    now rewrite daily_regime_overflow by exact Hbig.
  - intros Hcal Hfit Hneg. rewrite (plus_minutes_in _ _ _ Hcal).
    destruct (daily_regime_returns base_hr (hour_of (date + 60 * 30 * Z.of_nat i)) s Hfit)
      as (activity & hr & hrv & s1 & ->).
    now rewrite normal_negative by exact Hneg.
Qed.

(** The run of the daily pattern from a start date that has a timestamp. *)
Lemma generate_daily_pattern_run
    (date : datetime) (num_records base_hr : Z) (noise_level : R) (s : rng) (t : Z) :
  timestamp_of date = Ok t ->
  generate_daily_pattern rng seed gauss choice timestamp_of isoformat
    date num_records base_hr noise_level s
  = for_each (daily_record rng gauss choice isoformat date base_hr noise_level)
             (seq 0 (Z.to_nat num_records)) (seed (t mod 1000)%Z).
Proof. intros Ht. unfold generate_daily_pattern. now rewrite Ht. Qed.




Section Validation.

Variable to_datetime_error : pyval -> option string.
Variable py_str : pyval -> string.

(** [choice] returns one of the values it is given, and the timestamp
    parser reads what [isoformat] writes for the instants that pandas
    holds in nanoseconds, from 1677-09-21 to 2262-04-11. *)
Hypothesis choice_in :
  forall a p s, a <> [] -> In (fst (choice a p s)) a.
Hypothesis isoformat_parses_in_range :
  forall dt, in_timestamp_range dt = true ->
             to_datetime_error (PStr (isoformat dt)) = None.


End Validation.

End GeneratorProperties.



Section EpisodeProperties.

Variable rng : Type.
Variable randint : Z -> Z -> rng -> Z * rng.
Variable isoformat : datetime -> string.

(** During onset no number is drawn. *)
Lemma episode_record_onset (start_time : datetime) (num_records : Z) (i : nat) (s : rng) :
  in_calendar (start_time + 60 * 5 * Z.of_nat i) = true ->
  (INR i / IZR num_records < 0.3)%R ->
  exists hr hrv,
    episode_record rng randint isoformat start_time num_records i s
    = Ok (make_record (isoformat (start_time + 60 * 5 * Z.of_nat i)) hr hrv "resting"
                      "TPP Episode Simulator", s).
Proof.
  intros Hcal Hp. unfold episode_record, rbind, ret, lift.
  rewrite (plus_minutes_in _ _ _ Hcal).
  rewrite Rltb_true by exact Hp. eauto.
Qed.

(** At the peak the heart rate and the HRV are drawn from the generator
    in the state the call finds it in. *)
Lemma episode_record_peak (start_time : datetime) (num_records : Z) (i : nat) (s : rng) :
  in_calendar (start_time + 60 * 5 * Z.of_nat i) = true ->
  (0.3 <= INR i / IZR num_records < 0.7)%R ->
  episode_record rng randint isoformat start_time num_records i s
  = let a := randint (-5)%Z 5%Z s in
    let b := randint (-3)%Z 3%Z (snd a) in
    Ok (make_record (isoformat (start_time + 60 * 5 * Z.of_nat i))
                    (40 + fst a) (15 + fst b) "resting" "TPP Episode Simulator",
        snd b).
Proof.
  intros Hcal [Hlo Hhi]. unfold episode_record, rbind, ret, rand_int, lift.
  rewrite (plus_minutes_in _ _ _ Hcal).
  rewrite Rltb_false by exact Hlo. rewrite Rltb_true by exact Hhi.
  destruct (randint (-5)%Z 5%Z s) as [a s1]. simpl.
  now destruct (randint (-3)%Z 3%Z s1) as [b s2].
Qed.

End EpisodeProperties.

(** The daily pattern does not read the state it is called in: it seeds the
    generator from the start time first. *)
Lemma generate_daily_pattern_seeded
    (rng : Type) (seed : Z -> rng) (gauss : rng -> R * rng)
    (choice : list string -> list R -> rng -> string * rng)
    (timestamp_of : datetime -> result Z) (isoformat : datetime -> string)
    (date : datetime) (num_records base_hr : Z) (noise_level : R) (s1 s2 : rng) :
  generate_daily_pattern rng seed gauss choice timestamp_of isoformat
    date num_records base_hr noise_level s1
  = generate_daily_pattern rng seed gauss choice timestamp_of isoformat
      date num_records base_hr noise_level s2.
Proof. reflexivity. Qed.

Section DailySeed.

Variable rng : Type.
Variable seed : Z -> rng.
Variable gauss : rng -> R * rng.
Variable choice : list string -> list R -> rng -> string * rng.
Variable timestamp_of : datetime -> result Z.
Variable isoformat : datetime -> string.

Lemma daily_record_same_hour (date1 date2 : datetime) (base_hr : Z) (noise_level : R)
    (i : nat) (s : rng) :
  in_calendar (date1 + 60 * 30 * Z.of_nat i) = true ->
  in_calendar (date2 + 60 * 30 * Z.of_nat i) = true ->
  hour_of (date1 + 60 * 30 * Z.of_nat i) = hour_of (date2 + 60 * 30 * Z.of_nat i) ->
  match daily_record rng gauss choice isoformat date1 base_hr noise_level i s,
        daily_record rng gauss choice isoformat date2 base_hr noise_level i s with
  | Ok (r1, s1), Ok (r2, s2) =>
    delete "timestamp" r1 = delete "timestamp" r2 /\ s1 = s2
  | Raise e1, Raise e2 => e1 = e2
  | _, _ => False
  end.
Proof.
  intros Hcal1 Hcal2 Hhour. unfold daily_record, rbind, ret, lift.
  rewrite (plus_minutes_in _ _ _ Hcal1), (plus_minutes_in _ _ _ Hcal2), Hhour.
  destruct (daily_regime rng gauss choice base_hr _ s) as [[[[activity hr] hrv] s1]|e];
    [|reflexivity].
  destruct (normal rng gauss 0 noise_level s1) as [[noise s2]|e]; [|reflexivity].
  split; [|reflexivity].
  unfold make_record. simpl list_to_map. now rewrite !delete_insert_eq.
Qed.

Lemma for_each_agree (f g : nat -> Rand rng record) (l : list nat) (s : rng) :
  (forall i s0, In i l ->
     match f i s0, g i s0 with
     | Ok (r1, s1), Ok (r2, s2) =>
       delete "timestamp" r1 = delete "timestamp" r2 /\ s1 = s2
     | Raise e1, Raise e2 => e1 = e2
     | _, _ => False
     end) ->
  agree_but_timestamps (for_each f l s) (for_each g l s).
Proof.
  revert s. induction l as [|i l IH]; intros s Hfg; simpl.
  - unfold ret. simpl. split; reflexivity.
  - unfold rbind, ret. specialize (Hfg i s (or_introl eq_refl)) as Hi.
    destruct (f i s) as [[r1 s1]|e1], (g i s) as [[r2 s2]|e2]; try contradiction.
    + destruct Hi as [Hr <-].
      specialize (IH s1 (fun j s0 Hj => Hfg j s0 (or_intror Hj))).
      unfold agree_but_timestamps in IH.
      destruct (for_each f l s1) as [[xs1 t1]|e1], (for_each g l s1) as [[xs2 t2]|e2];
        try contradiction; simpl.
      * destruct IH as [Hxs <-]. split; [|reflexivity]. now rewrite Hr, Hxs.
      * exact IH.
    + exact Hi.
Qed.

(** The daily pattern is fixed by its parameters: the state it is called in
    is not read.  Two start times whose seconds since the epoch are
    congruent modulo 1000 seed the generator alike; where they also put every
    record on the calendar and in the same hour of the day, the two batches
    have the same activities, heart rates and HRVs, record by record. *)
Lemma generate_daily_pattern_congruent
    (date1 date2 : datetime) (num_records base_hr : Z) (noise_level : R) (s1 s2 : rng)
    (t1 t2 : Z) :
  timestamp_of date1 = Ok t1 ->
  timestamp_of date2 = Ok t2 ->
  (t1 mod 1000 = t2 mod 1000)%Z ->
  (forall i, i < Z.to_nat num_records ->
     in_calendar (date1 + 60 * 30 * Z.of_nat i) = true
     /\ in_calendar (date2 + 60 * 30 * Z.of_nat i) = true
     /\ hour_of (date1 + 60 * 30 * Z.of_nat i) = hour_of (date2 + 60 * 30 * Z.of_nat i)) ->
  agree_but_timestamps
    (generate_daily_pattern rng seed gauss choice timestamp_of isoformat
       date1 num_records base_hr noise_level s1)
    (generate_daily_pattern rng seed gauss choice timestamp_of isoformat
       date2 num_records base_hr noise_level s2).
Proof.
  intros Ht1 Ht2 Hseed Hhours. unfold generate_daily_pattern.
  rewrite Ht1, Ht2, Hseed.
  apply for_each_agree. intros i s0 Hi. apply in_seq in Hi.
  destruct (Hhours i ltac:(lia)) as (H1 & H2 & H3).
  now apply daily_record_same_hour.
Qed.

End DailySeed.

(** C2, at an episode of ten minutes from the same start time: the second
    record is in the peak phase, and its heart rate comes from the state the
    generator happens to be in.  Called in state 0 and in state 1 of the
    congruential generator, [generate_tpp_episode] returns the heart rates
    35 and 36 there: the start time does not determine the batch. *)
Theorem episode_depends_on_generator_state :
  exists (recs0 recs1 : list record) (s0 s1 : Z),
    generate_tpp_episode Z lcg_randint seconds_format 0 10 0%Z = Ok (recs0, s0)
    /\ generate_tpp_episode Z lcg_randint seconds_format 0 10 1%Z = Ok (recs1, s1)
    /\ (exists r, nth_error recs0 1 = Some r /\ r !! "heartRate" = Some (PInt 35))
    /\ (exists r, nth_error recs1 1 = Some r /\ r !! "heartRate" = Some (PInt 36))
    /\ recs0 <> recs1.
Proof.
  assert (Hrun : forall s : Z,
             exists r0,
               generate_tpp_episode Z lcg_randint seconds_format 0 10 s
               = Ok ([r0;
                      make_record (seconds_format 300)
                        (40 + fst (lcg_randint (-5) 5 s))
                        (15 + fst (lcg_randint (-3) 3 (snd (lcg_randint (-5) 5 s))))
                        "resting" "TPP Episode Simulator"],
                     snd (lcg_randint (-3) 3 (snd (lcg_randint (-5) 5 s))))).
  { intros s. unfold generate_tpp_episode.
    change (10 / 5)%Z with 2%Z. change (seq 0 (Z.to_nat 2)) with [0; 1].
    destruct (episode_record_onset Z lcg_randint seconds_format 0 2 0 s eq_refl)
      as (hr & hrv & H0).
    { simpl. lra. }
    pose proof (episode_record_peak Z lcg_randint seconds_format 0 2 1 s eq_refl) as H1.
    cbv zeta in H1.
    exists (make_record (seconds_format 0) hr hrv "resting"
                        "TPP Episode Simulator").
    simpl for_each. unfold rbind, ret. rewrite H0, H1 by (simpl; lra). reflexivity. }
  destruct (Hrun 0%Z) as (r0 & H0). destruct (Hrun 1%Z) as (r1 & H1).
  eexists _, _, _, _. split; [exact H0|]. split; [exact H1|].
  split; [|split].
  - eexists. split; reflexivity.
  - eexists. split; reflexivity.
  - intros Heq.
    apply (f_equal (fun l : list record =>
                      match nth_error l 1 with
                      | Some r => r !! "heartRate"
                      | None => None
                      end)) in Heq.
    discriminate Heq.
Qed.

(** * Further properties of the code *)

(** ** Record validation: what is accepted *)

Lemma out_of_range_false_iff (v : pyval) (lo : R) (hi : option R) :
  out_of_range v lo hi = false <-> number_within lo hi v.
Proof.
  unfold out_of_range, number_within.
  destruct (as_number v) as [[y|]|]; simpl.
  - unfold Rltb. split.
    + intros H. exists (Fin y). split; [reflexivity|].
      destruct (Rlt_dec y lo); [discriminate|].
      destruct hi as [h|]; [|lra].
      destruct (Rlt_dec h y); [discriminate|]. lra.
    + intros (x & [= <-] & Hlo & Hhi).
      destruct (Rlt_dec y lo); [lra|].
      destruct hi as [h|]; [|reflexivity].
      destruct (Rlt_dec h y); [lra|reflexivity].
  - split; [intros _; now exists NaN|]. intros _. now destruct hi.
  - split; [discriminate|]. now intros (x & [=] & _).
Qed.

Lemma not_valid_activity_false_iff (v : pyval) :
  not_valid_activity v = false <-> exists s, v = PStr s /\ In s VALID_ACTIVITIES.
Proof.
  destruct v as [|b|z|x|s|]; unfold not_valid_activity;
    try (split; [discriminate | now intros (s' & [=] & _)]).
  rewrite negb_false_iff, existsb_exists. split.
  - intros (x & Hx & Heq). apply String.eqb_eq in Heq. subst x. now exists s.
  - intros (s' & [= <-] & Hin). exists s. split; [exact Hin|apply String.eqb_refl].
Qed.

(** The answer is either valid without a message or invalid with one. *)
Lemma validate_record_shape
    (to_datetime_error : pyval -> option string) (py_str : pyval -> string) (r : record) :
  validate_record to_datetime_error py_str r = (true, None)
  \/ exists m, validate_record to_datetime_error py_str r = (false, Some m).
Proof.
  unfold validate_record.
  repeat match goal with
         | |- context [match ?x with _ => _ end] => destruct x
         | |- context [if ?x then _ else _] => destruct x
         end; eauto.
Qed.

(** X1.  [validate_record] accepts a record exactly when the four required
    fields are present, the timestamp parses, heartRate is a number that is
    neither below 30 nor above 220, hrv is a number that is not below 0,
    activity is one of the four valid texts, and temperature is absent, null,
    or a number neither below 30 nor above 45.  Booleans count as numbers and
    a NaN passes every range check.  In every other case the answer is invalid
    and carries a message. *)
Theorem validate_record_accepts_iff
    (to_datetime_error : pyval -> option string) (py_str : pyval -> string) (r : record) :
  (validate_record to_datetime_error py_str r = (true, None)
   <-> exists ts hr hrv act,
         r !! "timestamp" = Some ts /\ to_datetime_error ts = None
         /\ r !! "heartRate" = Some hr /\ number_within 30 (Some 220%R) hr
         /\ r !! "hrv" = Some hrv /\ number_within 0 None hrv
         /\ r !! "activity" = Some (PStr act) /\ In act VALID_ACTIVITIES
         /\ match r !! "temperature" with
            | None | Some PNone => True
            | Some t => number_within 30 (Some 45%R) t
            end)
  /\ (validate_record to_datetime_error py_str r = (true, None)
      \/ exists m, validate_record to_datetime_error py_str r = (false, Some m)).
Proof.
  split.
  - unfold validate_record. simpl first_missing. split.
    + destruct (r !! "timestamp") as [ts|] eqn:Ets; [|discriminate].
      destruct (r !! "heartRate") as [hr|] eqn:Ehr; [|discriminate].
      destruct (r !! "hrv") as [hrv|] eqn:Ehrv; [|discriminate].
      destruct (r !! "activity") as [activity|] eqn:Eact; [|discriminate].
      simpl default.
      destruct (to_datetime_error ts) eqn:Eparse; [discriminate|].
      destruct (out_of_range hr 30 (Some 220%R)) eqn:Ohr; [discriminate|].
      destruct (out_of_range hrv 0 None) eqn:Ohrv; [discriminate|].
      destruct (not_valid_activity activity) eqn:Oact; [discriminate|].
      apply out_of_range_false_iff in Ohr, Ohrv.
      apply not_valid_activity_false_iff in Oact. destruct Oact as (act & -> & Hact).
      intros H. exists ts, hr, hrv, act.
      repeat match goal with |- _ /\ _ => split end; try assumption; try reflexivity.
      destruct (r !! "temperature") as [temp|]; [|exact I].
      destruct temp; try exact I;
        (destruct (out_of_range _ 30 (Some 45%R)) eqn:Otemp; [discriminate|];
         now apply out_of_range_false_iff in Otemp).
    + intros (ts & hr & hrv & act & -> & Hparse & -> & Hhr & -> & Hhrv & -> & Hact & Htemp).
      simpl default. rewrite Hparse.
      apply out_of_range_false_iff in Hhr, Hhrv. rewrite Hhr, Hhrv.
      assert (Oact : not_valid_activity (PStr act) = false)
        by (apply not_valid_activity_false_iff; eauto).
      rewrite Oact.
      destruct (r !! "temperature") as [temp|]; [|reflexivity].
      destruct temp; try reflexivity;
        (apply out_of_range_false_iff in Htemp; now rewrite Htemp).
  - apply validate_record_shape.
Qed.

(** X2.  [validate_record] reads the four required fields and the
    temperature, and nothing else: two records that agree on the required
    fields and state the same temperature (a null temperature states none)
    get the same answer, whatever their [device] and their other keys. *)
Theorem validate_record_reads_five_keys
    (to_datetime_error : pyval -> option string) (py_str : pyval -> string)
    (r r' : record) :
  (forall k, In k REQUIRED_FIELDS -> r' !! k = r !! k) ->
  stated_temperature r' = stated_temperature r ->
  validate_record to_datetime_error py_str r'
  = validate_record to_datetime_error py_str r.
Proof.
  intros Hkeys Htemp. unfold validate_record. simpl first_missing.
  rewrite (Hkeys "timestamp"), (Hkeys "heartRate"), (Hkeys "hrv"), (Hkeys "activity")
    by (simpl; tauto).
  unfold stated_temperature in Htemp.
  destruct (r' !! "temperature") as [[| | | | |]|], (r !! "temperature") as [[| | | | |]|];
    try discriminate Htemp; try (injection Htemp as <-); reflexivity.
Qed.

(** A valid record stays valid when a device, a note and a null temperature
    are added to it. *)
Lemma validate_record_reads_five_keys_witness :
  validate_record text_to_datetime_error no_str
    (<["device" := PStr "watch"]> (<["note" := POther]> (<["temperature" := PNone]>
       (make_record "2024-01-01T00:00:00" 70 50 "resting" "x"))))
  = validate_record text_to_datetime_error no_str
      (make_record "2024-01-01T00:00:00" 70 50 "resting" "x").
Proof.
  apply validate_record_reads_five_keys.
  - intros k Hk. simpl in Hk.
    destruct Hk as [<-|[<-|[<-|[<-|[]]]]]; vm_compute; reflexivity.
  - vm_compute. reflexivity.
Defined.

(** ** Batch validation *)

Lemma df_has_In (f : string) (df : DataFrame) :
  df_has f df = true <-> In f (df_columns df).
Proof.
  unfold df_has, df_get, df_columns. induction (df_cols df) as [|[k c] cs IH]; simpl.
  - split; [discriminate|contradiction].
  - destruct (String.eqb_spec k f) as [->|Hne].
    + split; auto.
    + rewrite IH. split; [auto|]. intros [H|H]; [contradiction|exact H].
Qed.

Lemma missing_columns_nil (df : DataFrame) :
  missing_columns df = [] <-> forall f, In f REQUIRED_FIELDS -> In f (df_columns df).
Proof.
  unfold missing_columns. split.
  - intros Hnil f Hf. apply df_has_In.
    destruct (df_has f df) eqn:E; [reflexivity|].
    assert (Hin : In f (List.filter (fun f => negb (df_has f df)) REQUIRED_FIELDS))
      by (apply filter_In; split; [exact Hf|now rewrite E]).
    rewrite Hnil in Hin. contradiction.
  - intros Hall. induction REQUIRED_FIELDS as [|f fs IH]; [reflexivity|].
    simpl. rewrite (proj2 (df_has_In f df)) by (apply Hall; now left).
    simpl. apply IH. intros g Hg. apply Hall. now right.
Qed.

(** The keys of a row are the columns of the frame. *)
Lemma row_dict_key (df : DataFrame) (i : nat) (k : string) :
  is_Some (row_dict df i !! k) <-> df_has k df = true.
Proof.
  unfold row_dict, df_has, df_get. induction (df_cols df) as [|[k0 c0] cs IH]; simpl.
  - rewrite lookup_empty. split; [now intros [v Hv]|discriminate].
  - destruct (String.eqb_spec k0 k) as [->|Hne].
    + rewrite lookup_insert_eq. split; eauto.
    + rewrite lookup_insert_ne by exact Hne. exact IH.
Qed.

Lemma row_errors_nil
    (to_datetime_error : pyval -> option string) (py_str : pyval -> string)
    (df : DataFrame) (i : nat) :
  row_errors to_datetime_error py_str df i = []
  <-> validate_record to_datetime_error py_str (row_dict df i) = (true, None).
Proof.
  unfold row_errors.
  destruct (validate_record_shape to_datetime_error py_str (row_dict df i))
    as [->|[m ->]]; split; try reflexivity; discriminate.
Qed.

Lemma flat_map_nil {A B} (f : A -> list B) (l : list A) :
  flat_map f l = [] <-> forall x, In x l -> f x = [].
Proof.
  induction l as [|x l IH]; simpl.
  - split; [contradiction|reflexivity].
  - split.
    + intros H. apply app_eq_nil in H. destruct H as [Hx Hl].
      intros y [<-|Hy]; [exact Hx|now apply IH].
    + intros H. rewrite (H x (or_introl eq_refl)). apply IH. intros y Hy. apply H. now right.
Qed.

(** X3.  [validate_dataframe] answers valid exactly when it returns no
    error, and that is exactly when the four required columns are present and
    [validate_record] accepts the dictionary of every row. *)
Theorem validate_dataframe_valid_iff
    (to_datetime_error : pyval -> option string) (py_str : pyval -> string)
    (df : DataFrame) :
  (fst (validate_dataframe to_datetime_error py_str df) = true
   <-> snd (validate_dataframe to_datetime_error py_str df) = [])
  /\ (fst (validate_dataframe to_datetime_error py_str df) = true
      <-> (forall f, In f REQUIRED_FIELDS -> In f (df_columns df))
          /\ forall i, i < df_len df ->
               validate_record to_datetime_error py_str (row_dict df i) = (true, None)).
Proof.
  unfold validate_dataframe.
  destruct (missing_columns df) as [|f fs] eqn:Hmiss; simpl.
  - rewrite Nat.eqb_eq, length_zero_iff_nil. split; [reflexivity|].
    rewrite flat_map_nil. split.
    + intros Hrows. split; [now apply missing_columns_nil|].
      intros i Hi. apply row_errors_nil, Hrows, in_seq. lia.
    + intros [_ Hrows] i Hi. apply row_errors_nil, Hrows. apply in_seq in Hi. lia.
  - split; [split; discriminate|]. split; [discriminate|].
    intros [Hall _]. apply missing_columns_nil in Hall. rewrite Hall in Hmiss. discriminate.
Qed.

(** X4.  A missing required column is reported once and the rows are not
    looked at: the answer is invalid, with one error for each missing required
    column, however many rows there are, and any frame with the same column
    names gets the same answer. *)
Theorem validate_dataframe_missing_column
    (to_datetime_error : pyval -> option string) (py_str : pyval -> string)
    (df df' : DataFrame) (f : string) :
  In f REQUIRED_FIELDS ->
  ~ In f (df_columns df) ->
  df_columns df' = df_columns df ->
  fst (validate_dataframe to_datetime_error py_str df) = false
  /\ In ("Missing required column: " ++ f)%string
        (snd (validate_dataframe to_datetime_error py_str df))
  /\ length (snd (validate_dataframe to_datetime_error py_str df))
     = length (List.filter (fun g => negb (existsb (String.eqb g) (df_columns df)))
                           REQUIRED_FIELDS)
  /\ validate_dataframe to_datetime_error py_str df'
     = validate_dataframe to_datetime_error py_str df.
Proof.
  intros Hf Hmissing Hcols.
  assert (Hhas : forall d g, df_has g d = existsb (String.eqb g) (df_columns d)).
  { intros d g. apply eq_true_iff_eq. rewrite df_has_In, existsb_exists. split.
    - intros H. exists g. split; [exact H|apply String.eqb_refl].
    - intros (x & Hx & Heq). apply String.eqb_eq in Heq. now subst. }
  assert (Hsame : missing_columns df' = missing_columns df).
  { unfold missing_columns. apply filter_ext. intros g. now rewrite !Hhas, Hcols. }
  assert (Hin : In f (missing_columns df)).
  { unfold missing_columns. apply filter_In. split; [exact Hf|].
    destruct (df_has f df) eqn:E; [|reflexivity].
    apply df_has_In in E. contradiction. }
  unfold validate_dataframe. rewrite Hsame.
  assert (Hlen : length (missing_columns df)
                 = length (List.filter (fun g => negb (existsb (String.eqb g) (df_columns df)))
                                       REQUIRED_FIELDS)).
  { unfold missing_columns. f_equal. apply filter_ext. intros g. now rewrite Hhas. }
  destruct (missing_columns df) as [|g gs] eqn:Hmiss; [contradiction|].
  cbn [map fst snd]. repeat match goal with |- _ /\ _ => split end; try reflexivity.
  - change (In ("Missing required column: " ++ f)%string
               (map (fun f => ("Missing required column: " ++ f)%string) (g :: gs))).
    now apply in_map.
  - rewrite <- Hlen. simpl. now rewrite length_map.
Qed.

(** The batch of three heart rates has neither [hrv] nor [activity]: the
    answer is invalid and names the missing [hrv] column. *)
Lemma validate_dataframe_missing_column_witness :
  fst (validate_dataframe text_to_datetime_error no_str three_beats) = false
  /\ In "Missing required column: hrv"
        (snd (validate_dataframe text_to_datetime_error no_str three_beats))
  /\ length (snd (validate_dataframe text_to_datetime_error no_str three_beats)) = 2.
Proof.
  destruct (validate_dataframe_missing_column text_to_datetime_error no_str
              three_beats three_beats "hrv"
              ltac:(simpl; tauto)
              ltac:(simpl; intros [H|[H|[]]]; discriminate H)
              eq_refl) as (Hfalse & Hin & Hlen & _).
  split; [exact Hfalse|]. split; [exact Hin|].
  rewrite Hlen. reflexivity.
Defined.

(** X5.  Under [validate_dataframe] the required-field check of
    [validate_record] never fires: once the four required columns are there,
    every row dictionary has the four keys, so no row error reports a
    missing field. *)
Theorem validate_dataframe_rows_have_fields
    (to_datetime_error : pyval -> option string) (py_str : pyval -> string)
    (df : DataFrame) (i : nat) :
  (forall f, In f REQUIRED_FIELDS -> In f (df_columns df)) ->
  first_missing REQUIRED_FIELDS (row_dict df i) = None
  /\ forall m f,
       validate_record to_datetime_error py_str (row_dict df i) = (false, Some m) ->
       m <> ("Missing required field: " ++ f)%string.
Proof.
  intros Hall.
  assert (Hkey : forall f, In f REQUIRED_FIELDS -> is_Some (row_dict df i !! f)).
  { intros f Hf. apply row_dict_key, df_has_In, Hall, Hf. }
  assert (Hnone : first_missing REQUIRED_FIELDS (row_dict df i) = None).
  { simpl.
    destruct (Hkey "timestamp" ltac:(simpl; tauto)) as [v1 ->].
    destruct (Hkey "heartRate" ltac:(simpl; tauto)) as [v2 ->].
    destruct (Hkey "hrv" ltac:(simpl; tauto)) as [v3 ->].
    destruct (Hkey "activity" ltac:(simpl; tauto)) as [v4 ->]. reflexivity. }
  split; [exact Hnone|].
  intros m f. unfold validate_record. rewrite Hnone.
  repeat match goal with
         | |- context [match ?x with _ => _ end] => destruct x
         | |- context [if ?x then _ else _] => destruct x
         end; intros [= <-]; discriminate.
Qed.

(** The batch of three heart rates, completed with HRV and activity. *)
Lemma validate_dataframe_rows_have_fields_witness :
  first_missing REQUIRED_FIELDS
    (row_dict {| df_len := 1;
                 df_cols := [("timestamp", TimeCol [0%Z]); ("heartRate", NumCol [Fin 70]);
                             ("hrv", NumCol [Fin 50]); ("activity", ObjCol ["resting"])] |} 0)
  = None.
Proof.
  apply (validate_dataframe_rows_have_fields text_to_datetime_error no_str).
  intros f Hf. simpl in Hf. destruct Hf as [<-|[<-|[<-|[<-|[]]]]]; simpl; tauto.
Defined.

(** ** Sorting by timestamp *)

Section SortingByTimestamp.

Context {L : Library}.

(** X6 ([sort_by_timestamp]): with a sorting routine that returns the rows
    of its input in an order of non-decreasing timestamps, on a well-formed
    batch with datetime timestamps the frame returned has its timestamps in
    non-decreasing order; its rows are those of the batch, each numeric
    column moved along with the timestamps; it is well formed.  When no two
    records share a timestamp, sorting it again changes nothing; the order
    of records that share one is left to the sorting routine, which need
    not keep it from one call to the next.  A batch whose timestamps
    increase strictly is returned as it is. *)
Theorem sort_by_timestamp_sorts (df : DataFrame) (ts : list Z) :
  sorts_datetimes L ->
  well_formed df ->
  df_get "timestamp" df = Some (TimeCol ts) ->
  exists ts' : list Z,
    df_get "timestamp" (sort_by_timestamp df) = Some (TimeCol ts')
    /\ Sorted Z.le ts'
    /\ Permutation ts' ts
    /\ (forall k v, df_get k df = Some (NumCol v) ->
          exists v', df_get k (sort_by_timestamp df) = Some (NumCol v')
                     /\ Permutation (combine ts' v') (combine ts v))
    /\ well_formed (sort_by_timestamp df)
    /\ (List.NoDup ts ->
        sort_by_timestamp (sort_by_timestamp df) = sort_by_timestamp df)
    /\ (Sorted Z.lt ts -> sort_by_timestamp df = df).
Proof.
  intros Hsort Hwf Hts.
  destruct (sort_by_timestamp_rows df ts Hsort Hwf Hts)
    as (ts' & Hget & Hsorted & Hperm & Hrows).
  pose proof (sort_by_timestamp_well_formed df ts Hsort Hwf Hts) as Hwf'.
  exists ts'. split; [exact Hget|]. split; [exact Hsorted|]. split; [exact Hperm|].
  split; [exact Hrows|]. split; [exact Hwf'|]. split.
  - intros Hnodup.
    apply (sort_by_timestamp_strict (sort_by_timestamp df) ts' Hsort Hwf' Hget).
    apply sorted_distinct_strict; [exact Hsorted|].
    now apply (Permutation_NoDup (Permutation_sym Hperm)).
  - now apply sort_by_timestamp_strict.
Qed.

End SortingByTimestamp.

(** Three records listed out of order, sorted by the stable routine. *)
Lemma sort_by_timestamp_sorts_witness :
  exists ts' : list Z,
    df_get "timestamp"
      (sort_by_timestamp (L := stable_library)
         {| df_len := 3;
            df_cols := [("timestamp", TimeCol [1800; 0; 3600]%Z);
                        ("heartRate", NumCol [Fin 70; Fin 80; Fin 90]%R)] |})
    = Some (TimeCol ts')
    /\ Sorted Z.le ts' /\ Permutation ts' [1800; 0; 3600]%Z.
Proof.
  destruct (sort_by_timestamp_sorts (L := stable_library)
              {| df_len := 3;
                 df_cols := [("timestamp", TimeCol [1800; 0; 3600]%Z);
                             ("heartRate", NumCol [Fin 70; Fin 80; Fin 90]%R)] |}
              [1800; 0; 3600]%Z stable_library_sorts ltac:(repeat constructor) eq_refl)
    as (ts' & Hget & Hsorted & Hperm & _).
  exists ts'. split; [exact Hget|]. split; assumption.
Defined.

(** ** Time features *)

Lemma cols_set_same (k : string) (c : column) (cs : list (string * column)) :
  cols_get k cs = Some c -> cols_set k c cs = cs.
Proof.
  induction cs as [|[k0 c0] cs IH]; simpl; [discriminate|].
  destruct (String.eqb k0 k); [now intros [= ->]|].
  intros H. now rewrite IH.
Qed.

(** Storing in a column the value it has changes nothing. *)
Lemma df_set_same (k : string) (c : column) (df : DataFrame) :
  df_get k df = Some c -> df_set k c df = df.
Proof.
  intros H. destruct df as [n cs]. unfold df_set, df_get in *. simpl in *.
  now rewrite cols_set_same.
Qed.

Lemma hour_of_range (t : Z) : (0 <= hour_of t <= 23)%Z.
Proof. unfold hour_of. pose proof (Z.mod_pos_bound (t / 3600) 24). lia. Qed.

Lemma day_of_week_range (t : Z) : (0 <= day_of_week t <= 6)%Z.
Proof. unfold day_of_week. pose proof (Z.mod_pos_bound (t / 86400 + 3) 7). lia. Qed.

Lemma add_time_features_run
    (to_datetime_column : column -> result (list Z)) (df : DataFrame)
    (raw : column) (ts : list Z) :
  df_get "timestamp" df = Some raw ->
  to_datetime_column raw = Ok ts ->
  add_time_features to_datetime_column df
  = Ok (df_set "is_weekend"
          (NumCol (map (fun d => int_of_bool (5 <=? d)%Z) (map day_of_week ts)))
       (df_set "is_night"
          (NumCol (map (fun h => int_of_bool ((22 <=? h) || (h <=? 6))%Z) (map hour_of ts)))
       (df_set "day_of_week" (int_column (map day_of_week ts))
       (df_set "hour" (int_column (map hour_of ts))
       (df_set "timestamp" (TimeCol ts) df))))).
Proof.
  intros Hraw Hts. unfold add_time_features, get_column. rewrite Hraw. simpl.
  now rewrite Hts.
Qed.

(** X7.  On a frame whose timestamp column converts to the instants [ts],
    [add_time_features] returns a frame with the same rows in the same order,
    with every column other than the five it writes as it was.  For each row
    the hour is in [0, 23] and the day of the week in [0, 6]; [is_night] is 1
    exactly when the hour is at least 22 or at most 6 (both bounds included)
    and 0 otherwise; [is_weekend] is 1 exactly when the day is at least 5. *)
Theorem add_time_features_columns
    (to_datetime_column : column -> result (list Z)) (df : DataFrame)
    (raw : column) (ts : list Z) :
  df_get "timestamp" df = Some raw ->
  to_datetime_column raw = Ok ts ->
  exists (df' : DataFrame) (hour day : list Z) (night weekend : list float),
    add_time_features to_datetime_column df = Ok df'
    /\ df_len df' = df_len df
    /\ (forall k, ~ In k TIME_FEATURE_COLUMNS -> df_get k df' = df_get k df)
    /\ df_get "timestamp" df' = Some (TimeCol ts)
    /\ df_get "hour" df' = Some (int_column hour)
    /\ df_get "day_of_week" df' = Some (int_column day)
    /\ df_get "is_night" df' = Some (NumCol night)
    /\ df_get "is_weekend" df' = Some (NumCol weekend)
    /\ forall i t, nth_error ts i = Some t ->
         exists h d : Z,
           nth_error hour i = Some h /\ nth_error day i = Some d
           /\ h = hour_of t /\ d = day_of_week t
           /\ (0 <= h <= 23)%Z /\ (0 <= d <= 6)%Z
           /\ nth_error night i
              = Some (if Z_le_dec 22 h then Fin 1 else if Z_le_dec h 6 then Fin 1 else Fin 0)
           /\ nth_error weekend i = Some (if Z_le_dec 5 d then Fin 1 else Fin 0).
Proof.
  intros Hraw Hts.
  rewrite (add_time_features_run _ _ _ _ Hraw Hts).
  eexists _, (map hour_of ts), (map day_of_week ts), _, _.
  split; [reflexivity|].
  repeat match goal with |- _ /\ _ => split end.
  - reflexivity.
  - intros k Hk. unfold TIME_FEATURE_COLUMNS in Hk. simpl in Hk.
    rewrite !df_get_set_other; [reflexivity|..]; apply String.eqb_neq; tauto.
  - rewrite !df_get_set_other by reflexivity. apply df_get_set_same.
  - rewrite !df_get_set_other by reflexivity. apply df_get_set_same.
  - rewrite !df_get_set_other by reflexivity. apply df_get_set_same.
  - rewrite !df_get_set_other by reflexivity. apply df_get_set_same.
  - apply df_get_set_same.
  - intros i t Ht. exists (hour_of t), (day_of_week t).
    rewrite !nth_error_map, Ht. simpl.
    repeat match goal with |- _ /\ _ => split end; try reflexivity;
      try apply hour_of_range; try apply day_of_week_range.
    + destruct (Z_le_dec 22 (hour_of t)), (Z_le_dec (hour_of t) 6);
        destruct (Z.leb_spec 22 (hour_of t)), (Z.leb_spec (hour_of t) 6);
        try lia; reflexivity.
    + destruct (Z_le_dec 5 (day_of_week t)), (Z.leb_spec 5 (day_of_week t));
        try lia; reflexivity.
Qed.

(** The batch of three heart rates, taken at 00:00, 00:30 and 01:00 of a
    Thursday: three night records. *)
Lemma add_time_features_columns_witness :
  exists df' : DataFrame,
    add_time_features datetime_column_only three_beats = Ok df'
    /\ df_get "is_night" df' = Some (NumCol [Fin 1; Fin 1; Fin 1])
    /\ df_get "heartRate" df' = df_get "heartRate" three_beats.
Proof.
  destruct (add_time_features_columns datetime_column_only three_beats
              (TimeCol [0; 1800; 3600]%Z) [0; 1800; 3600]%Z eq_refl eq_refl)
    as (df' & hour & day & night & weekend & Hrun & _ & Hframe & _ & _ & _ & Hnight & _).
  exists df'. split; [exact Hrun|]. split.
  - injection Hrun as <-. reflexivity.
  - apply Hframe. simpl. intros [H|[H|[H|[H|[H|[]]]]]]; discriminate H.
Defined.

(** X8.  [add_time_features] is idempotent: applied to its own result it
    returns that result, for any timestamp conversion that leaves a datetime
    column as it is. *)
Theorem add_time_features_idempotent
    (to_datetime_column : column -> result (list Z)) (df df' : DataFrame) :
  (forall v, to_datetime_column (TimeCol v) = Ok v) ->
  add_time_features to_datetime_column df = Ok df' ->
  add_time_features to_datetime_column df' = Ok df'.
Proof.
  intros Hid Hrun.
  unfold add_time_features, get_column in Hrun.
  destruct (df_get "timestamp" df) as [raw|] eqn:Hraw; [|discriminate].
  simpl in Hrun. destruct (to_datetime_column raw) as [ts|e] eqn:Hts; [|discriminate].
  simpl in Hrun. injection Hrun as <-.
  rewrite (add_time_features_run to_datetime_column _ (TimeCol ts) ts).
  - rewrite (df_set_same "timestamp")
      by (rewrite !df_get_set_other by reflexivity; apply df_get_set_same).
    rewrite (df_set_same "hour")
      by (rewrite !df_get_set_other by reflexivity; apply df_get_set_same).
    rewrite (df_set_same "day_of_week")
      by (rewrite !df_get_set_other by reflexivity; apply df_get_set_same).
    rewrite (df_set_same "is_night")
      by (rewrite !df_get_set_other by reflexivity; apply df_get_set_same).
    rewrite (df_set_same "is_weekend") by apply df_get_set_same.
    reflexivity.
  - rewrite !df_get_set_other by reflexivity. apply df_get_set_same.
  - apply Hid.
Qed.

Lemma add_time_features_idempotent_witness :
  exists df' : DataFrame,
    add_time_features datetime_column_only three_beats = Ok df'
    /\ add_time_features datetime_column_only df' = Ok df'.
Proof.
  eexists. split; [reflexivity|].
  apply (add_time_features_idempotent datetime_column_only three_beats);
    [reflexivity|reflexivity].
Defined.

(** ** Rolling statistics: errors, frame and degenerate windows *)

Section RollingErrors.

Context {L : Library}.

Lemma rolling_apply_empty_text (agg : list float -> float) (window : Z) :
  (1 <= window)%Z -> rolling_apply agg window (ObjCol []) = Ok (NumCol []).
Proof.
  intros Hw. unfold rolling_apply.
  destruct (Z.ltb_spec window 1); [lia|reflexivity].
Qed.

(** X9.  Without a heartRate column [calculate_rolling_stats] raises
    [KeyError] whatever the window; with one, a window below 1 raises
    [ValueError].  On a batch whose heartRate and hrv columns hold no text
    it returns exactly when the window is at least 1 and both columns are
    numeric.  Text is left to the coercion of the library: a heartRate
    column of no text at all passes it, and with such a column, an hrv
    column that is numeric or as empty, and a window of at least 1 the call
    returns.  When it returns, the frame has the length of the input and
    every column other than the four rolling columns is the column of the
    sorted input. *)
Theorem calculate_rolling_stats_returns_iff (df : DataFrame) (window : Z) :
  (df_get "heartRate" df = None ->
   calculate_rolling_stats df window = Raise (KeyError "heartRate"))
  /\ (df_get "heartRate" df <> None -> (window < 1)%Z ->
      calculate_rolling_stats df window = Raise ValueError)
  /\ ((forall v, df_get "heartRate" df <> Some (ObjCol v)) ->
      (forall v, df_get "hrv" df <> Some (ObjCol v)) ->
      (is_ok (calculate_rolling_stats df window) = true
       <-> (1 <= window)%Z
           /\ (exists v, df_get "heartRate" df = Some (NumCol v))
           /\ (exists v, df_get "hrv" df = Some (NumCol v))))
  /\ ((1 <= window)%Z ->
      df_get "heartRate" (sort_by_timestamp df) = Some (ObjCol []) ->
      (df_get "hrv" (sort_by_timestamp df) = Some (ObjCol [])
       \/ exists v, df_get "hrv" (sort_by_timestamp df) = Some (NumCol v)) ->
      is_ok (calculate_rolling_stats df window) = true)
  /\ (forall df', calculate_rolling_stats df window = Ok df' ->
        df_len df' = df_len df
        /\ forall k, ~ In k ROLLING_COLUMNS ->
             df_get k df' = df_get k (sort_by_timestamp df)).
Proof.
  pose proof (df_get_sort_none df "heartRate") as Hnone.
  pose proof (df_get_sort_numeric df "heartRate") as Hhr.
  pose proof (df_get_sort_numeric df "hrv") as Hhrv.
  pose proof (df_get_sort_text df "heartRate") as Thr.
  pose proof (df_get_sort_text df "hrv") as Thrv.
  pose proof (df_len_sort df) as Hlen.
  split; [|split; [|split; [|split]]].
  - intros H. apply Hnone in H.
    unfold calculate_rolling_stats, get_column. now rewrite H.
  - intros Hsome Hw. unfold calculate_rolling_stats, get_column, rolling_apply.
    destruct (df_get "heartRate" (sort_by_timestamp df)) as [hr|] eqn:Ehr.
    + simpl. destruct (Z.ltb_spec window 1); [reflexivity|lia].
    + exfalso. apply Hsome. now apply Hnone.
  - intros Hnt1 Hnt2.
    unfold calculate_rolling_stats, get_column, rolling_apply.
    set (sdf := sort_by_timestamp df) in *.
    destruct (df_get "heartRate" sdf) as [[hr|hr|hr]|] eqn:Ehr; simpl;
      try (exfalso; destruct (proj1 Thr (ex_intro _ hr eq_refl)) as [v Hv];
           exact (Hnt1 v Hv));
      destruct (Z.ltb_spec window 1); simpl;
      try (split; [discriminate|]; intros (Hw & Hv & _); try lia;
           apply Hhr in Hv; destruct Hv as [v Hv]; discriminate).
    rewrite !df_get_set_other by reflexivity.
    destruct (df_get "hrv" sdf) as [[hv|hv|hv]|] eqn:Ehrv; simpl;
      try (exfalso; destruct (proj1 Thrv (ex_intro _ hv eq_refl)) as [v Hv];
           exact (Hnt2 v Hv));
      try (split; [discriminate|]; intros (_ & _ & Hv);
           apply Hhrv in Hv; destruct Hv as [v Hv]; discriminate).
    destruct (Z.ltb_spec window 1); [lia|]. simpl.
    rewrite !df_get_set_other, Ehr by reflexivity. simpl.
    destruct (Z.ltb_spec window 1); [lia|]. simpl.
    rewrite !df_get_set_other, Ehrv by reflexivity. simpl.
    destruct (Z.ltb_spec window 1); [lia|]. simpl.
    split; [|reflexivity]. intros _. split; [lia|]. split.
    + apply Hhr. eauto.
    + apply Hhrv. eauto.
  - intros Hw Ehr Ehrv.
    assert (Hany : exists c, df_get "hrv" (sort_by_timestamp df) = Some c
                             /\ forall agg, exists c', rolling_apply agg window c = Ok c').
    { destruct Ehrv as [E|[v E]]; eexists; (split; [exact E|]); intros agg.
      - rewrite rolling_apply_empty_text by exact Hw. eauto.
      - unfold rolling_apply. destruct (Z.ltb_spec window 1); [lia|]. eauto. }
    destruct Hany as (c & Ec & Hc).
    unfold calculate_rolling_stats, get_column.
    rewrite Ehr. simpl bind. rewrite rolling_apply_empty_text by exact Hw. simpl bind.
    rewrite df_get_set_other, Ec by reflexivity. simpl bind.
    destruct (Hc series_mean) as [c1 ->]. simpl bind.
    rewrite !df_get_set_other, Ehr by reflexivity. simpl bind.
    rewrite rolling_apply_empty_text by exact Hw. simpl bind.
    rewrite !df_get_set_other, Ec by reflexivity. simpl bind.
    destruct (Hc series_std) as [c2 ->]. reflexivity.
  - unfold calculate_rolling_stats.
    set (sdf := sort_by_timestamp df) in *.
    destruct (get_column "heartRate" sdf) as [hr|]; simpl; [|discriminate].
    destruct (rolling_apply series_mean window hr) as [c1|]; simpl; [|discriminate].
    destruct (get_column "hrv" _) as [hrv|]; simpl; [|discriminate].
    destruct (rolling_apply series_mean window hrv) as [c2|]; simpl; [|discriminate].
    destruct (get_column "heartRate" _) as [hr'|]; simpl; [|discriminate].
    destruct (rolling_apply series_std window hr') as [c3|]; simpl; [|discriminate].
    destruct (get_column "hrv" _) as [hrv'|]; simpl; [|discriminate].
    destruct (rolling_apply series_std window hrv') as [c4|]; simpl; [|discriminate].
    intros df' [= <-]. split; [exact Hlen|].
    intros k Hk. unfold ROLLING_COLUMNS in Hk. simpl in Hk.
    rewrite !df_get_set_other; [reflexivity|..]; apply String.eqb_neq; tauto.
Qed.

Lemma rolling_windows_from_one (buf l : list float) :
  rolling_windows_from 1 buf l = map (fun x => [x]) l.
Proof.
  revert buf. induction l as [|x t IH]; intros buf; [reflexivity|].
  simpl. assert (H : lastn 1 (buf ++ [x]) = [x]).
  { unfold lastn. rewrite length_app. simpl.
    replace (length buf + 1 - 1) with (length buf) by lia.
    rewrite skipn_app, skipn_all, Nat.sub_diag. reflexivity. }
  now rewrite H, IH.
Qed.

Lemma calculate_rolling_stats_run (df : DataFrame) (window : Z) (hr hrv : list float) :
  (1 <= window)%Z ->
  df_get "heartRate" (sort_by_timestamp df) = Some (NumCol hr) ->
  df_get "hrv" (sort_by_timestamp df) = Some (NumCol hrv) ->
  let w := Z.to_nat window in
  calculate_rolling_stats df window
  = Ok (df_set "hrv_rolling_std" (NumCol (map series_std (rolling_windows w hrv)))
       (df_set "hr_rolling_std" (NumCol (map series_std (rolling_windows w hr)))
       (df_set "hrv_rolling_mean" (NumCol (map series_mean (rolling_windows w hrv)))
       (df_set "hr_rolling_mean" (NumCol (map series_mean (rolling_windows w hr)))
          (sort_by_timestamp df))))).
Proof.
  intros Hw Hhr Hhrv w.
  assert (Hroll : forall agg v,
             rolling_apply agg window (NumCol v)
             = Ok (NumCol (map agg (rolling_windows w v)))).
  { intros agg v. unfold rolling_apply.
    destruct (Z.ltb_spec window 1); [lia|reflexivity]. }
  unfold calculate_rolling_stats, get_column.
  rewrite Hhr. simpl bind. rewrite Hroll. simpl bind.
  rewrite df_get_set_other, Hhrv by reflexivity. simpl bind.
  rewrite Hroll. simpl bind.
  rewrite !df_get_set_other, Hhr by reflexivity. simpl bind.
  rewrite Hroll. simpl bind.
  rewrite !df_get_set_other, Hhrv by reflexivity. simpl bind.
  rewrite Hroll. reflexivity.
Qed.

(** X10.  With a window of 1 the rolling mean of each series is the series
    itself and its rolling standard deviation is NaN at every position. *)
Theorem calculate_rolling_stats_window_one (df : DataFrame) (hr hrv : list float) :
  df_get "heartRate" (sort_by_timestamp df) = Some (NumCol hr) ->
  df_get "hrv" (sort_by_timestamp df) = Some (NumCol hrv) ->
  exists df' : DataFrame,
    calculate_rolling_stats df 1 = Ok df'
    /\ df_get "hr_rolling_mean" df' = Some (NumCol hr)
    /\ df_get "hrv_rolling_mean" df' = Some (NumCol hrv)
    /\ df_get "hr_rolling_std" df' = Some (NumCol (repeat NaN (length hr)))
    /\ df_get "hrv_rolling_std" df' = Some (NumCol (repeat NaN (length hrv))).
Proof.
  intros Hhr Hhrv.
  rewrite (calculate_rolling_stats_run df 1 hr hrv ltac:(lia) Hhr Hhrv).
  change (Z.to_nat 1) with 1. unfold rolling_windows. cbv zeta.
  rewrite !rolling_windows_from_one, !map_map.
  assert (Hmean : forall l : list float, map (fun x => series_mean [x]) l = l).
  { intros l. rewrite <- (map_id l) at 2. apply map_ext. apply series_mean_single. }
  assert (Hstd : forall l : list float,
             map (fun x => series_std [x]) l = repeat NaN (length l)).
  { induction l as [|x l IH]; [reflexivity|]. simpl map.
    rewrite series_std_single, IH. reflexivity. }
  rewrite !Hmean, !Hstd. eexists. split; [reflexivity|].
  repeat match goal with |- _ /\ _ => split end.
  - rewrite !df_get_set_other by reflexivity. apply df_get_set_same.
  - rewrite !df_get_set_other by reflexivity. apply df_get_set_same.
  - rewrite !df_get_set_other by reflexivity. apply df_get_set_same.
  - apply df_get_set_same.
Qed.

End RollingErrors.

Lemma calculate_rolling_stats_window_one_witness :
  exists df' : DataFrame,
    calculate_rolling_stats (L := stable_library)
      {| df_len := 2;
         df_cols := [("heartRate", NumCol [Fin 70; Fin 80]);
                     ("hrv", NumCol [Fin 50; NaN])] |} 1 = Ok df'
    /\ df_get "hr_rolling_mean" df' = Some (NumCol [Fin 70; Fin 80]).
Proof.
  destruct (calculate_rolling_stats_window_one (L := stable_library)
              {| df_len := 2;
                 df_cols := [("heartRate", NumCol [Fin 70; Fin 80]);
                             ("hrv", NumCol [Fin 50; NaN])] |}
              [Fin 70; Fin 80] [Fin 50; NaN] eq_refl eq_refl)
    as (df' & Hrun & Hmean & _).
  exists df'. split; assumption.
Defined.

(** ** Descriptive statistics: order and bounds *)

Lemma fold_left_Rmin_le (xs : list R) (x : R) :
  (fold_left Rmin xs x <= x)%R
  /\ (forall y, In y xs -> (fold_left Rmin xs x <= y)%R)
  /\ In (fold_left Rmin xs x) (x :: xs).
Proof.
  revert x. induction xs as [|a xs IH]; intros x; simpl.
  - repeat split; [lra|contradiction|now left].
  - destruct (IH (Rmin x a)) as (H1 & H2 & H3).
    pose proof (Rmin_l x a). pose proof (Rmin_r x a).
    repeat split.
    + lra.
    + intros y [<-|Hy]; [lra|now apply H2].
    + destruct H3 as [H3|H3]; [|now right; right].
      rewrite <- H3. unfold Rmin. destruct (Rle_dec x a); [now left|right; now left].
Qed.

Lemma fold_left_Rmax_ge (xs : list R) (x : R) :
  (x <= fold_left Rmax xs x)%R
  /\ (forall y, In y xs -> (y <= fold_left Rmax xs x)%R)
  /\ In (fold_left Rmax xs x) (x :: xs).
Proof.
  revert x. induction xs as [|a xs IH]; intros x; simpl.
  - repeat split; [lra|contradiction|now left].
  - destruct (IH (Rmax x a)) as (H1 & H2 & H3).
    pose proof (Rmax_l x a). pose proof (Rmax_r x a).
    repeat split.
    + lra.
    + intros y [<-|Hy]; [lra|now apply H2].
    + destruct H3 as [H3|H3]; [|now right; right].
      rewrite <- H3. unfold Rmax. destruct (Rle_dec x a); [right; now left|now left].
Qed.

Lemma Rsum_bounds (lo hi : R) (xs : list R) :
  (forall x, In x xs -> lo <= x <= hi)%R ->
  (INR (length xs) * lo <= Rsum xs <= INR (length xs) * hi)%R.
Proof.
  induction xs as [|x xs IH]; intros Hb.
  - simpl. lra.
  - change (Rsum (x :: xs)) with (x + Rsum xs)%R.
    change (length (x :: xs)) with (S (length xs)). rewrite S_INR.
    specialize (IH (fun y Hy => Hb y (or_intror Hy))).
    pose proof (Hb x (or_introl eq_refl)). lra.
Qed.

(** The mean of a non-empty list lies between any bounds of its values. *)
Lemma Rmean_bounds (lo hi : R) (xs : list R) :
  xs <> [] ->
  (forall x, In x xs -> lo <= x <= hi)%R ->
  (lo <= Rmean xs <= hi)%R.
Proof.
  intros Hne Hb. unfold Rmean.
  assert (Hn : (0 < INR (length xs))%R)
    by (apply lt_0_INR; destruct xs; [contradiction|simpl; lia]).
  pose proof (Rsum_bounds lo hi xs Hb) as [H1 H2].
  split.
  - apply (Rmult_le_reg_r (INR (length xs))); [exact Hn|].
    replace (Rsum xs / INR (length xs) * INR (length xs))%R with (Rsum xs) by (field; lra).
    lra.
  - apply (Rmult_le_reg_r (INR (length xs))); [exact Hn|].
    replace (Rsum xs / INR (length xs) * INR (length xs))%R with (Rsum xs) by (field; lra).
    lra.
Qed.

Lemma sorted_reals (xs : list R) : StronglySorted Rle (stable_sort Rltb xs).
Proof.
  apply Sorted_StronglySorted; [intros a b c; apply Rle_trans|].
  apply stable_sort_sorted.
  - intros y x H. unfold Rltb in H. destruct (Rlt_dec y x); [lra|discriminate].
  - intros y x H. unfold Rltb in H. destruct (Rlt_dec y x); [discriminate|lra].
Qed.

Lemma strongly_sorted_nth (s : list R) (d : R) (i j : nat) :
  StronglySorted Rle s -> i <= j -> j < length s -> (nth i s d <= nth j s d)%R.
Proof.
  intros Hs. revert i j. induction Hs as [|a s Hs IH Hall]; intros i j Hij Hj.
  - simpl in Hj. lia.
  - destruct i as [|i], j as [|j]; simpl in *; try lia.
    + lra.
    + rewrite List.Forall_forall in Hall. apply Hall, nth_In. lia.
    + apply IH; lia.
Qed.

(** Linear interpolation in a sorted list at position [p / 4]. *)
Lemma interpolation_between (s : list R) (d : R) (p : nat) :
  StronglySorted Rle s ->
  p / 4 < length s ->
  let lo := nth (p / 4) s d in
  let hi := nth (p / 4 + 1) s lo in
  (lo <= lo + INR (p mod 4) / 4 * (hi - lo) <= hi)%R /\ (lo <= hi)%R.
Proof.
  intros Hs Hlo lo hi.
  assert (Hle : (lo <= hi)%R).
  { unfold hi. destruct (Nat.lt_ge_cases (p / 4 + 1) (length s)) as [Hin|Hout].
    - rewrite (nth_indep s lo d Hin). unfold lo. apply strongly_sorted_nth; [exact Hs|lia|exact Hin].
    - rewrite nth_overflow by exact Hout. lra. }
  assert (Hfrac : (0 <= INR (p mod 4) / 4 < 1)%R).
  { pose proof (Nat.mod_upper_bound p 4 ltac:(lia)) as Hm.
    pose proof (pos_INR (p mod 4)). apply lt_INR in Hm.
    replace (INR 4) with 4%R in Hm by (simpl; lra). lra. }
  split; [|exact Hle]. split; nra.
Qed.

Lemma interpolation_monotone (s : list R) (d : R) (p q : nat) :
  StronglySorted Rle s ->
  p <= q ->
  q / 4 < length s ->
  let value := fun r =>
    (nth (r / 4) s d + INR (r mod 4) / 4 * (nth (r / 4 + 1) s (nth (r / 4) s d) - nth (r / 4) s d))%R in
  (value p <= value q)%R.
Proof.
  intros Hs Hpq Hq value. unfold value.
  assert (Hdiv : p / 4 <= q / 4) by (apply Nat.Div0.div_le_mono; exact Hpq).
  destruct (interpolation_between s d p Hs ltac:(lia)) as [[_ Hp2] Hp3].
  destruct (interpolation_between s d q Hs Hq) as [[Hq1 _] Hq3].
  cbv zeta in *.
  destruct (Nat.eq_dec (p / 4) (q / 4)) as [Heq|Hne].
  - rewrite Heq in *.
    assert (Hmod : p mod 4 <= q mod 4).
    { pose proof (Nat.div_mod_eq p 4). pose proof (Nat.div_mod_eq q 4). lia. }
    apply le_INR in Hmod.
    set (lo := nth (q / 4) s d) in *. set (hi := nth (q / 4 + 1) s lo) in *.
    nra.
  - assert (Hstep : p / 4 + 1 <= q / 4) by lia.
    assert (Hmid : (nth (p / 4 + 1) s (nth (p / 4) s d) <= nth (q / 4) s d)%R).
    { rewrite (nth_indep s _ d) by lia. apply strongly_sorted_nth; [exact Hs|lia|exact Hq]. }
    lra.
Qed.

Lemma stable_sort_nonempty (xs : list R) :
  xs <> [] -> stable_sort Rltb xs <> [].
Proof.
  intros Hne Hs. apply Hne.
  apply Permutation_nil. rewrite <- Hs. apply stable_sort_perm.
Qed.

(** A quartile is the interpolation of the sorted observations at position
    [(n - 1) * k / 4]. *)
Lemma quartile_interpolation (k : nat) (v : list float) :
  finite_values v <> [] ->
  let s := stable_sort Rltb (finite_values v) in
  let p := (length s - 1) * k in
  quartile k v
  = Fin (nth (p / 4) s (hd 0%R s)
         + INR (p mod 4) / 4
           * (nth (p / 4 + 1) s (nth (p / 4) s (hd 0%R s)) - nth (p / 4) s (hd 0%R s)))%R.
Proof.
  intros Hne s p. unfold quartile.
  pose proof (stable_sort_nonempty _ Hne) as Hs. fold s in Hs. subst p. fold s.
  destruct s as [|x xs]; [contradiction|reflexivity].
Qed.

Lemma quartile_position (k n : nat) : k <= 4 -> 0 < n -> (n - 1) * k / 4 < n.
Proof.
  intros Hk Hn. apply Nat.Div0.div_lt_upper_bound. nia.
Qed.

Lemma quartile_monotone (j k : nat) (v : list float) :
  j <= k -> k <= 4 -> finite_values v <> [] ->
  exists a b, quartile j v = Fin a /\ quartile k v = Fin b /\ (a <= b)%R.
Proof.
  intros Hjk Hk Hne.
  rewrite (quartile_interpolation j v Hne), (quartile_interpolation k v Hne). cbv zeta.
  set (s := stable_sort Rltb (finite_values v)).
  eexists _, _. split; [reflexivity|]. split; [reflexivity|].
  assert (Hlen : 0 < length s).
  { pose proof (stable_sort_nonempty _ Hne) as Hs. fold s in Hs.
    destruct s; [contradiction|simpl; lia]. }
  apply (interpolation_monotone s (hd 0%R s) ((length s - 1) * j) ((length s - 1) * k)).
  - apply sorted_reals.
  - nia.
  - apply quartile_position; assumption.
Qed.

Lemma quartile_within (k : nat) (v : list float) (lo hi : R) :
  k <= 4 -> finite_values v <> [] ->
  (forall x, In x (finite_values v) -> lo <= x <= hi)%R ->
  exists q, quartile k v = Fin q /\ (lo <= q <= hi)%R.
Proof.
  intros Hk Hne Hb.
  rewrite (quartile_interpolation k v Hne). cbv zeta.
  set (s := stable_sort Rltb (finite_values v)).
  eexists. split; [reflexivity|].
  assert (Hlen : 0 < length s).
  { pose proof (stable_sort_nonempty _ Hne) as Hs. fold s in Hs.
    destruct s; [contradiction|simpl; lia]. }
  assert (Hin : forall i d, i < length s -> (lo <= nth i s d <= hi)%R).
  { intros i d Hi. apply Hb.
    apply (Permutation_in (l := s)); [apply stable_sort_perm|].
    apply nth_In. exact Hi. }
  pose proof (quartile_position k (length s) Hk Hlen) as Hp.
  destruct (interpolation_between s (hd 0%R s) ((length s - 1) * k) (sorted_reals _) Hp)
    as [[H1 H2] H3]. cbv zeta in H1, H2, H3.
  pose proof (Hin _ (hd 0%R s) Hp) as Hlo.
  assert (Hhi : (nth ((length s - 1) * k / 4 + 1) s
                     (nth ((length s - 1) * k / 4) s (hd 0%R s)) <= hi)%R).
  { destruct (Nat.lt_ge_cases ((length s - 1) * k / 4 + 1) (length s)) as [Hi|Ho].
    - apply Hin. exact Hi.
    - rewrite nth_overflow by exact Ho. lra. }
  lra.
Qed.

Lemma series_min_max (v : list float) :
  finite_values v <> [] ->
  exists mn mx, series_min v = Fin mn /\ series_max v = Fin mx
    /\ In mn (finite_values v) /\ In mx (finite_values v)
    /\ forall x, In x (finite_values v) -> (mn <= x <= mx)%R.
Proof.
  intros Hne. unfold series_min, series_max.
  destruct (finite_values v) as [|x xs]; [contradiction|].
  destruct (fold_left_Rmin_le xs x) as (A1 & A2 & A3).
  destruct (fold_left_Rmax_ge xs x) as (B1 & B2 & B3).
  eexists _, _. split; [reflexivity|]. split; [reflexivity|].
  split; [exact A3|]. split; [exact B3|].
  intros y [<-|Hy]; split; auto.
Qed.

Lemma series_std_nonneg (v : list float) :
  (series_std v = NaN <-> length (finite_values v) <= 1)
  /\ (forall s, series_std v = Fin s -> (0 <= s)%R).
Proof.
  unfold series_std.
  destruct (Nat.leb_spec (length (finite_values v)) 1) as [H|H].
  - split; [tauto|discriminate].
  - split.
    + split; [discriminate|lia].
    + intros s [= <-]. apply sqrt_pos.
Qed.

(** X11 ([describe], the statistics of one numeric column in
    [analyze_data]): on a column with at least one observation the seven
    statistics are numbers in their natural order: minimum, first quartile,
    median, third quartile, maximum, with the mean between minimum and
    maximum; minimum and maximum are observations; and the standard
    deviation is undefined exactly on a single observation and is not
    negative otherwise.  (In exact arithmetic: rounding is not modelled.) *)
Theorem describe_ordered (v : list float) :
  finite_values v <> [] ->
  exists mn q1 med q3 mx mean : R,
    st_min (describe v) = Fin mn /\ st_q25 (describe v) = Fin q1
    /\ st_median (describe v) = Fin med /\ st_q75 (describe v) = Fin q3
    /\ st_max (describe v) = Fin mx /\ st_mean (describe v) = Fin mean
    /\ (mn <= q1 <= med)%R /\ (med <= q3 <= mx)%R /\ (mn <= mean <= mx)%R
    /\ In mn (finite_values v) /\ In mx (finite_values v)
    /\ (st_std (describe v) = NaN <-> length (finite_values v) = 1)
    /\ (forall s, st_std (describe v) = Fin s -> (0 <= s)%R).
Proof.
  intros Hne. simpl.
  destruct (series_min_max v Hne) as (mn & mx & Hmn & Hmx & Imn & Imx & Hb).
  destruct (quartile_within 1 v mn mx ltac:(lia) Hne Hb) as (q1 & Hq1 & Bq1).
  destruct (quartile_within 3 v mn mx ltac:(lia) Hne Hb) as (q3 & Hq3 & Bq3).
  destruct (quartile_monotone 1 2 v ltac:(lia) ltac:(lia) Hne) as (a & med & Ha & Hmed & Hle1).
  destruct (quartile_monotone 2 3 v ltac:(lia) ltac:(lia) Hne) as (m' & b & Hm' & Hb' & Hle2).
  rewrite Hq1 in Ha. injection Ha as <-.
  rewrite Hq3 in Hb'. injection Hb' as <-.
  unfold series_median. rewrite Hmed in Hm'. injection Hm' as <-.
  pose proof (Rmean_bounds mn mx _ Hne Hb) as Hmean.
  exists mn, q1, med, q3, mx, (Rmean (finite_values v)).
  repeat match goal with |- _ /\ _ => split end; try assumption; try lra.
  - unfold series_mean. destruct (finite_values v); [contradiction|reflexivity].
  - split; intros H.
    + apply (proj1 (series_std_nonneg v)) in H.
      destruct (finite_values v); [contradiction|simpl in *; lia].
    + apply (proj1 (series_std_nonneg v)). lia.
  - apply (proj2 (series_std_nonneg v)).
Qed.

Lemma describe_ordered_witness :
  exists mn q1 med q3 mx mean : R,
    st_min (describe [Fin 60; NaN; Fin 80]%R) = Fin mn
    /\ st_q25 (describe [Fin 60; NaN; Fin 80]%R) = Fin q1
    /\ st_median (describe [Fin 60; NaN; Fin 80]%R) = Fin med
    /\ st_q75 (describe [Fin 60; NaN; Fin 80]%R) = Fin q3
    /\ st_max (describe [Fin 60; NaN; Fin 80]%R) = Fin mx
    /\ st_mean (describe [Fin 60; NaN; Fin 80]%R) = Fin mean
    /\ (mn <= q1 <= med)%R /\ (med <= q3 <= mx)%R /\ (mn <= mean <= mx)%R
    /\ In mn (finite_values [Fin 60; NaN; Fin 80]%R)
    /\ In mx (finite_values [Fin 60; NaN; Fin 80]%R)
    /\ (st_std (describe [Fin 60; NaN; Fin 80]%R) = NaN
        <-> length (finite_values [Fin 60; NaN; Fin 80]%R) = 1)
    /\ (forall s, st_std (describe [Fin 60; NaN; Fin 80]%R) = Fin s -> (0 <= s)%R).
Proof.
  apply (describe_ordered [Fin 60; NaN; Fin 80]%R). simpl. discriminate.
Defined.

(** ** Synthetic data: the loops of the generators *)

Lemma py_int_bounds (x : R) (k : Z) :
  (0 <= x)%R -> (x < IZR k)%R -> (0 <= py_int x < k)%Z.
Proof.
  intros H0 Hk. unfold py_int. destruct (Rle_dec 0 x) as [_|H]; [|contradiction].
  destruct (base_Int_part x) as [H1 H2]. split.
  - assert (H : (IZR (-1) < IZR (Int_part x))%R) by lra.
    apply lt_IZR in H. lia.
  - apply lt_IZR. lra.
Qed.

Lemma py_int_le (x : R) (k : Z) :
  (0 <= x)%R -> (x <= IZR k)%R -> (0 <= py_int x <= k)%Z.
Proof.
  intros H0 Hk. unfold py_int. destruct (Rle_dec 0 x) as [_|H]; [|contradiction].
  destruct (base_Int_part x) as [H1 H2]. split.
  - assert (H : (IZR (-1) < IZR (Int_part x))%R) by lra.
    apply lt_IZR in H. lia.
  - apply le_IZR. lra.
Qed.

(** A generated record passes validation when its timestamp parses, its
    heart rate is in [30, 220], its HRV is not negative and its activity is
    a listed one. *)
Lemma make_record_accepted
    (to_datetime_error : pyval -> option string) (py_str : pyval -> string)
    (timestamp : string) (hr hrv : Z) (activity device : string) :
  to_datetime_error (PStr timestamp) = None ->
  (30 <= hr <= 220)%Z ->
  (0 <= hrv)%Z ->
  In activity VALID_ACTIVITIES ->
  validate_record to_datetime_error py_str
    (make_record timestamp hr hrv activity device) = (true, None).
Proof.
  intros Hts [Hlo Hhi] Hhrv Hact.
  destruct (make_record_lookup timestamp hr hrv activity device)
    as (Lts & Lhr & Lhrv & Lact & Ltemp).
  unfold validate_record. simpl first_missing.
  rewrite Lts, Lhr, Lhrv, Lact, Ltemp. simpl default. rewrite Hts.
  unfold out_of_range. simpl as_number. unfold flt, fgt.
  apply IZR_le in Hlo, Hhi, Hhrv.
  rewrite (Rltb_false (IZR hr) 30), (Rltb_false 220 (IZR hr)) by lra.
  rewrite (Rltb_false (IZR hrv) 0) by lra. simpl orb.
  assert (Hvalid : not_valid_activity (PStr activity) = false).
  { simpl in Hact. destruct Hact as [<-|[<-|[<-|[<-|[]]]]]; reflexivity. }
  now rewrite Hvalid.
Qed.

Section EpisodeRecords.

Variable to_datetime_error : pyval -> option string.
Variable py_str : pyval -> string.
Variable rng : Type.
Variable randint : Z -> Z -> rng -> Z * rng.
Variable isoformat : datetime -> string.

(** The timestamp parser reads what [isoformat] writes for the instants
    that pandas holds in nanoseconds, and [np.random.randint(lo, hi)]
    returns an integer from [lo] up to, but not including, [hi]. *)
Hypothesis isoformat_parses_in_range :
  forall dt, in_timestamp_range dt = true ->
             to_datetime_error (PStr (isoformat dt)) = None.
Hypothesis randint_range :
  forall lo hi s, (lo < hi)%Z -> (lo <= fst (randint lo hi s) < hi)%Z.

(** A turn of the loop yields exactly when its instant is on the calendar;
    otherwise it raises [OverflowError]. *)
Lemma episode_record_returns (start_time : datetime) (num_records : Z) (i : nat) (s : rng) :
  (in_calendar (start_time + 60 * 5 * Z.of_nat i) = true ->
   exists r s', episode_record rng randint isoformat start_time num_records i s
                = Ok (r, s'))
  /\ (in_calendar (start_time + 60 * 5 * Z.of_nat i) = false ->
      episode_record rng randint isoformat start_time num_records i s
      = Raise OverflowError).
Proof.
  unfold episode_record, rbind, ret, rand_int, lift. split; intros Hcal.
  - rewrite (plus_minutes_in _ _ _ Hcal).
    destruct (Rltb _ 0.3); [eauto|].
    destruct (Rltb _ 0.7); [|eauto].
    destruct (randint (-5)%Z 5%Z s) as [a s1].
    destruct (randint (-3)%Z 3%Z s1) as [b s2]. eauto.
  - now rewrite (plus_minutes_out _ _ _ Hcal).
Qed.

Lemma episode_record_bounds (start_time : datetime) (num_records : Z) (i : nat)
    (s s' : rng) (r : record) :
  (Z.of_nat i < num_records)%Z ->
  episode_record rng randint isoformat start_time num_records i s = Ok (r, s') ->
  in_calendar (start_time + 60 * 5 * Z.of_nat i) = true
  /\ exists hr hrv,
       r = make_record (isoformat (start_time + 60 * 5 * Z.of_nat i)) hr hrv "resting"
                       "TPP Episode Simulator"
       /\ (35 <= hr <= 69)%Z /\ (12 <= hrv <= 49)%Z.
Proof.
  intros Hi.
  assert (Hn : (0 < IZR num_records)%R) by (apply IZR_lt; lia).
  assert (Hp : (0 <= INR i / IZR num_records < 1)%R).
  { rewrite INR_IZR_INZ. apply IZR_lt in Hi.
    pose proof (IZR_le 0 (Z.of_nat i) ltac:(lia)) as H0.
    split.
    - apply Rmult_le_pos; [exact H0|]. apply Rlt_le, Rinv_0_lt_compat, Hn.
    - apply (Rmult_lt_reg_r (IZR num_records)); [exact Hn|].
      replace (IZR (Z.of_nat i) / IZR num_records * IZR num_records)%R
        with (IZR (Z.of_nat i)) by (field; lra).
      lra. }
  unfold episode_record, rbind, ret, rand_int, lift.
  destruct (plus_minutes start_time 5 i) as [t|e] eqn:Ht; [|discriminate].
  apply plus_minutes_ok in Ht. destruct Ht as [-> Hcal].
  set (p := (INR i / IZR num_records)%R) in *.
  unfold Rltb. destruct (Rlt_dec p 0.3) as [Honset|Hlate].
  - intros [= <- _]. simpl fst. simpl snd. split; [exact Hcal|].
    pose proof (py_int_le (15 * (1 - p / 0.3)) 15 ltac:(lra) ltac:(lra)).
    pose proof (py_int_bounds (10 * p / 0.3) 10 ltac:(lra) ltac:(lra)).
    eexists _, _. split; [reflexivity|]. lia.
  - destruct (Rlt_dec p 0.7) as [Hpeak|Hrecovery].
    + pose proof (randint_range (-5) 5 s ltac:(lia)) as Ha.
      destruct (randint (-5)%Z 5%Z s) as [a s1]. simpl in Ha.
      pose proof (randint_range (-3) 3 s1 ltac:(lia)) as Hb.
      destruct (randint (-3)%Z 3%Z s1) as [b s2]. simpl in Hb.
      intros [= <- _]. simpl fst. simpl snd. split; [exact Hcal|].
      eexists _, _. split; [reflexivity|]. lia.
    + intros [= <- _]. simpl fst. simpl snd. split; [exact Hcal|].
      pose proof (py_int_bounds (25 * ((p - 0.7) / 0.3)) 25 ltac:(lra) ltac:(lra)).
      pose proof (py_int_bounds (30 * ((p - 0.7) / 0.3)) 30 ltac:(lra) ltac:(lra)).
      eexists _, _. split; [reflexivity|]. lia.
Qed.

(** X12 ([generate_tpp_episode]): whatever the state of the generator, when
    every record of the episode is on the calendar (its instant not beyond
    the year 9999) the call returns one record for every whole five minutes
    of the duration (none for a duration below five minutes); record [i] is
    stamped five minutes times [i] after the start, is at rest, names the
    episode simulator as its device, has a heart rate from 35 to 69 and an
    HRV from 12 to 49, and passes [validate_record] when its instant is one
    the timestamp parser reads.  When a record of the episode is beyond the
    calendar the call raises [OverflowError] and returns nothing. *)
Theorem generated_episode_records_are_valid
    (start_time : datetime) (duration_minutes : Z) (s : rng) :
  ((forall i, i < Z.to_nat (duration_minutes / 5) ->
      in_calendar (start_time + 60 * 5 * Z.of_nat i) = true) ->
   exists recs s',
     generate_tpp_episode rng randint isoformat start_time duration_minutes s
     = Ok (recs, s')
     /\ length recs = Z.to_nat (duration_minutes / 5)
     /\ forall i r, nth_error recs i = Some r ->
          let dt := (start_time + 60 * 5 * Z.of_nat i)%Z in
          r !! "timestamp" = Some (PStr (isoformat dt))
          /\ r !! "activity" = Some (PStr "resting")
          /\ r !! "device" = Some (PStr "TPP Episode Simulator")
          /\ (exists hr hrv,
                r !! "heartRate" = Some (PInt hr) /\ (35 <= hr <= 69)%Z
                /\ r !! "hrv" = Some (PInt hrv) /\ (12 <= hrv <= 49)%Z)
          /\ (in_timestamp_range dt = true ->
              validate_record to_datetime_error py_str r = (true, None)))
  /\ ((exists i, i < Z.to_nat (duration_minutes / 5)
                 /\ in_calendar (start_time + 60 * 5 * Z.of_nat i) = false) ->
      generate_tpp_episode rng randint isoformat start_time duration_minutes s
      = Raise OverflowError).
Proof.
  unfold generate_tpp_episode.
  set (n := (duration_minutes / 5)%Z).
  split.
  - intros Hcal.
    destruct (for_each_total (episode_record rng randint isoformat start_time n)
                (seq 0 (Z.to_nat n))
                (fun i s0 Hi =>
                   proj1 (episode_record_returns start_time n i s0)
                         (Hcal i (proj2 (proj1 (in_seq _ _ _) Hi)))) s)
      as (recs & s' & Hrun & Hlen).
    exists recs, s'. split; [exact Hrun|]. split; [now rewrite Hlen, length_seq|].
    intros i r Hr.
    destruct (for_each_nth _ _ _ _ _ Hrun) as [_ Hnth].
    destruct (Hnth i r Hr) as (j & s0 & s1 & Hj & Hrec).
    apply nth_error_seq_0 in Hj. destruct Hj as [-> Hi].
    apply episode_record_bounds in Hrec; [|lia].
    destruct Hrec as (_ & hr & hrv & -> & Hhr & Hhrv).
    split; [reflexivity|]. split; [reflexivity|]. split; [reflexivity|]. split.
    + exists hr, hrv. repeat split; lia.
    + intros Hrange. apply make_record_accepted;
        [now apply isoformat_parses_in_range|lia|lia|simpl; tauto].
  - intros (i & Hi & Hout). apply for_each_raises.
    + intros j s0 _.
      destruct (in_calendar (start_time + 60 * 5 * Z.of_nat j)) eqn:Hj.
      * left. now apply episode_record_returns.
      * right. now apply episode_record_returns.
    + exists i. split; [apply in_seq; lia|].
      intros s0. now apply episode_record_returns.
Qed.

End EpisodeRecords.

Lemma lcg_randint_range (lo hi s : Z) :
  (lo < hi)%Z -> (lo <= fst (lcg_randint lo hi s) < hi)%Z.
Proof.
  intros H. unfold lcg_randint. simpl.
  pose proof (Z.mod_pos_bound s (hi - lo) ltac:(lia)). lia.
Qed.

(** The default episode of two hours from the epoch, drawn with the
    congruential generator and read by the nanosecond parser: 24 valid
    records. *)
Lemma generated_episode_records_are_valid_witness :
  exists (recs : list record) (s' : Z),
    generate_tpp_episode Z lcg_randint seconds_format 0 120 0%Z = Ok (recs, s')
    /\ length recs = 24
    /\ forall i r, nth_error recs i = Some r ->
         validate_record ns_to_datetime_error no_str r = (true, None).
Proof.
  destruct (generated_episode_records_are_valid ns_to_datetime_error no_str
              Z lcg_randint seconds_format ns_to_datetime_error_accepts
              lcg_randint_range 0 120 0%Z) as [Hrun _].
  destruct Hrun as (recs & s' & Hrun & Hlen & Hrecs).
  { intros i Hi. change (120 / 5)%Z with 24%Z in Hi.
    apply in_calendar_iff. unfold DATETIME_MIN, DATETIME_MAX. lia. }
  exists recs, s'. split; [exact Hrun|]. split; [exact Hlen|].
  intros i r Hr. destruct (Hrecs i r Hr) as (_ & _ & _ & _ & Hpass). apply Hpass.
  assert (Hi : i < length recs) by (apply nth_error_Some; now rewrite Hr).
  rewrite Hlen in Hi. change (120 / 5)%Z with 24%Z in Hi.
  apply in_timestamp_range_iff. unfold TIMESTAMP_MIN, TIMESTAMP_MAX. lia.
Defined.

Section DailyLayout.

Variable rng : Type.
Variable seed : Z -> rng.
Variable gauss : rng -> R * rng.
Variable choice : list string -> list R -> rng -> string * rng.
Variable timestamp_of : datetime -> result Z.
Variable isoformat : datetime -> string.


(** X14 ([generate_daily_pattern]): with a negative noise level, a start
    date that has no timestamp makes the call raise what the timestamp
    raises.  With one, the call returns the empty batch and leaves the
    generator as seeded from the start date when no record is asked for (a
    count of zero or below).  As soon as one record is asked for it raises:
    [OverflowError] when the start date is beyond the calendar or when the
    base heart rate, less twenty, does not convert to a float, for the
    heart rate of the regime is computed before the noise is drawn; and
    [ValueError] otherwise, when the base heart rate converts. *)
Theorem generate_daily_pattern_negative_noise
    (date : datetime) (num_records base_hr : Z) (noise_level : R) (s : rng) :
  (noise_level < 0)%R ->
  (forall e, timestamp_of date = Raise e ->
     generate_daily_pattern rng seed gauss choice timestamp_of isoformat
       date num_records base_hr noise_level s = Raise e)
  /\ (forall t, timestamp_of date = Ok t ->
        ((num_records <= 0)%Z ->
         generate_daily_pattern rng seed gauss choice timestamp_of isoformat
           date num_records base_hr noise_level s
         = Ok ([], seed (t mod 1000)%Z))
        /\ ((1 <= num_records)%Z -> in_calendar date = false ->
            generate_daily_pattern rng seed gauss choice timestamp_of isoformat
              date num_records base_hr noise_level s = Raise OverflowError)
        /\ ((1 <= num_records)%Z -> in_calendar date = true ->
            (FLOAT_INT_LIMIT + 20 <= base_hr)%Z ->
            generate_daily_pattern rng seed gauss choice timestamp_of isoformat
              date num_records base_hr noise_level s = Raise OverflowError)
        /\ ((1 <= num_records)%Z -> in_calendar date = true ->
            (Z.abs base_hr + 40 < FLOAT_INT_LIMIT)%Z ->
            generate_daily_pattern rng seed gauss choice timestamp_of isoformat
              date num_records base_hr noise_level s = Raise ValueError)).
Proof.
  intros Hneg. split.
  - intros e He. unfold generate_daily_pattern. now rewrite He.
  - intros t Ht.
    rewrite (generate_daily_pattern_run rng seed gauss choice timestamp_of isoformat
               date num_records base_hr noise_level s t Ht).
    assert (H0 : (date + 60 * 30 * Z.of_nat 0 = date)%Z) by lia.
    destruct (daily_record_raises rng gauss choice isoformat date base_hr noise_level 0
                (seed (t mod 1000)%Z)) as (Hout & Hbig & Hval).
    rewrite H0 in Hout, Hbig, Hval.
    split; [|split; [|split]].
    + intros Hn. replace (Z.to_nat num_records) with 0 by lia. reflexivity.
    + intros Hn Hcal. destruct (Z.to_nat num_records) as [|n] eqn:E; [lia|].
      simpl. unfold rbind. now rewrite Hout.
    + intros Hn Hcal Hover. destruct (Z.to_nat num_records) as [|n] eqn:E; [lia|].
      simpl. unfold rbind. now rewrite Hbig.
    + intros Hn Hcal Hfit. destruct (Z.to_nat num_records) as [|n] eqn:E; [lia|].
      simpl. unfold rbind. now rewrite Hval.
Qed.

(** Five days are 432000 seconds: a multiple of a day and of 1000. *)
Lemma hour_of_five_days (t k : Z) : hour_of (t + 432000 * k) = hour_of t.
Proof.
  unfold hour_of.
  replace (t + 432000 * k)%Z with (t + (120 * k) * 3600)%Z by lia.
  rewrite Z.div_add by lia.
  replace (t / 3600 + 120 * k)%Z with (t / 3600 + (5 * k) * 24)%Z by lia.
  now rewrite Z.mod_add by lia.
Qed.

(** X15 ([generate_daily_pattern], the seed [int(date.timestamp()) % 1000]):
    two start dates a multiple of five days apart, both with a timestamp,
    between which the local clock keeps its offset, and from both of which
    every record asked for is on the calendar, give the same batch but for
    the timestamps: the same activities, heart rates and HRVs record by
    record, and the same final state of the generator; or both calls raise
    the same exception. *)
Theorem generate_daily_pattern_repeats_every_five_days
    (date : datetime) (k : Z) (num_records base_hr : Z) (noise_level : R) (s1 s2 : rng)
    (t : Z) :
  timestamp_of date = Ok t ->
  timestamp_of (date + 432000 * k)%Z = Ok (t + 432000 * k)%Z ->
  (forall i, i < Z.to_nat num_records ->
     in_calendar (date + 60 * 30 * Z.of_nat i) = true
     /\ in_calendar (date + 432000 * k + 60 * 30 * Z.of_nat i) = true) ->
  agree_but_timestamps
    (generate_daily_pattern rng seed gauss choice timestamp_of isoformat
       date num_records base_hr noise_level s1)
    (generate_daily_pattern rng seed gauss choice timestamp_of isoformat
       (date + 432000 * k)%Z num_records base_hr noise_level s2).
Proof.
  intros Ht Hzone Hcal.
  apply (generate_daily_pattern_congruent rng seed gauss choice timestamp_of isoformat
           date (date + 432000 * k)%Z num_records base_hr noise_level s1 s2
           t (t + 432000 * k)%Z Ht Hzone).
  - replace (t + 432000 * k)%Z with (t + (432 * k) * 1000)%Z by lia.
    now rewrite Z.mod_add by lia.
  - intros i Hi. destruct (Hcal i Hi) as [H1 H2]. split; [exact H1|]. split; [exact H2|].
    replace (date + 432000 * k + 60 * 30 * Z.of_nat i)%Z
      with (date + 60 * 30 * Z.of_nat i + 432000 * k)%Z by lia.
    symmetry. apply hour_of_five_days.
Qed.

End DailyLayout.


(** A noise level of -1 from the epoch: one record cannot be drawn, none
    can; and with a base heart rate of [10^400], which no float holds, the
    call raises [OverflowError] before it comes to the noise. *)
Lemma generate_daily_pattern_negative_noise_witness :
  generate_daily_pattern Z lcg_seed lcg_gauss lcg_choice utc_timestamp seconds_format
    0 1 70 (-1) 0%Z = Raise ValueError
  /\ generate_daily_pattern Z lcg_seed lcg_gauss lcg_choice utc_timestamp seconds_format
       0 0 70 (-1) 0%Z = Ok ([], lcg_seed 0)
  /\ generate_daily_pattern Z lcg_seed lcg_gauss lcg_choice utc_timestamp seconds_format
       0 1 (10 ^ 400) (-1) 0%Z = Raise OverflowError.
Proof.
  destruct (generate_daily_pattern_negative_noise Z lcg_seed lcg_gauss lcg_choice
              utc_timestamp seconds_format 0 1 70 (-1) 0%Z ltac:(lra)) as [_ H1].
  destruct (generate_daily_pattern_negative_noise Z lcg_seed lcg_gauss lcg_choice
              utc_timestamp seconds_format 0 0 70 (-1) 0%Z ltac:(lra)) as [_ H2].
  destruct (generate_daily_pattern_negative_noise Z lcg_seed lcg_gauss lcg_choice
              utc_timestamp seconds_format 0 1 (10 ^ 400) (-1) 0%Z ltac:(lra)) as [_ H3].
  destruct (H1 0%Z eq_refl) as (_ & _ & _ & Hraise).
  destruct (H2 0%Z eq_refl) as (Hnone & _).
  destruct (H3 0%Z eq_refl) as (_ & _ & Hover & _).
  split; [apply Hraise; [lia|reflexivity|reflexivity]|].
  split; [apply Hnone; lia|].
  apply Hover; [lia|reflexivity|]. apply Z.leb_le. reflexivity.
Defined.

(** The epoch and the instant five days later, read as UTC. *)
Lemma generate_daily_pattern_repeats_every_five_days_witness :
  agree_but_timestamps
    (generate_daily_pattern Z lcg_seed lcg_gauss lcg_choice utc_timestamp seconds_format
       0 48 70 5 0%Z)
    (generate_daily_pattern Z lcg_seed lcg_gauss lcg_choice utc_timestamp seconds_format
       432000 48 70 5 1%Z).
Proof.
  apply (generate_daily_pattern_repeats_every_five_days Z lcg_seed lcg_gauss lcg_choice
           utc_timestamp seconds_format 0 1 48 70 5 0%Z 1%Z 0%Z eq_refl eq_refl).
  intros i Hi. split; apply in_calendar_iff; unfold DATETIME_MIN, DATETIME_MAX; lia.
Defined.

(** ** Rapid changes: errors, thresholds and chained passes *)

Lemma df_get_set (k k' : string) (c : column) (df : DataFrame) :
  df_get k' (df_set k c df) = if String.eqb k k' then Some c else df_get k' df.
Proof.
  destruct (String.eqb k k') eqn:E.
  - apply String.eqb_eq in E. subst k'. apply df_get_set_same.
  - now apply df_get_set_other.
Qed.

Lemma int_of_bool_one (b : bool) : int_of_bool b = Fin 1 <-> b = true.
Proof.
  destruct b; simpl; split; intros H; try reflexivity; try discriminate.
  injection H as H. lra.
Qed.

Lemma fgt_Fin (c : float) (t : R) :
  fgt c (Fin t) = true <-> exists x, c = Fin x /\ (t < x)%R.
Proof.
  destruct c as [x|]; simpl.
  - unfold Rltb. destruct (Rlt_dec t x); split.
    + intros _. now exists x.
    + reflexivity.
    + discriminate.
    + intros (y & [= <-] & Hy). contradiction.
  - split; [discriminate|]. intros (x & H & _). discriminate.
Qed.

Lemma cols_set_well_formed (n : nat) (k : string) (c : column)
    (cs : list (string * column)) :
  List.Forall (fun kc : string * column => column_length (snd kc) = n) cs ->
  column_length c = n ->
  List.Forall (fun kc : string * column => column_length (snd kc) = n) (cols_set k c cs).
Proof.
  intros Hcs Hc. induction Hcs as [|[k0 c0] cs H0 Hrest IH]; simpl.
  - constructor; [exact Hc|constructor].
  - destruct (String.eqb k0 k); constructor; simpl in *; assumption.
Qed.

Lemma df_set_well_formed (k : string) (c : column) (df : DataFrame) :
  well_formed df -> column_length c = df_len df -> well_formed (df_set k c df).
Proof. intros Hwf Hc. unfold well_formed, df_set. simpl. now apply cols_set_well_formed. Qed.

Section RapidChangeErrors.

Context {L : Library}.

(** A text column keeps its number of rows through sorting. *)
Lemma df_get_sort_text_length (df : DataFrame) (k : string) (v : list string) :
  well_formed df ->
  (df_get "timestamp" df = None
   \/ (sorts_datetimes L /\ exists ts, df_get "timestamp" df = Some (TimeCol ts))) ->
  df_get k df = Some (ObjCol v) ->
  exists v', df_get k (sort_by_timestamp df) = Some (ObjCol v')
             /\ length v' = length v.
Proof.
  intros Hwf [Hnone|(Hsort & ts & Hts)] Hv.
  - exists v. split; [|reflexivity]. now rewrite (sort_by_timestamp_absent df Hnone).
  - exists (take_rows "" (argsort (TimeCol ts)) v). split.
    + rewrite (df_get_sorted df (TimeCol ts) _ Hts), Hv. reflexivity.
    + unfold take_rows. rewrite length_map, (argsort_length ts Hsort).
      pose proof (cols_get_length _ _ _ Hwf Hts) as H1.
      pose proof (cols_get_length _ _ _ Hwf Hv) as H2.
      rewrite datetime_column_length in H1.
      unfold column_length in H2. simpl in H2. rewrite length_map in H2. lia.
Qed.

(** X16 ([detect_rapid_changes]).  Without a heart-rate column the call
    raises [KeyError]; on a heart-rate column of datetimes it raises
    [TypeError].  On a heart-rate column of text, in a well-formed frame
    without timestamps or with datetime timestamps that the sorting routine
    puts in order, it raises [TypeError] from two records on, where two
    texts are subtracted; on at most one record nothing is subtracted and
    the call returns, the change undefined and the flag 0.  On a numeric
    heart-rate column it returns, whatever the threshold: the frame has the
    length of the input, every column other than [hr_change] and
    [rapid_change] is the column of the sorted input, a change is undefined
    or not negative, a flag is 0 or 1, and a record is flagged exactly when
    its change is defined and above the threshold. *)
Theorem detect_rapid_changes_returns (df : DataFrame) (threshold : R) :
  (df_get "heartRate" df = None ->
   detect_rapid_changes df threshold = Raise (KeyError "heartRate"))
  /\ (forall v, df_get "heartRate" df = Some (TimeCol v) ->
        detect_rapid_changes df threshold = Raise TypeError)
  /\ (forall v, well_formed df ->
        (df_get "timestamp" df = None
         \/ (sorts_datetimes L
             /\ exists ts, df_get "timestamp" df = Some (TimeCol ts))) ->
        df_get "heartRate" df = Some (ObjCol v) ->
        (2 <= length v -> detect_rapid_changes df threshold = Raise TypeError)
        /\ (length v <= 1 ->
            exists df' : DataFrame,
              detect_rapid_changes df threshold = Ok df'
              /\ df_get "hr_change" df' = Some (NumCol (repeat NaN (length v)))
              /\ df_get "rapid_change" df' = Some (NumCol (repeat (Fin 0) (length v)))))
  /\ (forall v, df_get "heartRate" df = Some (NumCol v) ->
        exists (df' : DataFrame) (change flags : list float),
          detect_rapid_changes df threshold = Ok df'
          /\ df_len df' = df_len df
          /\ (forall k, k <> "hr_change" -> k <> "rapid_change" ->
                df_get k df' = df_get k (sort_by_timestamp df))
          /\ df_get "hr_change" df' = Some (NumCol change)
          /\ df_get "rapid_change" df' = Some (NumCol flags)
          /\ length flags = length change
          /\ List.Forall (fun c => match c with NaN => True | Fin x => (0 <= x)%R end)
                         change
          /\ List.Forall (fun f => f = Fin 0 \/ f = Fin 1) flags
          /\ forall i, nth_error flags i = Some (Fin 1)
                       <-> exists x, nth_error change i = Some (Fin x)
                                     /\ (threshold < x)%R).
Proof.
  split; [|split; [|split]].
  - intros H. apply (df_get_sort_none df "heartRate") in H.
    unfold detect_rapid_changes, get_column. now rewrite H.
  - intros v H.
    destruct (proj2 (df_get_sort_datetime df "heartRate") (ex_intro _ v H)) as [v' Hv'].
    unfold detect_rapid_changes, get_column. now rewrite Hv'.
  - intros v Hwf Hts H.
    destruct (df_get_sort_text_length df "heartRate" v Hwf Hts H) as (v' & Hv' & Hlen).
    unfold detect_rapid_changes, get_column. rewrite Hv'. simpl bind.
    split; intros Hn.
    + destruct v' as [|x [|y v']]; simpl in Hlen; try lia. reflexivity.
    + destruct v' as [|x [|y v']]; simpl in Hlen; try lia;
        rewrite <- Hlen; simpl; eexists; (split; [reflexivity|]);
        (split; [rewrite df_get_set_other by reflexivity|]); apply df_get_set_same.
  - intros v H.
    destruct (proj2 (df_get_sort_numeric df "heartRate") (ex_intro _ v H)) as [hr Hhr].
    rewrite (detect_rapid_changes_run df threshold hr Hhr).
    eexists _, _, _. split; [reflexivity|].
    split; [apply df_len_sort|].
    split.
    { intros k H1 H2. rewrite !df_get_set_other; [reflexivity|..];
        apply String.eqb_neq; congruence. }
    split; [rewrite df_get_set_other by reflexivity; apply df_get_set_same|].
    split; [apply df_get_set_same|].
    split; [now rewrite !length_map|].
    split.
    { apply List.Forall_forall. intros c Hc. apply in_map_iff in Hc.
      destruct Hc as ([x|] & <- & _); simpl; [apply Rabs_pos|exact I]. }
    split.
    { apply List.Forall_forall. intros f Hf. apply in_map_iff in Hf.
      destruct Hf as (c & <- & _). destruct (fgt c (Fin threshold)); simpl; auto. }
    intros i. rewrite nth_error_map.
    destruct (nth_error (map fabs (series_diff hr)) i) as [c|]; simpl.
    + split.
      * intros [= Hf]. apply int_of_bool_one, fgt_Fin in Hf.
        destruct Hf as (x & -> & Hx). now exists x.
      * intros (x & [= ->] & Hx). f_equal. apply int_of_bool_one, fgt_Fin. now exists x.
    + split; [discriminate|]. intros (x & Hx & _). discriminate.
Qed.

(** X17 ([detect_rapid_changes], the threshold).  On a numeric heart-rate
    column a higher threshold flags no record that a lower one does not
    flag; the changes that are compared do not depend on the threshold. *)
Theorem detect_rapid_changes_threshold_monotone
    (df : DataFrame) (low high : R) (v : list float) :
  (low <= high)%R ->
  df_get "heartRate" df = Some (NumCol v) ->
  exists (d1 d2 : DataFrame) (f1 f2 : list float),
    detect_rapid_changes df low = Ok d1
    /\ detect_rapid_changes df high = Ok d2
    /\ df_get "hr_change" d1 = df_get "hr_change" d2
    /\ df_get "rapid_change" d1 = Some (NumCol f1)
    /\ df_get "rapid_change" d2 = Some (NumCol f2)
    /\ length f1 = length f2
    /\ forall i, nth_error f2 i = Some (Fin 1) -> nth_error f1 i = Some (Fin 1).
Proof.
  intros Hle H.
  destruct (proj2 (df_get_sort_numeric df "heartRate") (ex_intro _ v H)) as [hr Hhr].
  rewrite !(detect_rapid_changes_run df _ hr Hhr).
  eexists _, _, _, _. split; [reflexivity|]. split; [reflexivity|].
  split; [rewrite !(df_get_set_other "rapid_change") by reflexivity;
          now rewrite !df_get_set_same|].
  split; [apply df_get_set_same|]. split; [apply df_get_set_same|].
  split; [now rewrite !length_map|].
  intros i. rewrite !nth_error_map.
  destruct (nth_error (series_diff hr) i) as [c|]; simpl; [|discriminate].
  intros [= Hf]. f_equal. apply int_of_bool_one, fgt_Fin in Hf.
  destruct Hf as (x & Hc & Hx). apply int_of_bool_one, fgt_Fin. exists x.
  split; [exact Hc|lra].
Qed.

(** X18 ([calculate_rolling_stats] and [detect_rapid_changes] chained).
    With a sorting routine that returns the rows of its input in an order
    of non-decreasing timestamps, on a well-formed frame with datetime
    timestamps no two of which are equal and numeric heart rates and HRVs,
    the two passes can be run one after the other in either order: both
    orders return, with the same rows and, column by column, the same
    content; the rolling columns are those of the rolling pass alone and the
    change columns those of the change pass alone.  (Records that share a
    timestamp may be put in another order by the second pass.) *)
Theorem enrichment_passes_commute
    (df : DataFrame) (ts : list Z) (hr hrv : list float) (window : Z) (threshold : R) :
  sorts_datetimes L ->
  well_formed df ->
  df_get "timestamp" df = Some (TimeCol ts) ->
  List.NoDup ts ->
  df_get "heartRate" df = Some (NumCol hr) ->
  df_get "hrv" df = Some (NumCol hrv) ->
  (1 <= window)%Z ->
  exists d_roll d_rapid a b : DataFrame,
    calculate_rolling_stats df window = Ok d_roll
    /\ detect_rapid_changes df threshold = Ok d_rapid
    /\ detect_rapid_changes d_roll threshold = Ok a
    /\ calculate_rolling_stats d_rapid window = Ok b
    /\ df_len a = df_len b
    /\ (forall k, df_get k a = df_get k b)
    /\ (forall k, In k ROLLING_COLUMNS -> df_get k a = df_get k d_roll)
    /\ (forall k, In k ["hr_change"; "rapid_change"] -> df_get k a = df_get k d_rapid).
Proof.
  intros Hsort Hwf Hts Hnodup Hhr Hhrv Hw.
  set (S := sort_by_timestamp df).
  pose proof (sort_by_timestamp_well_formed df ts Hsort Hwf Hts) as HwfS. fold S in HwfS.
  destruct (sort_by_timestamp_rows df ts Hsort Hwf Hts)
    as (ts' & Hts' & Hsorted & Hperm & _).
  fold S in Hts'.
  assert (Hstrict : Sorted Z.lt ts').
  { apply sorted_distinct_strict; [exact Hsorted|].
    now apply (Permutation_NoDup (Permutation_sym Hperm)). }
  destruct (proj2 (df_get_sort_numeric df "heartRate") (ex_intro _ hr Hhr)) as [hr' Hhr'].
  destruct (proj2 (df_get_sort_numeric df "hrv") (ex_intro _ hrv Hhrv)) as [hrv' Hhrv'].
  fold S in Hhr', Hhrv'.
  pose proof (cols_get_length _ _ _ HwfS Hhr') as Lhr.
  pose proof (cols_get_length _ _ _ HwfS Hhrv') as Lhrv.
  rewrite numeric_column_length in Lhr, Lhrv.
  pose proof (calculate_rolling_stats_run df window hr' hrv' Hw Hhr' Hhrv') as Hroll.
  pose proof (detect_rapid_changes_run df threshold hr' Hhr') as Hrapid.
  cbv zeta in Hroll. fold S in Hroll, Hrapid.
  set (w := Z.to_nat window) in *.
  set (d_roll := df_set "hrv_rolling_std" _ _) in Hroll.
  set (d_rapid := df_set "rapid_change" _ _) in Hrapid.
  assert (Hsort_roll : sort_by_timestamp d_roll = d_roll).
  { apply (sort_by_timestamp_strict d_roll ts' Hsort); [| |exact Hstrict].
    - unfold d_roll. repeat apply df_set_well_formed; try exact HwfS;
        rewrite numeric_column_length, length_map; unfold rolling_windows;
        rewrite length_rolling_windows_from; simpl df_len; assumption.
    - unfold d_roll. rewrite !df_get_set_other by reflexivity. exact Hts'. }
  assert (Hsort_rapid : sort_by_timestamp d_rapid = d_rapid).
  { apply (sort_by_timestamp_strict d_rapid ts' Hsort); [| |exact Hstrict].
    - unfold d_rapid. repeat apply df_set_well_formed; try exact HwfS;
        rewrite numeric_column_length, ?length_map, length_series_diff;
        simpl df_len; assumption.
    - unfold d_rapid. rewrite !df_get_set_other by reflexivity. exact Hts'. }
  assert (Ha : detect_rapid_changes d_roll threshold
               = Ok (df_set "rapid_change"
                       (NumCol (map (fun c => int_of_bool (fgt c (Fin threshold)))
                                    (map fabs (series_diff hr'))))
                       (df_set "hr_change" (NumCol (map fabs (series_diff hr'))) d_roll))).
  { rewrite (detect_rapid_changes_run d_roll threshold hr'); rewrite Hsort_roll;
      [reflexivity|].
    unfold d_roll. rewrite !df_get_set_other by reflexivity. exact Hhr'. }
  assert (Hb : calculate_rolling_stats d_rapid window
               = Ok (df_set "hrv_rolling_std" (NumCol (map series_std (rolling_windows w hrv')))
                    (df_set "hr_rolling_std" (NumCol (map series_std (rolling_windows w hr')))
                    (df_set "hrv_rolling_mean" (NumCol (map series_mean (rolling_windows w hrv')))
                    (df_set "hr_rolling_mean" (NumCol (map series_mean (rolling_windows w hr')))
                       d_rapid))))).
  { rewrite (calculate_rolling_stats_run d_rapid window hr' hrv' Hw); rewrite Hsort_rapid;
      [reflexivity|..];
      unfold d_rapid; rewrite !df_get_set_other by reflexivity; assumption. }
  exists d_roll, d_rapid. eexists _, _.
  split; [exact Hroll|]. split; [exact Hrapid|].
  split; [exact Ha|]. split; [exact Hb|].
  split; [reflexivity|].
  split; [|split].
  - intros k. unfold d_roll, d_rapid. rewrite !df_get_set.
    repeat match goal with
           | |- context [String.eqb ?a k] =>
             let E := fresh "E" in
             destruct (String.eqb a k) eqn:E;
             [apply String.eqb_eq in E|]
           end;
      subst; try reflexivity; discriminate.
  - intros k Hk. rewrite !df_get_set_other; [reflexivity|..];
      simpl in Hk; decompose [or] Hk; subst; try contradiction; reflexivity.
  - intros k Hk. unfold d_rapid. simpl in Hk. destruct Hk as [<-|[<-|[]]].
    + rewrite !(df_get_set_other "rapid_change") by reflexivity.
      now rewrite !df_get_set_same.
    + now rewrite !df_get_set_same.
Qed.

End RapidChangeErrors.

Lemma detect_rapid_changes_threshold_monotone_witness :
  exists (d1 d2 : DataFrame) (f1 f2 : list float),
    detect_rapid_changes (L := stable_library) three_beats 20 = Ok d1
    /\ detect_rapid_changes (L := stable_library) three_beats 30 = Ok d2
    /\ df_get "hr_change" d1 = df_get "hr_change" d2
    /\ df_get "rapid_change" d1 = Some (NumCol f1)
    /\ df_get "rapid_change" d2 = Some (NumCol f2)
    /\ length f1 = length f2
    /\ forall i, nth_error f2 i = Some (Fin 1) -> nth_error f1 i = Some (Fin 1).
Proof.
  apply (detect_rapid_changes_threshold_monotone (L := stable_library) three_beats 20 30
           [Fin 70; Fin 95; Fin 96]%R); [lra|reflexivity].
Defined.

(** Three records listed out of order, passed through both passes. *)
Lemma enrichment_passes_commute_witness :
  exists d_roll d_rapid a b : DataFrame,
    calculate_rolling_stats (L := stable_library)
      {| df_len := 3;
         df_cols := [("timestamp", TimeCol [1800; 0; 3600]%Z);
                     ("heartRate", NumCol [Fin 70; Fin 80; Fin 90]%R);
                     ("hrv", NumCol [Fin 50; Fin 55; NaN]%R)] |} 2 = Ok d_roll
    /\ detect_rapid_changes (L := stable_library)
         {| df_len := 3;
            df_cols := [("timestamp", TimeCol [1800; 0; 3600]%Z);
                        ("heartRate", NumCol [Fin 70; Fin 80; Fin 90]%R);
                        ("hrv", NumCol [Fin 50; Fin 55; NaN]%R)] |} 5 = Ok d_rapid
    /\ detect_rapid_changes (L := stable_library) d_roll 5 = Ok a
    /\ calculate_rolling_stats (L := stable_library) d_rapid 2 = Ok b
    /\ df_len a = df_len b
    /\ (forall k, df_get k a = df_get k b)
    /\ (forall k, In k ROLLING_COLUMNS -> df_get k a = df_get k d_roll)
    /\ (forall k, In k ["hr_change"; "rapid_change"] -> df_get k a = df_get k d_rapid).
Proof.
  apply (enrichment_passes_commute (L := stable_library) _ [1800; 0; 3600]%Z
           [Fin 70; Fin 80; Fin 90]%R [Fin 50; Fin 55; NaN]%R 2 5).
  - exact stable_library_sorts.
  - repeat constructor.
  - reflexivity.
  - repeat constructor; simpl; intuition lia.
  - reflexivity.
  - reflexivity.
  - lia.
Defined.

(** ** Anomaly detection: bounds and edge cases *)

Section AnomalyBounds.

Context {L : Library}.

Lemma nan_free_values (l : list float) :
  existsb is_nan l = false -> map Fin (finite_values l) = l.
Proof.
  induction l as [|[x|] l IH]; simpl; intros H;
    [reflexivity|now rewrite IH|discriminate].
Qed.

Lemma length_zscore (l : list float) : length (zscore l) = length l.
Proof.
  unfold zscore. destruct (existsb is_nan l) eqn:E; rewrite length_map; [reflexivity|].
  pose proof (f_equal (@length float) (nan_free_values l E)) as H.
  now rewrite length_map in H.
Qed.

Lemma filter_none {A} (l : list A) : List.filter (fun _ => false) l = [].
Proof. induction l as [|x l IH]; [reflexivity|exact IH]. Qed.

(** Chebyshev's count: if every flagged value has [n] times its squared
    deviation above [4 S], then [4 S] times the number of flagged values is
    at most [n] times the sum of all squared deviations, and below it when a
    value is flagged. *)
Lemma flagged_sum (m S n : R) (p : R -> bool) (l : list R) :
  (0 <= n)%R ->
  (forall x, In x l -> p x = true -> (4 * S < n * ((x - m) * (x - m)))%R) ->
  (4 * S * INR (length (List.filter p l))
   <= n * Rsum (map (fun x => ((x - m) * (x - m))%R) l))%R
  /\ (0 < length (List.filter p l) ->
      (4 * S * INR (length (List.filter p l))
       < n * Rsum (map (fun x => ((x - m) * (x - m))%R) l))%R).
Proof.
  intros Hn. induction l as [|x l IH]; intros Hp.
  - simpl. split; [lra|lia].
  - destruct (IH (fun y Hy => Hp y (or_intror Hy))) as [IH1 IH2].
    pose proof (Rle_0_sqr (x - m)) as Hsq. unfold Rsqr in Hsq.
    pose proof (Rmult_le_pos _ _ Hn Hsq) as Hnsq.
    simpl map. change (Rsum (?a :: ?b)) with (a + Rsum b)%R.
    simpl List.filter. destruct (p x) eqn:Ex.
    + pose proof (Hp x (or_introl eq_refl) Ex) as Hx.
      change (length (x :: ?t)) with (Datatypes.S (length t)). rewrite S_INR.
      split; [|intros _]; lra.
    + split; [lra|]. intros Hpos. specialize (IH2 Hpos). lra.
Qed.

(** Fewer than a quarter of the values of a batch lie more than two
    population standard deviations from its mean. *)
Lemma anomaly_count_bound (v : list float) :
  v <> [] ->
  4 * length (List.filter (fun b : bool => b)
                (map (fun s => fgt s (Fin anomaly_threshold)) (map fabs (zscore v))))
  < length v.
Proof.
  intros Hne.
  assert (Hlen : 0 < length v) by (destruct v; [contradiction|simpl; lia]).
  unfold zscore. destruct (existsb is_nan v) eqn:E.
  - rewrite !map_map, filter_true_map. simpl. rewrite filter_none. simpl. lia.
  - set (xs := finite_values v).
    assert (Hxs : length xs = length v).
    { pose proof (f_equal (@length float) (nan_free_values v E)) as H.
      now rewrite length_map in H. }
    rewrite !map_map, filter_true_map.
    change (fun x : R =>
              fgt (fabs (if Reqb (sqrt (variance 0 xs)) 0 then NaN
                         else Fin ((x - Rmean xs) / sqrt (variance 0 xs))))
                  (Fin anomaly_threshold))
      with (fun x => exceeds_threshold (population_zscore xs x)).
    set (p := fun x => exceeds_threshold (population_zscore xs x)).
    destruct (flagged_sum (Rmean xs) (sq_dev xs) (INR (length xs)) p xs (pos_INR _))
      as [_ Hstrict].
    { intros x Hx Hpx. unfold p, population_zscore in Hpx.
      apply (zscore_with_exceeds 0 xs x) in Hpx; [|lia|exact Hx].
      now rewrite Nat.sub_0_r in Hpx. }
    fold (sq_dev xs) in Hstrict.
    destruct (length (List.filter p xs)) as [|c] eqn:Ec; [lia|].
    specialize (Hstrict ltac:(lia)).
    pose proof (sq_dev_nonneg xs) as Hs.
    assert (Hc : (4 * INR (Datatypes.S c) < INR (length xs))%R).
    { destruct (Rle_lt_or_eq_dec _ _ Hs) as [Hpos|Hzero].
      - apply (Rmult_lt_reg_r (sq_dev xs)); [exact Hpos|]. lra.
      - rewrite <- Hzero in Hstrict. lra. }
    replace 4%R with (INR 4) in Hc by (simpl; lra).
    rewrite <- mult_INR in Hc. apply INR_lt in Hc. lia.
Qed.

Lemma length_mask_select {A} (mask : list bool) (l : list A) :
  length l = length mask ->
  length (mask_select mask l) = length (List.filter (fun b : bool => b) mask).
Proof.
  revert l. induction mask as [|b mask IH]; intros [|x l] Hlen; try discriminate.
  - reflexivity.
  - simpl in Hlen. destruct b; simpl; rewrite IH by lia; reflexivity.
Qed.

Lemma length_zip3 (a b c : list cell) :
  length b = length a -> length c = length a -> length (zip3 a b c) = length a.
Proof.
  revert b c. induction a as [|x a IH]; intros [|y b] [|z c] Hb Hc; try discriminate.
  - reflexivity.
  - simpl. rewrite IH; simpl in *; lia.
Qed.

(** The scores of a column are those of a list of numbers of its
    length. *)
Lemma zscore_column_scores (c : column) (z : list float) :
  zscore_column c = Ok z ->
  exists v, z = zscore v /\ length v = column_length c.
Proof.
  destruct c as [v|[|s v]|v]; simpl; try discriminate; intros [= <-].
  - exists v. split; [reflexivity|]. symmetry. apply numeric_column_length.
  - exists (map (fun t => Fin (IZR t)) v). split; [reflexivity|].
    rewrite length_map. symmetry. apply datetime_column_length.
Qed.

(** The anomaly block of a report that was returned. *)
Lemma anomaly_block_report (df : DataFrame) (a : Anomalies) :
  well_formed df ->
  snd (anomaly_block df) = Ok (Some a) ->
  4 * count a < df_len df
  /\ percentage a = (INR (count a) / INR (df_len df) * 100)%R
  /\ threshold a = 2%R
  /\ length (records a) = count a.
Proof.
  intros Hwf. unfold anomaly_block.
  destruct (df_get "heartRate" df) as [hrc|] eqn:Hhr; [|discriminate].
  pose proof (cols_get_length _ _ _ Hwf Hhr) as Lhr.
  destruct (zscore_column hrc) as [z|e] eqn:Hz; [|discriminate].
  cbv zeta. simpl df_len.
  destruct (Nat.eqb_spec (df_len df) 0) as [H0|H0]; [discriminate|].
  destruct (zscore_column_scores hrc z Hz) as (v & -> & Lv).
  rewrite Lhr in Lv.
  assert (Hne : v <> []) by (intros ->; simpl in Lv; congruence).
  pose proof (anomaly_count_bound v Hne) as Hbound. rewrite Lv in Hbound.
  set (mask := map (fun s => fgt s (Fin anomaly_threshold)) (map fabs (zscore v))) in *.
  set (df1 := df_set "hr_zscore" (NumCol (map fabs (zscore v))) df).
  assert (Hmask : length mask = df_len df).
  { unfold mask. now rewrite !length_map, length_zscore. }
  destruct (Nat.ltb_spec 0 (length (List.filter (fun b : bool => b) mask))) as [Hpos|Hnone].
  - unfold anomaly_records.
    replace (df_get "timestamp" df1) with (df_get "timestamp" df)
      by (unfold df1; now rewrite df_get_set_other by reflexivity).
    replace (df_get "heartRate" df1) with (Some hrc)
      by (unfold df1; now rewrite df_get_set_other by reflexivity).
    unfold df1 at 1. rewrite df_get_set_same.
    destruct (df_get "timestamp" df) as [tsc|] eqn:Hts; [|discriminate].
    pose proof (cols_get_length _ _ _ Hwf Hts) as Lts. unfold column_length in Lts, Lhr.
    intros [= <-]. simpl.
    repeat match goal with |- _ /\ _ => split end; try reflexivity; try assumption.
    rewrite length_zip3; rewrite !length_mask_select;
      try reflexivity; simpl; rewrite ?length_map, ?length_zscore; lia.
  - intros [= <-]. simpl.
    repeat match goal with |- _ /\ _ => split end; try reflexivity; try assumption.
    lia.
Qed.

Lemma analyze_data_anomalies (df : DataFrame) (r : Report) :
  snd (analyze_data df) = Ok r -> snd (anomaly_block df) = Ok (anomalies r).
Proof.
  unfold analyze_data.
  destruct (date_range_block df) as [dr|e]; [|discriminate].
  destruct (anomaly_block df) as [df1 [anom|e]]; [|discriminate].
  destruct (activity_block df1) as [[bd st]|e]; [|discriminate].
  now intros [= <-].
Qed.

(** X19 ([analyze_data], the anomalies of a report).  In every report
    returned for a well-formed frame fewer than a quarter of the records are
    anomalies: four times the count is below the number of records, the
    percentage is the count over the number of records times 100 and lies
    from 0 to below 25, the threshold is 2, and the list of anomalous
    records has as many entries as the count says.  (In exact arithmetic:
    rounding is not modelled.) *)
Theorem anomalies_under_a_quarter (df : DataFrame) (r : Report) (a : Anomalies) :
  well_formed df ->
  snd (analyze_data df) = Ok r ->
  anomalies r = Some a ->
  4 * count a < df_len df
  /\ percentage a = (INR (count a) / INR (df_len df) * 100)%R
  /\ (0 <= percentage a < 25)%R
  /\ threshold a = 2%R
  /\ length (records a) = count a.
Proof.
  intros Hwf Hrun Ha. apply analyze_data_anomalies in Hrun. rewrite Ha in Hrun.
  destruct (anomaly_block_report df a Hwf Hrun) as (Hc & Hp & Ht & Hr).
  repeat match goal with |- _ /\ _ => split end; try assumption.
  - rewrite Hp. apply Rmult_le_pos; [|lra].
    apply Rmult_le_pos; [apply pos_INR|].
    apply Rlt_le, Rinv_0_lt_compat, lt_0_INR. lia.
  - rewrite Hp.
    assert (Hn : (0 < INR (df_len df))%R) by (apply lt_0_INR; lia).
    apply lt_INR in Hc. rewrite mult_INR in Hc.
    replace (INR 4) with 4%R in Hc by (simpl; lra).
    apply (Rmult_lt_reg_r (INR (df_len df))); [exact Hn|].
    replace (INR (count a) / INR (df_len df) * 100 * INR (df_len df))%R
      with (100 * INR (count a))%R by (field; lra).
    lra.
Qed.

Lemma filter_nil_iff {A} (p : A -> bool) (l : list A) :
  List.filter p l = [] <-> forall x, In x l -> p x = false.
Proof.
  induction l as [|x l IH]; simpl.
  - split; [intros _ y []|reflexivity].
  - destruct (p x) eqn:E.
    + split; [discriminate|]. intros H. specialize (H x (or_introl eq_refl)). congruence.
    + rewrite IH. split.
      * intros H y [<-|Hy]; auto.
      * intros H y Hy. apply H. now right.
Qed.

(** X20 ([analyze_data] on a frame without timestamps).  With numeric heart
    rates and no [timestamp] column the analysis returns a report exactly
    when no heart rate is an anomaly; as soon as one is, building the list of
    anomalous records raises [KeyError] for the missing column.  Either way
    the caller's frame has received the column [hr_zscore].  The scores are
    the exact real quotients: a heart rate whose score is exactly 2 (as 62
    among 60, 60, 60, 60, 62) is no anomaly here, where the doubles of the
    code, which round, can put it a little above 2 and raise. *)
Theorem analyze_data_without_timestamp (df : DataFrame) (xs : list R) :
  df_get "timestamp" df = None ->
  df_get "heartRate" df = Some (NumCol (map Fin xs)) ->
  df_len df <> 0 ->
  df_get "hr_zscore" (fst (analyze_data df))
  = Some (NumCol (map (fun x => fabs (population_zscore xs x)) xs))
  /\ ((exists x, In x xs /\ exceeds_threshold (population_zscore xs x) = true) ->
      snd (analyze_data df) = Raise (KeyError "timestamp"))
  /\ ((forall x, In x xs -> exceeds_threshold (population_zscore xs x) = false) ->
      exists r, snd (analyze_data df) = Ok r
                /\ anomalies r = Some no_anomalies
                /\ date_range (summary r) = None).
Proof.
  intros Hts Hhr Hlen.
  set (p := fun x => exceeds_threshold (population_zscore xs x)).
  set (df1 := df_set "hr_zscore" (NumCol (map (fun x => fabs (population_zscore xs x)) xs)) df).
  assert (Hdr : date_range_block df = Ok None)
    by (unfold date_range_block; now rewrite Hts).
  assert (Hblock : anomaly_block df
                   = if (0 <? length (List.filter p xs))%nat
                     then (df1, Raise (KeyError "timestamp"))
                     else (df1, Ok (Some {| count := length (List.filter p xs);
                                            percentage := (INR (length (List.filter p xs))
                                                           / INR (df_len df) * 100)%R;
                                            threshold := anomaly_threshold;
                                            records := [] |}))).
  { unfold anomaly_block. rewrite Hhr. cbv zeta. simpl zscore_column.
    rewrite zscore_population, !map_map.
    change (fun x : R => fgt (fabs (population_zscore xs x)) (Fin anomaly_threshold))
      with p.
    rewrite filter_true_map. simpl df_len.
    destruct (Nat.eqb_spec (df_len df) 0) as [H0|_]; [contradiction|].
    fold df1.
    destruct (0 <? length (List.filter p xs))%nat; [|reflexivity].
    unfold anomaly_records.
    replace (df_get "timestamp" df1) with (@None column)
      by (unfold df1; now rewrite df_get_set_other by reflexivity).
    reflexivity. }
  repeat match goal with |- _ /\ _ => split end.
  - rewrite analyze_data_frame, Hdr, anomaly_block_frame, Hhr. simpl zscore_column.
    rewrite zscore_population, map_map. apply df_get_set_same.
  - intros (x & Hx & Hpx). unfold analyze_data. rewrite Hdr, Hblock.
    assert (Hin : In x (List.filter p xs)) by (apply filter_In; now split).
    destruct (List.filter p xs) as [|y l]; [contradiction|]. reflexivity.
  - intros Hnone. unfold analyze_data. rewrite Hdr, Hblock.
    assert (Hnil : List.filter p xs = []) by (apply filter_nil_iff; exact Hnone).
    rewrite Hnil. change (0 <? length (@nil R))%nat with false. cbv iota.
    destruct (activity_block_numeric df1 (map Fin xs)) as (bd & st & Hact).
    { unfold df1. rewrite df_get_set_other by reflexivity. exact Hhr. }
    rewrite Hact. eexists. split; [reflexivity|]. simpl. split; [|reflexivity].
    unfold no_anomalies. do 2 f_equal. unfold Rdiv. now rewrite !Rmult_0_l.
Qed.

Lemma map_const_repeat {A B} (b : B) (l : list A) :
  map (fun _ => b) l = repeat b (length l).
Proof. induction l as [|x l IH]; simpl; [|rewrite IH]; reflexivity. Qed.

(** X21 ([analyze_data] with a missing heart rate).  One missing value in
    a numeric heart-rate column makes every z-score undefined: on a batch
    with at least one record the column [hr_zscore] is NaN throughout and
    the anomaly block reports no anomaly, whatever the other heart rates
    are; the analysis returns whenever the date range can be computed. *)
Theorem missing_heart_rate_hides_anomalies (df : DataFrame) (v : list float) :
  df_len df <> 0 ->
  df_get "heartRate" df = Some (NumCol v) ->
  In NaN v ->
  anomaly_block df
  = (df_set "hr_zscore" (NumCol (repeat NaN (length v))) df, Ok (Some no_anomalies))
  /\ (forall dr, date_range_block df = Ok dr ->
        exists r, analyze_data df
                  = (df_set "hr_zscore" (NumCol (repeat NaN (length v))) df, Ok r)
                  /\ anomalies r = Some no_anomalies).
Proof.
  intros Hlen Hhr Hnan.
  assert (Hz : zscore v = repeat NaN (length v)).
  { unfold zscore.
    assert (E : existsb is_nan v = true) by (apply existsb_exists; now exists NaN).
    rewrite E. apply map_const_repeat. }
  assert (Hblock : anomaly_block df
                   = (df_set "hr_zscore" (NumCol (repeat NaN (length v))) df,
                      Ok (Some no_anomalies))).
  { unfold anomaly_block. rewrite Hhr. cbv zeta. simpl zscore_column.
    rewrite Hz, !map_repeat. simpl fabs. simpl fgt.
    rewrite filter_repeat_false. simpl df_len.
    destruct (Nat.eqb_spec (df_len df) 0) as [H0|_]; [contradiction|].
    simpl. unfold no_anomalies. do 3 f_equal.
    unfold Rdiv. now rewrite !Rmult_0_l. }
  split; [exact Hblock|].
  intros dr Hdr. unfold analyze_data. rewrite Hdr, Hblock.
  destruct (activity_block_numeric
              (df_set "hr_zscore" (NumCol (repeat NaN (length v))) df) v)
    as (bd & st & Hact).
  { rewrite df_get_set_other by reflexivity. exact Hhr. }
  rewrite Hact. eexists. split; reflexivity.
Qed.

End AnomalyBounds.

(** The batch of six: one anomaly among six records. *)
Lemma anomalies_under_a_quarter_witness :
  exists (r : Report) (a : Anomalies),
    snd (analyze_data (L := stable_library) six_beats) = Ok r
    /\ anomalies r = Some a
    /\ 4 * count a < 6
    /\ (0 <= percentage a < 25)%R
    /\ length (records a) = count a.
Proof.
  destruct (analyze_data_numeric (L := stable_library) six_beats [0; 300; 600; 900; 1200; 1500]%Z six_rates
              six_beats_well_formed eq_refl eq_refl ltac:(simpl; lia))
    as (dr & bd & st & Hrun).
  pose proof (f_equal snd Hrun) as Hsnd. simpl snd in Hsnd.
  destruct (anomalies_under_a_quarter (L := stable_library) six_beats _ _ six_beats_well_formed Hsnd eq_refl)
    as (Hc & _ & Hp & _ & Hr).
  eexists _, _. split; [exact Hsnd|]. split; [reflexivity|].
  split; [exact Hc|]. split; [exact Hp|exact Hr].
Defined.

(** The six heart rates without their timestamps: the record at 70 bpm is
    an anomaly, and the analysis raises. *)
Lemma analyze_data_without_timestamp_witness :
  snd (analyze_data (L := stable_library) {| df_len := 6;
                       df_cols := [("heartRate", NumCol (map Fin six_rates))] |})
  = Raise (KeyError "timestamp").
Proof.
  destruct (analyze_data_without_timestamp (L := stable_library)
              {| df_len := 6; df_cols := [("heartRate", NumCol (map Fin six_rates))] |}
              six_rates eq_refl eq_refl ltac:(discriminate)) as (_ & Hraise & _).
  apply Hraise. exists 70%R. split; [simpl; auto 10|].
  apply (six_rates_exceeds 0 70); [lia|simpl; auto 10|simpl; lra].
Defined.

(** Heart rates 60, 60, 60, missing and 200. *)
Lemma missing_heart_rate_hides_anomalies_witness :
  exists r,
    snd (analyze_data (L := stable_library)
           {| df_len := 5;
              df_cols := [("heartRate",
                           NumCol [Fin 60; Fin 60; Fin 60; NaN; Fin 200]%R)] |}) = Ok r
    /\ anomalies r = Some no_anomalies.
Proof.
  destruct (missing_heart_rate_hides_anomalies (L := stable_library)
              {| df_len := 5;
                 df_cols := [("heartRate",
                              NumCol [Fin 60; Fin 60; Fin 60; NaN; Fin 200]%R)] |}
              [Fin 60; Fin 60; Fin 60; NaN; Fin 200]%R
              ltac:(discriminate) eq_refl ltac:(simpl; auto 10))
    as [_ Hrun].
  destruct (Hrun None eq_refl) as (r & Hr & Ha).
  exists r. split; [now rewrite Hr|exact Ha].
Defined.

(** ** The report: date range, activity totals and activity statistics *)

Section ReportBlocks.

Context {L : Library}.

Lemma fold_left_Zmin_le (xs : list Z) (x : Z) :
  (fold_left Z.min xs x <= x)%Z
  /\ (forall y, In y xs -> (fold_left Z.min xs x <= y)%Z)
  /\ In (fold_left Z.min xs x) (x :: xs).
Proof.
  revert x. induction xs as [|a xs IH]; intros x; simpl.
  - repeat split; [lia|contradiction|now left].
  - destruct (IH (Z.min x a)) as (H1 & H2 & H3).
    repeat split.
    + lia.
    + intros y [<-|Hy]; [lia|now apply H2].
    + destruct H3 as [H3|H3]; [|now right; right].
      rewrite <- H3. destruct (Z.min_spec x a) as [[_ ->]|[_ ->]]; [now left|right; now left].
Qed.

Lemma fold_left_Zmax_ge (xs : list Z) (x : Z) :
  (x <= fold_left Z.max xs x)%Z
  /\ (forall y, In y xs -> (y <= fold_left Z.max xs x)%Z)
  /\ In (fold_left Z.max xs x) (x :: xs).
Proof.
  revert x. induction xs as [|a xs IH]; intros x; simpl.
  - repeat split; [lia|contradiction|now left].
  - destruct (IH (Z.max x a)) as (H1 & H2 & H3).
    repeat split.
    + lia.
    + intros y [<-|Hy]; [lia|now apply H2].
    + destruct H3 as [H3|H3]; [|now right; right].
      rewrite <- H3. destruct (Z.max_spec x a) as [[_ ->]|[_ ->]]; [right; now left|now left].
Qed.

Lemma analyze_data_date_range (df : DataFrame) (r : Report) :
  snd (analyze_data df) = Ok r ->
  date_range_block df = Ok (date_range (summary r)).
Proof.
  unfold analyze_data.
  destruct (date_range_block df) as [dr|e]; [|discriminate].
  destruct (anomaly_block df) as [df1 [anom|e]]; [|discriminate].
  destruct (activity_block df1) as [[bd st]|e]; [|discriminate].
  now intros [= <-].
Qed.

(** X22 ([analyze_data], the date range).  In a report on a batch with
    datetime timestamps the date range starts at the earliest and ends at
    the latest timestamp of the batch, in whatever order the records come;
    its duration is their distance in hours and is not negative. *)
Theorem date_range_spans_timestamps (df : DataFrame) (ts : list Z) (r : Report) :
  df_get "timestamp" df = Some (TimeCol ts) ->
  ts <> [] ->
  snd (analyze_data df) = Ok r ->
  exists lo hi : Z,
    date_range (summary r)
    = Some {| dr_start := Some lo; dr_end := Some hi;
              duration_hours := Fin (IZR (hi - lo) / 3600) |}
    /\ In lo ts /\ In hi ts
    /\ (forall t, In t ts -> (lo <= t <= hi)%Z)
    /\ (0 <= IZR (hi - lo) / 3600)%R.
Proof.
  intros Hts Hne Hrun. apply analyze_data_date_range in Hrun.
  unfold date_range_block in Hrun. rewrite Hts in Hrun.
  destruct ts as [|t ts]; [contradiction|].
  injection Hrun as Hdr. unfold Zmin_list, Zmax_list in Hdr.
  destruct (fold_left_Zmin_le ts t) as (A1 & A2 & A3).
  destruct (fold_left_Zmax_ge ts t) as (B1 & B2 & B3).
  exists (fold_left Z.min ts t), (fold_left Z.max ts t).
  split; [now rewrite <- Hdr|]. split; [exact A3|]. split; [exact B3|].
  split.
  - intros u [<-|Hu]; split; auto.
  - assert (H : (0 <= IZR (fold_left Z.max ts t - fold_left Z.min ts t))%R)
      by (apply IZR_le; lia).
    lra.
Qed.

Lemma cell_eqb_sym (a b : cell) : cell_eqb a b = cell_eqb b a.
Proof.
  destruct a as [[x|]|s|t], b as [[y|]|s'|t']; simpl; try reflexivity.
  - unfold Reqb. destruct (Req_dec_T x y), (Req_dec_T y x); congruence.
  - apply String.eqb_sym.
  - apply Z.eqb_sym.
Qed.

Lemma list_sum_perm (l m : list nat) : Permutation l m -> list_sum l = list_sum m.
Proof. induction 1; simpl; lia. Qed.

(** Splitting a sum over distinct keys at one key. *)
Lemma sum_split_key (x : cell) (f : cell -> nat) (d : list cell) :
  List.NoDup d ->
  (forall k, In k d -> is_missing k = false) ->
  list_sum (map f d)
  = (if existsb (cell_eqb x) d then f x else 0)
    + list_sum (map f (List.filter (fun y => negb (cell_eqb x y)) d)).
Proof.
  induction 1 as [|k d Hk Hd IH]; intros Hpresent; [reflexivity|].
  specialize (IH (fun y Hy => Hpresent y (or_intror Hy))).
  simpl. destruct (cell_eqb x k) eqn:E; simpl.
  - apply cell_eqb_eq in E. subst k.
    assert (Hnot : existsb (cell_eqb x) d = false).
    { apply not_true_is_false. intros H. apply existsb_exists in H.
      destruct H as (y & Hy & Hxy). apply cell_eqb_eq in Hxy. now subst y. }
    rewrite Hnot in IH. lia.
  - lia.
Qed.

Lemma occurrences_cons (k x : cell) (l : list cell) :
  occurrences k (x :: l) = (if cell_eqb k x then 1 else 0) + occurrences k l.
Proof. unfold occurrences. simpl. now destruct (cell_eqb k x). Qed.

Lemma occurrences_absent (x : cell) (l : list cell) :
  is_missing x = false ->
  existsb (cell_eqb x) (distinct l) = false -> occurrences x l = 0.
Proof.
  intros Hx Hnot. unfold occurrences.
  destruct (List.filter (cell_eqb x) l) as [|y t] eqn:E; [reflexivity|].
  assert (Hy : In y (List.filter (cell_eqb x) l)) by (rewrite E; now left).
  apply filter_In in Hy. destruct Hy as [Hin Hxy].
  apply cell_eqb_eq in Hxy. subst y.
  assert (H : existsb (cell_eqb x) (distinct l) = true).
  { apply existsb_exists. exists x. split; [now apply distinct_In|now apply cell_eqb_refl]. }
  congruence.
Qed.

(** The occurrences of the distinct values of a list add up to its
    length. *)
Lemma occurrences_distinct_sum (l : list cell) :
  (forall x, In x l -> is_missing x = false) ->
  list_sum (map (fun k => occurrences k l) (distinct l)) = length l.
Proof.
  induction l as [|x t IH]; intros Hpresent; [reflexivity|].
  assert (Hx : is_missing x = false) by (apply Hpresent; now left).
  assert (Ht : forall y, In y t -> is_missing y = false)
    by (intros y Hy; apply Hpresent; now right).
  specialize (IH Ht).
  simpl distinct. simpl map. simpl list_sum.
  rewrite occurrences_cons, (cell_eqb_refl x Hx).
  assert (Hrest : map (fun k => occurrences k (x :: t))
                      (List.filter (fun y => negb (cell_eqb x y)) (distinct t))
                  = map (fun k => occurrences k t)
                        (List.filter (fun y => negb (cell_eqb x y)) (distinct t))).
  { apply map_ext_in. intros k Hk. apply filter_In in Hk. destruct Hk as [_ Hk].
    rewrite occurrences_cons, cell_eqb_sym.
    destruct (cell_eqb x k); [discriminate|reflexivity]. }
  rewrite Hrest.
  pose proof (sum_split_key x (fun k => occurrences k t) (distinct t)
                (distinct_NoDup t Ht)
                (fun k Hk => Ht k (proj1 (distinct_In t k) Hk))) as Hsplit.
  rewrite IH in Hsplit.
  destruct (existsb (cell_eqb x) (distinct t)) eqn:E.
  - simpl length. lia.
  - rewrite (occurrences_absent x t Hx E). simpl length. lia.
Qed.

Lemma value_counts_total (l : list cell) :
  list_sum (map snd (value_counts l)) = length (present_cells l).
Proof.
  rewrite (list_sum_perm _ _ (Permutation_map snd (value_counts_perm l))).
  rewrite map_map. simpl.
  apply occurrences_distinct_sum. intros x Hx. now apply (present_cells_not_missing l).
Qed.

Lemma length_present_cells (l : list cell) :
  length (present_cells l) <= length l
  /\ ((forall c, In c l -> is_missing c = false) -> present_cells l = l).
Proof.
  unfold present_cells. split; [apply filter_length_le|].
  intros H. induction l as [|x l IH]; [reflexivity|].
  simpl. rewrite (H x (or_introl eq_refl)). simpl. f_equal.
  apply IH. intros c Hc. apply H. now right.
Qed.

Lemma Rsum_percentages (n : R) (counts : list (cell * nat)) :
  Rsum (map (fun kc : cell * nat => (INR (snd kc) / n * 100)%R) counts)
  = (INR (list_sum (map snd counts)) / n * 100)%R.
Proof.
  induction counts as [|[k c] counts IH]; simpl.
  - unfold Rdiv. now rewrite !Rmult_0_l.
  - rewrite IH, plus_INR. unfold Rdiv. ring.
Qed.

(** X23 ([analyze_data], the activity breakdown).  The counts of the
    breakdown add up to the number of records that have an activity, which
    is at most the number of records of a well-formed frame.  When no record
    lacks its activity (as in every text column) the counts add up to the
    number of records, and on a batch with at least one record the
    percentages add up to 100 (in exact arithmetic). *)
Theorem activity_breakdown_totals (df : DataFrame) (act : column) (r : Report) :
  well_formed df ->
  df_get "activity" df = Some act ->
  snd (analyze_data df) = Ok r ->
  let total := list_sum (map (fun e : cell * ActivityInfo => act_count (snd e))
                             (activity_breakdown r)) in
  total = length (present_cells (column_cells act))
  /\ total <= df_len df
  /\ ((forall c, In c (column_cells act) -> is_missing c = false) ->
      total = df_len df
      /\ (df_len df <> 0 ->
          Rsum (map (fun e : cell * ActivityInfo => act_percentage (snd e))
                    (activity_breakdown r)) = 100%R)).
Proof.
  intros Hwf Hact Hrun total.
  pose proof (analyze_data_breakdown df act r Hact Hrun) as Hbd.
  pose proof (cols_get_length _ _ _ Hwf Hact) as Hlen. unfold column_length in Hlen.
  destruct (length_present_cells (column_cells act)) as [Hle Hall].
  assert (Htotal : total = length (present_cells (column_cells act))).
  { unfold total. rewrite Hbd. unfold breakdown_of. rewrite map_map. simpl.
    apply value_counts_total. }
  split; [exact Htotal|]. split; [lia|].
  intros Hpresent. rewrite (Hall Hpresent) in Htotal.
  split; [lia|]. intros Hn.
  rewrite Hbd. unfold breakdown_of. rewrite map_map. simpl.
  rewrite Rsum_percentages, value_counts_total, (Hall Hpresent), Hlen.
  field. apply not_0_INR. exact Hn.
Qed.

Lemma analyze_data_activity_stats (df : DataFrame) (act : column) (hr : list float)
    (r : Report) :
  df_get "activity" df = Some act ->
  df_get "heartRate" df = Some (NumCol hr) ->
  snd (analyze_data df) = Ok r ->
  activity_stats r = Some (groupby_heart_rate (column_cells act) hr).
Proof.
  intros Hact Hhr. unfold analyze_data.
  destruct (date_range_block df) as [dr|e]; [|discriminate].
  destruct (anomaly_block_touches df) as [Hlen Hget].
  destruct (anomaly_block df) as [df1 [anom|e]]; [|discriminate].
  simpl in Hlen, Hget. unfold activity_block.
  rewrite (Hget "activity" eq_refl), Hact, (Hget "heartRate" eq_refl), Hhr.
  now intros [= <-].
Qed.

Lemma cell_ltb_asym (a b : cell) : cell_ltb a b = true -> cell_ltb b a = false.
Proof.
  destruct a as [[x|]|s|t], b as [[y|]|s'|t']; simpl; try discriminate.
  - unfold Rltb. destruct (Rlt_dec x y), (Rlt_dec y x); try reflexivity; try discriminate.
    lra.
  - unfold String.ltb. rewrite (String.compare_antisym s' s).
    now destruct (String.compare s s').
  - intros H. apply Z.ltb_lt in H. apply Z.ltb_ge. lia.
Qed.

(** X24 ([analyze_data], the statistics by activity).  In a report on a
    batch with an activity column and numeric heart rates the key
    [activity_stats] is set; it has one entry for each activity of the
    breakdown, in ascending order of the activity (the breakdown is ordered
    by count).  An entry whose group has at most one heart rate has an
    undefined standard deviation, and only such an entry has; the mean of a
    group lies between its minimum and its maximum (in exact arithmetic). *)
Theorem activity_stats_by_activity
    (df : DataFrame) (act : column) (hr : list float) (r : Report) :
  df_get "activity" df = Some act ->
  df_get "heartRate" df = Some (NumCol hr) ->
  snd (analyze_data df) = Ok r ->
  exists st : list (cell * ActivityStats),
    activity_stats r = Some st
    /\ Permutation (map fst st) (map fst (activity_breakdown r))
    /\ Sorted (fun a b : cell => cell_ltb b a = false) (map fst st)
    /\ forall k s, In (k, s) st ->
         let g := group_values k (column_cells act) hr in
         mean_hr s = series_mean g /\ min_hr s = series_min g /\ max_hr s = series_max g
         /\ (std_hr s = NaN <-> length (finite_values g) <= 1)
         /\ (forall mn mx m, min_hr s = Fin mn -> max_hr s = Fin mx -> mean_hr s = Fin m ->
               (mn <= m <= mx)%R).
Proof.
  intros Hact Hhr Hrun.
  exists (groupby_heart_rate (column_cells act) hr).
  split; [now apply (analyze_data_activity_stats df act hr r)|].
  assert (Hkeys : map fst (groupby_heart_rate (column_cells act) hr)
                  = stable_sort cell_ltb (distinct (present_cells (column_cells act)))).
  { unfold groupby_heart_rate. rewrite map_map. simpl. apply map_id. }
  split; [|split].
  - rewrite Hkeys, (analyze_data_breakdown df act r Hact Hrun).
    unfold breakdown_of. rewrite map_map. simpl.
    change (map (fun x : cell * nat => fst x) (value_counts (column_cells act)))
      with (map fst (value_counts (column_cells act))).
    rewrite (Permutation_map fst (value_counts_perm (column_cells act))), map_fst_counts.
    apply stable_sort_perm.
  - rewrite Hkeys. apply stable_sort_sorted.
    + intros y x H. now apply cell_ltb_asym.
    + intros y x H. exact H.
  - intros k s Hin g. unfold groupby_heart_rate in Hin.
    apply in_map_iff in Hin. destruct Hin as (k' & [= <- <-] & _).
    fold g. simpl.
    split; [reflexivity|]. split; [reflexivity|]. split; [reflexivity|].
    split; [apply (proj1 (series_std_nonneg g))|].
    intros mn mx m Hmn Hmx Hm.
    assert (Hne : finite_values g <> []).
    { intros E. unfold series_mean in Hm. rewrite E in Hm. discriminate. }
    destruct (series_min_max g Hne) as (mn' & mx' & Hmn' & Hmx' & _ & _ & Hb).
    rewrite Hmn in Hmn'. rewrite Hmx in Hmx'. injection Hmn' as <-. injection Hmx' as <-.
    unfold series_mean in Hm. destruct (finite_values g) as [|x xs] eqn:E; [contradiction|].
    injection Hm as <-. apply Rmean_bounds; [discriminate|exact Hb].
Qed.

End ReportBlocks.

Lemma date_range_spans_timestamps_witness :
  exists (r : Report) (lo hi : Z),
    snd (analyze_data (L := stable_library) six_beats) = Ok r
    /\ date_range (summary r)
       = Some {| dr_start := Some lo; dr_end := Some hi;
                 duration_hours := Fin (IZR (hi - lo) / 3600) |}
    /\ (forall t, In t [0; 300; 600; 900; 1200; 1500]%Z -> (lo <= t <= hi)%Z).
Proof.
  destruct (analyze_data_numeric (L := stable_library) six_beats [0; 300; 600; 900; 1200; 1500]%Z six_rates
              six_beats_well_formed eq_refl eq_refl ltac:(simpl; lia))
    as (dr & bd & st & Hrun).
  pose proof (f_equal snd Hrun) as Hsnd. simpl snd in Hsnd.
  destruct (date_range_spans_timestamps (L := stable_library) six_beats [0; 300; 600; 900; 1200; 1500]%Z _
              eq_refl ltac:(discriminate) Hsnd) as (lo & hi & Hdr & _ & _ & Hall & _).
  eexists _, lo, hi. split; [exact Hsnd|]. split; [exact Hdr|exact Hall].
Defined.

Lemma activity_breakdown_totals_witness :
  exists r : Report,
    snd (analyze_data (L := stable_library) walk_rest_rest) = Ok r
    /\ list_sum (map (fun e : cell * ActivityInfo => act_count (snd e))
                     (activity_breakdown r)) = 3
    /\ Rsum (map (fun e : cell * ActivityInfo => act_percentage (snd e))
                 (activity_breakdown r)) = 100%R.
Proof.
  assert (Hrun : exists r, snd (analyze_data (L := stable_library) walk_rest_rest) = Ok r)
    by (eexists; reflexivity).
  destruct Hrun as [r Hrun].
  destruct (activity_breakdown_totals (L := stable_library) walk_rest_rest
              (ObjCol ["walking"; "resting"; "resting"]) r
              ltac:(repeat constructor) eq_refl Hrun) as (_ & _ & Hall).
  destruct Hall as [Hcount Hpct].
  { intros c Hc. simpl in Hc. decompose [or] Hc; subst; try contradiction; reflexivity. }
  exists r. split; [exact Hrun|]. split; [exact Hcount|].
  apply Hpct. discriminate.
Defined.

(** Walking once at 100 bpm, then resting at 60 and 62 bpm. *)
Lemma activity_stats_by_activity_witness :
  exists (r : Report) (st : list (cell * ActivityStats)),
    snd (analyze_data (L := stable_library)
           {| df_len := 3;
              df_cols := [("timestamp", TimeCol [0; 300; 600]%Z);
                          ("activity", ObjCol ["walking"; "resting"; "resting"]);
                          ("heartRate", NumCol [Fin 100; Fin 60; Fin 62]%R)] |}) = Ok r
    /\ activity_stats r = Some st
    /\ Permutation (map fst st) (map fst (activity_breakdown r))
    /\ Sorted (fun a b : cell => cell_ltb b a = false) (map fst st).
Proof.
  destruct (analyze_data_numeric (L := stable_library)
              {| df_len := 3;
                 df_cols := [("timestamp", TimeCol [0; 300; 600]%Z);
                             ("activity", ObjCol ["walking"; "resting"; "resting"]);
                             ("heartRate", NumCol [Fin 100; Fin 60; Fin 62]%R)] |}
              [0; 300; 600]%Z [100; 60; 62]%R
              ltac:(repeat constructor) eq_refl eq_refl ltac:(simpl; lia))
    as (dr & bd & st0 & Hrun).
  pose proof (f_equal snd Hrun) as Hsnd. simpl snd in Hsnd.
  destruct (activity_stats_by_activity (L := stable_library)
              {| df_len := 3;
                 df_cols := [("timestamp", TimeCol [0; 300; 600]%Z);
                             ("activity", ObjCol ["walking"; "resting"; "resting"]);
                             ("heartRate", NumCol [Fin 100; Fin 60; Fin 62]%R)] |}
              (ObjCol ["walking"; "resting"; "resting"])
              [Fin 100; Fin 60; Fin 62]%R _ eq_refl eq_refl Hsnd)
    as (st & Hst & Hperm & Hsorted & _).
  eexists _, st. split; [exact Hsnd|]. split; [exact Hst|]. split; assumption.
Defined.

(** ** The report: a second run, and when a report is returned *)

Section SecondRun.

Context {L : Library}.

Lemma date_range_block_ext (df df' : DataFrame) :
  df_get "timestamp" df' = df_get "timestamp" df ->
  date_range_block df' = date_range_block df.
Proof. intros H. unfold date_range_block. now rewrite H. Qed.

(** Run on the frame it has left, the anomaly block does the same again. *)
Lemma anomaly_block_again (df d : DataFrame) (res : option Anomalies) :
  anomaly_block df = (d, Ok res) -> anomaly_block d = (d, Ok res).
Proof.
  intros H. pose proof (anomaly_block_frame df) as Hframe.
  rewrite H in Hframe. simpl fst in Hframe.
  unfold anomaly_block in H.
  destruct (df_get "heartRate" df) as [hrc|] eqn:Hhr.
  - destruct (zscore_column hrc) as [z|e] eqn:Hz; [|discriminate].
    cbv zeta in H. simpl df_len in H. subst d.
    unfold anomaly_block.
    rewrite (df_get_set_other "hr_zscore" "heartRate") by reflexivity.
    rewrite Hhr, Hz. cbv zeta.
    rewrite (df_set_same "hr_zscore" (NumCol (map fabs z))) by apply df_get_set_same.
    simpl df_len. exact H.
  - subst d. unfold anomaly_block. now rewrite Hhr.
Qed.

Lemma numeric_statistics_In (k : string) (v : list float) (cs : list (string * column)) :
  cols_get k cs = Some (NumCol v) -> In k (map fst (numeric_statistics cs)).
Proof.
  induction cs as [|[k0 c0] cs IH]; simpl; [discriminate|].
  destruct (String.eqb_spec k0 k) as [->|Hne].
  - intros [= ->]. now left.
  - intros H. specialize (IH H). destruct c0; simpl; auto.
Qed.

Lemma numeric_statistics_columns (k : string) (cs : list (string * column)) :
  In k (map fst (numeric_statistics cs)) -> In k (map fst cs).
Proof.
  induction cs as [|[k0 c0] cs IH]; simpl; [auto|].
  destruct c0; simpl; intros H; try (right; now apply IH).
  destruct H as [H|H]; [now left|right; now apply IH].
Qed.

(** X25 ([analyze_data] called twice on the same frame).  After a call
    that returned a report, a second call on the frame the first one left
    returns a report too and leaves the frame as it is.  The two reports
    have the same record count, date range, anomalies, activity breakdown
    and activity statistics, but when the frame has a heart-rate column the
    second report lists the column [hr_zscore] among the columns and in the
    statistics, which the first report of a frame without that column does
    not. *)
Theorem analyze_data_twice (df df1 : DataFrame) (r : Report) :
  analyze_data df = (df1, Ok r) ->
  exists r2 : Report,
    analyze_data df1 = (df1, Ok r2)
    /\ total_records (summary r2) = total_records (summary r)
    /\ date_range (summary r2) = date_range (summary r)
    /\ anomalies r2 = anomalies r
    /\ activity_breakdown r2 = activity_breakdown r
    /\ activity_stats r2 = activity_stats r
    /\ columns (summary r2) = df_columns df1
    /\ statistics r2 = statistics_block df1
    /\ (df_has "heartRate" df = true ->
        In "hr_zscore" (columns (summary r2))
        /\ In "hr_zscore" (map fst (statistics r2)))
    /\ (df_has "hr_zscore" df = false ->
        ~ In "hr_zscore" (columns (summary r))
        /\ ~ In "hr_zscore" (map fst (statistics r))).
Proof.
  intros Hrun.
  pose proof (anomaly_block_touches df) as [Hlen Hget].
  pose proof (anomaly_block_frame df) as Hframe.
  unfold analyze_data in Hrun.
  destruct (date_range_block df) as [dr|e] eqn:Hdr; [|discriminate].
  destruct (anomaly_block df) as [d [anom|e]] eqn:Hab; [|discriminate].
  destruct (activity_block d) as [[bd st]|e] eqn:Hact; [|discriminate].
  injection Hrun as <- <-. simpl in Hlen, Hget, Hframe.
  pose proof (anomaly_block_again df d anom Hab) as Hagain.
  assert (Hdr' : date_range_block d = Ok dr).
  { rewrite (date_range_block_ext df d (Hget "timestamp" eq_refl)). exact Hdr. }
  eexists. split.
  { unfold analyze_data. rewrite Hdr', Hagain, Hact. reflexivity. }
  simpl. repeat match goal with |- _ /\ _ => split end; try reflexivity.
  - exact Hlen.
  - intros Hhas. unfold df_has in Hhas.
    destruct (df_get "heartRate" df) as [hrc|] eqn:Hhr; [|discriminate].
    destruct (zscore_column hrc) as [z|e] eqn:Hz.
    + assert (Hcol : df_get "hr_zscore" d = Some (NumCol (map fabs z)))
        by (rewrite Hframe; apply df_get_set_same).
      split.
      * apply df_has_In. unfold df_has. now rewrite Hcol.
      * unfold statistics_block. now apply (numeric_statistics_In _ (map fabs z)).
    + exfalso. unfold anomaly_block in Hab. rewrite Hhr, Hz in Hab. discriminate.
  - intros Hhas.
    assert (Hnot : ~ In "hr_zscore" (df_columns df)).
    { intros H. apply df_has_In in H. congruence. }
    split; [exact Hnot|].
    intros H. apply Hnot. unfold statistics_block in H.
    now apply numeric_statistics_columns.
Qed.

Lemma date_range_block_returns_iff (df : DataFrame) :
  is_ok (date_range_block df) = true
  <-> (df_get "timestamp" df = None
       \/ exists ts, df_get "timestamp" df = Some (TimeCol ts)).
Proof.
  unfold date_range_block.
  destruct (df_get "timestamp" df) as [[v|[|s v]|[|t v]]|]; simpl; split;
    try discriminate; eauto;
    intros [H|[ts H]]; discriminate.
Qed.

Lemma anomaly_block_raises (df : DataFrame) (e : exn) :
  snd (anomaly_block df) = Raise e ->
  e = AttributeError \/ e = TypeError \/ e = ZeroDivisionError
  \/ e = KeyError "timestamp".
Proof.
  unfold anomaly_block.
  destruct (df_get "heartRate" df) as [hrc|] eqn:Hhr; [|discriminate].
  destruct (zscore_column hrc) as [z|e0] eqn:Hz.
  - cbv zeta. destruct (_ =? 0)%nat; [intros [= <-]; auto|].
    destruct (0 <? _)%nat; [|discriminate].
    unfold anomaly_records.
    rewrite (df_get_set_other "hr_zscore" "timestamp") by reflexivity.
    rewrite (df_get_set_other "hr_zscore" "heartRate") by reflexivity.
    rewrite df_get_set_same, Hhr.
    destruct (df_get "timestamp" df); simpl; [discriminate|intros [= <-]; auto].
  - simpl. intros [= <-].
    destruct hrc as [v|[|s v]|v]; simpl in Hz; try discriminate;
      injection Hz as <-; auto.
Qed.

Lemma anomaly_block_returns_iff (df : DataFrame) :
  (df_get "heartRate" df = None
   \/ exists v, df_get "heartRate" df = Some (NumCol v)) ->
  is_ok (snd (anomaly_block df)) = true
  <-> (df_get "heartRate" df = None
       \/ exists v, df_get "heartRate" df = Some (NumCol v)
            /\ df_len df <> 0
            /\ (df_get "timestamp" df <> None
                \/ forall s, In s (map fabs (zscore v)) ->
                     fgt s (Fin anomaly_threshold) = false)).
Proof.
  intros Hnum. unfold anomaly_block.
  destruct Hnum as [Hhr|[v Hhr]]; rewrite Hhr; [simpl; split; auto|].
  simpl zscore_column. cbv zeta. simpl df_len.
  destruct (Nat.eqb_spec (df_len df) 0) as [H0|H0].
  - simpl. split; [discriminate|].
    intros [H|(v' & _ & Hne & _)]; [discriminate|contradiction].
  - rewrite filter_true_map.
    set (p := fun s => fgt s (Fin anomaly_threshold)).
    destruct (Nat.ltb_spec 0 (length (List.filter p (map fabs (zscore v)))))
      as [Hpos|Hnone].
    + unfold anomaly_records.
      rewrite (df_get_set_other "hr_zscore" "timestamp") by reflexivity.
      rewrite (df_get_set_other "hr_zscore" "heartRate") by reflexivity.
      rewrite df_get_set_same, Hhr.
      destruct (df_get "timestamp" df) as [tsc|] eqn:Hts; simpl.
      * split; [intros _|reflexivity]. right. exists v.
        split; [reflexivity|]. split; [exact H0|]. left. discriminate.
      * split; [discriminate|].
        intros [H|(v' & Hv' & _ & [H|H])]; [discriminate|contradiction|].
        injection Hv' as <-. apply filter_nil_iff in H. fold p in H.
        rewrite H in Hpos. simpl in Hpos. lia.
    + simpl. split; [intros _|reflexivity]. right. exists v.
      split; [reflexivity|]. split; [exact H0|]. right.
      apply filter_nil_iff. fold p.
      destruct (List.filter p (map fabs (zscore v))); [reflexivity|simpl in Hnone; lia].
Qed.

(** X26 ([analyze_data], when it returns).  On a frame whose heart rates,
    if there are any, are numeric, the analysis returns a report exactly
    when the timestamps, if there are any, are datetimes, and, when there
    are heart rates, the batch has at least one record and, where there is
    no [timestamp] column, no heart rate has an absolute z-score above 2.
    When it raises, the exception is [AttributeError], [TypeError],
    [ZeroDivisionError] or [KeyError] for the timestamp column.  The
    z-scores are the exact real quotients: a score of exactly 2 is not above
    2 here, where the doubles of the code may round it to either side.
    Heart rates that are not numbers are left aside: what becomes of them
    depends on the libraries. *)
Theorem analyze_data_returns_iff (df : DataFrame) :
  (df_get "heartRate" df = None
   \/ exists v, df_get "heartRate" df = Some (NumCol v)) ->
  (is_ok (snd (analyze_data df)) = true
   <-> (df_get "timestamp" df = None
        \/ exists ts, df_get "timestamp" df = Some (TimeCol ts))
       /\ (df_get "heartRate" df = None
           \/ exists v, df_get "heartRate" df = Some (NumCol v)
                /\ df_len df <> 0
                /\ (df_get "timestamp" df <> None
                    \/ forall s, In s (map fabs (zscore v)) ->
                         fgt s (Fin anomaly_threshold) = false)))
  /\ (forall e, snd (analyze_data df) = Raise e ->
        e = AttributeError \/ e = TypeError \/ e = ZeroDivisionError
        \/ e = KeyError "timestamp").
Proof.
  intros Hnum.
  pose proof (date_range_block_returns_iff df) as Hdate.
  pose proof (anomaly_block_returns_iff df Hnum) as Hanom.
  pose proof (anomaly_block_raises df) as Hraise.
  pose proof (anomaly_block_touches df) as [_ Hget].
  unfold analyze_data.
  destruct (date_range_block df) as [dr|e0] eqn:Hdr.
  - destruct (anomaly_block df) as [df1 [anom|e1]] eqn:Hab; simpl in *.
    + assert (Hact : exists bd st, activity_block df1 = Ok (bd, st)).
      { unfold activity_block. rewrite (Hget "heartRate" eq_refl).
        destruct Hnum as [-> | (v & ->)];
          destruct (df_get "activity" df1); eauto. }
      destruct Hact as (bd & st & ->). simpl. split.
      * split; [intros _|reflexivity]. split; [now apply Hdate|now apply Hanom].
      * discriminate.
    + split.
      * split; [discriminate|]. intros [_ H]. apply Hanom in H. discriminate.
      * intros e [= <-]. destruct (Hraise e1 eq_refl) as [-> | [-> | [-> | ->]]]; auto.
  - simpl. split.
    + split; [discriminate|]. intros [H _]. apply Hdate in H. discriminate.
    + intros e [= <-]. destruct (date_range_block_raises df e0 Hdr) as [-> | ->]; auto.
Qed.

End SecondRun.

(** Two records: the second report has the z-scores among its statistics. *)
Lemma analyze_data_twice_witness :
  exists (df1 : DataFrame) (r r2 : Report),
    analyze_data (L := stable_library) two_beats = (df1, Ok r)
    /\ analyze_data (L := stable_library) df1 = (df1, Ok r2)
    /\ anomalies r2 = anomalies r
    /\ In "hr_zscore" (map fst (statistics r2))
    /\ ~ In "hr_zscore" (map fst (statistics r)).
Proof.
  destruct (analyze_data_numeric (L := stable_library) two_beats [0; 1800]%Z [60; 80]%R
              ltac:(repeat constructor) eq_refl eq_refl ltac:(simpl; lia))
    as (dr & bd & st & Hrun).
  destruct (analyze_data_twice (L := stable_library) two_beats _ _ Hrun)
    as (r2 & Hrun2 & _ & _ & Hanom & _ & _ & _ & _ & Hin & Hnot).
  eexists _, _, r2. split; [exact Hrun|]. split; [exact Hrun2|].
  split; [exact Hanom|].
  split; [exact (proj2 (Hin eq_refl))|exact (proj2 (Hnot eq_refl))].
Defined.

Lemma analyze_data_returns_iff_witness :
  is_ok (snd (analyze_data (L := stable_library) six_beats)) = true.
Proof.
  apply (proj1 (analyze_data_returns_iff (L := stable_library) six_beats
                  (or_intror (ex_intro _ (map Fin six_rates) eq_refl)))).
  split.
  - right. now exists [0; 300; 600; 900; 1200; 1500]%Z.
  - right. exists (map Fin six_rates). split; [reflexivity|].
    split; [discriminate|]. left. discriminate.
Defined.

(** ** Rolling statistics: range *)

Section RollingRange.

Context {L : Library}.

Lemma In_lastn {A} (w : nat) (l : list A) (y : A) : In y (lastn w l) -> In y l.
Proof.
  unfold lastn. intros H. rewrite <- (firstn_skipn (length l - w) l).
  apply in_or_app. now right.
Qed.

(** A window holds values of the series only. *)
Lemma rolling_windows_from_In (w : nat) (l buf win : list float) (y : float) :
  In win (rolling_windows_from w buf l) -> In y win -> In y (buf ++ l).
Proof.
  revert buf. induction l as [|x t IH]; intros buf; simpl; [contradiction|].
  intros [<-|Hrest] Hy.
  - apply In_lastn in Hy. apply in_app_or in Hy. apply in_or_app.
    destruct Hy as [Hy|[<-|[]]]; [now left|right; now left].
  - specialize (IH _ Hrest Hy). apply in_app_or in IH. apply in_or_app.
    destruct IH as [Hb|Ht]; [|right; now right].
    apply In_lastn in Hb. apply in_app_or in Hb.
    destruct Hb as [Hb|[<-|[]]]; [now left|right; now left].
Qed.

Lemma finite_values_In (l : list float) (x : R) :
  In x (finite_values l) <-> In (Fin x) l.
Proof.
  induction l as [|[y|] l IH]; simpl.
  - reflexivity.
  - rewrite IH. split; intros [H|H]; auto; left; congruence.
  - rewrite IH. split; [auto|]. intros [H|H]; [discriminate|exact H].
Qed.

Lemma series_mean_within (lo hi : R) (win : list float) :
  (forall x, In (Fin x) win -> lo <= x <= hi)%R ->
  match series_mean win with NaN => True | Fin m => (lo <= m <= hi)%R end.
Proof.
  intros Hb. unfold series_mean.
  destruct (finite_values win) as [|x xs] eqn:E; [exact I|].
  apply Rmean_bounds; [discriminate|].
  intros y Hy. apply Hb. apply finite_values_In. now rewrite E.
Qed.

(** X27 ([calculate_rolling_stats], the range of its columns).  Whatever
    the window and the order of the records, a rolling mean of the heart
    rate is undefined or lies between any two bounds of the heart rates of
    the batch (in exact arithmetic), and a rolling standard deviation is
    undefined or not negative. *)
Theorem rolling_statistics_within_range
    (df : DataFrame) (window : Z) (hr hrv : list float) (lo hi : R) :
  (1 <= window)%Z ->
  df_get "heartRate" df = Some (NumCol hr) ->
  df_get "hrv" df = Some (NumCol hrv) ->
  (forall x, In (Fin x) hr -> (lo <= x <= hi)%R) ->
  exists (df' : DataFrame) (means stds : list float),
    calculate_rolling_stats df window = Ok df'
    /\ df_get "hr_rolling_mean" df' = Some (NumCol means)
    /\ df_get "hr_rolling_std" df' = Some (NumCol stds)
    /\ List.Forall (fun m => match m with NaN => True | Fin x => (lo <= x <= hi)%R end)
                   means
    /\ List.Forall (fun s => match s with NaN => True | Fin x => (0 <= x)%R end) stds.
Proof.
  intros Hw Hhr Hhrv Hb.
  pose proof (df_get_sort_values df "heartRate" hr Hhr) as Hsorted.
  destruct Hsorted as (hr' & Hhr' & Hsub).
  destruct (proj2 (df_get_sort_numeric df "hrv") (ex_intro _ hrv Hhrv)) as [hrv' Hhrv'].
  rewrite (calculate_rolling_stats_run df window hr' hrv' Hw Hhr' Hhrv'). cbv zeta.
  eexists _, _, _. split; [reflexivity|].
  split.
  { rewrite !df_get_set_other by reflexivity. apply df_get_set_same. }
  split.
  { rewrite !df_get_set_other by reflexivity. apply df_get_set_same. }
  split.
  - apply List.Forall_forall. intros m Hm. apply in_map_iff in Hm.
    destruct Hm as (win & <- & Hwin). apply series_mean_within.
    intros x Hx. apply Hb, Hsub.
    exact (rolling_windows_from_In _ _ _ _ _ Hwin Hx).
  - apply List.Forall_forall. intros s Hs. apply in_map_iff in Hs.
    destruct Hs as (win & <- & _).
    destruct (series_std win) as [x|] eqn:E; [|exact I].
    exact (proj2 (series_std_nonneg win) x E).
Qed.

End RollingRange.

Lemma rolling_statistics_within_range_witness :
  exists (df' : DataFrame) (means : list float),
    calculate_rolling_stats (L := stable_library)
      {| df_len := 3;
         df_cols := [("timestamp", TimeCol [1800; 0; 3600]%Z);
                     ("heartRate", NumCol [Fin 70; Fin 80; NaN]%R);
                     ("hrv", NumCol [Fin 50; Fin 55; NaN]%R)] |} 2 = Ok df'
    /\ df_get "hr_rolling_mean" df' = Some (NumCol means)
    /\ List.Forall (fun m => match m with NaN => True | Fin x => (70 <= x <= 80)%R end)
                   means.
Proof.
  destruct (rolling_statistics_within_range (L := stable_library)
              {| df_len := 3;
                 df_cols := [("timestamp", TimeCol [1800; 0; 3600]%Z);
                             ("heartRate", NumCol [Fin 70; Fin 80; NaN]%R);
                             ("hrv", NumCol [Fin 50; Fin 55; NaN]%R)] |}
              2 [Fin 70; Fin 80; NaN]%R [Fin 50; Fin 55; NaN]%R 70 80
              ltac:(lia) eq_refl eq_refl)
    as (df' & means & stds & Hrun & Hmeans & _ & Hrange & _).
  { intros x Hx. simpl in Hx.
    destruct Hx as [Hx|[Hx|[Hx|[]]]]; try discriminate; injection Hx as <-; lra. }
  exists df', means. split; [exact Hrun|]. split; assumption.
Defined.

